(** * labjack_daq_node.cpp: command validation and StreamData extraction

    A shallow embedding of [src/labjack_daq_node.cpp]: the four
    command/response operations ([ConfigIO_example], [StreamConfig_example],
    [StreamStart], [StreamStop]) and the periodic callback
    [LabjackNode::onReadAndPubTimer].

    - bytes, [int]s and [uint16]s are [Z]; the wrap of a cast is written out;
    - a receive buffer is a [list Z], indexed from 0;
    - [voltages] is a finite map from [(scan, channel)] to the value stored
      there (no entry: never written), every access is bounds-checked
      against the declared dimensions, and an access outside them is the
      outcome [None] / [Undefined];
    - the console ([printf], [RCLCPP_ERROR], [RCLCPP_DEBUG]), the frames handed
      to [LJUSB_Write] and the messages handed to [adcPub_->publish] are
      fields of an explicit [World];
    - what the USB transport answers ([sendChars], [recChars] and the bytes
      received) is an argument of each operation. *)

From Stdlib Require Import ZArith Lia String.
From stdpp Require Import base option list gmap.

Local Open Scope Z_scope.

(** ** The driver interface (u3.h) *)

(** [u3.h] / [u3.c] are not among the sources: the checksum routines and the
    calibration routines are taken as an interface.  The two floating-point
    types stay abstract; the test [hardwareVersion >= 1.30] is a boolean of
    the calibration record. *)
Class U3Driver := {
  double : Type;
  float32 : Type;
  (* the implicit conversion of [msgAdc.data[k] = voltages[..][k]] *)
  double_to_float : double -> float32;
  u3CalibrationInfo : Type;
  (* [caliInfo_.hardwareVersion >= 1.30] *)
  hardwareVersion_ge_1_30 : u3CalibrationInfo -> bool;
  (* (caliInfo, positiveChannel, negChannel, bytesVolt) -> *analogVolt *)
  getAinVoltCalibrated_hw130 : u3CalibrationInfo -> Z -> Z -> Z -> double;
  (* (caliInfo, dac1Enabled, negChannel, bytesVolt) -> *analogVolt *)
  getAinVoltCalibrated : u3CalibrationInfo -> Z -> Z -> Z -> double;
  extendedChecksum16 : list Z -> Z -> Z;
  extendedChecksum8 : list Z -> Z;
  normalChecksum8 : list Z -> Z -> Z
}.

(** The compile-time constants of the node.  The source fixes them
    ([u3_params] below); the functions are written over the names. *)
Class StreamParams := {
  NumChannels : Z;
  SamplesPerPacket : Z;
  readSizeMultiplier : Z;
  numReadsPerDisplay : Z
}.

(** ** Console, transport and publisher *)

Inductive sink := Stdout | LogError | LogDebug.

(** One call of [printf] or of a logging macro: the format string as it is
    written in the source (the two characters backslash, n stand for the
    newline) and the integer arguments. *)
Record Msg := mkMsg { msg_sink : sink; msg_fmt : string; msg_args : list Z }.

(** [F] is the element type of the published array. *)
Record World (F : Type) := mkWorld {
  usb_written : list (list Z);
  console : list Msg;
  published : list (list F)
}.
Arguments mkWorld {F} _ _ _.
Arguments usb_written {F} _.
Arguments console {F} _.
Arguments published {F} _.

Definition emit {F} (s : sink) (fmt : string) (args : list Z)
    (w : World F) : World F :=
  mkWorld (usb_written w) (console w ++ [mkMsg s fmt args]) (published w).

Definition printf {F} := @emit F Stdout.
Definition RCLCPP_ERROR {F} := @emit F LogError.
Definition RCLCPP_DEBUG {F} := @emit F LogDebug.

Definition LJUSB_Write {F} (buff : list Z) (w : World F) : World F :=
  mkWorld (usb_written w ++ [buff]) (console w) (published w).

Definition publish {F} (data : list F) (w : World F) : World F :=
  mkWorld (usb_written w) (console w) (published w ++ [data]).

(** [b[i]] *)
Definition byte_at (b : list Z) (i : Z) : Z := default 0 (b !! Z.to_nat i).

(** [b + off] *)
Definition offset (b : list Z) (off : Z) : list Z := drop (Z.to_nat off) b.

(** [b[i] = v] *)
Definition set_byte (b : list Z) (i : Z) (v : Z) : list Z :=
  <[Z.to_nat i := v]> b.

Definition uint8 (z : Z) : Z := z mod 256.
Definition uint16 (z : Z) : Z := z mod 65536.

(** Modelled from the spec: [extendedChecksum] of u3.c is not among the
    sources.  "the result's low and high bytes are written into two fixed
    header positions"; the positions are those the validators of this file
    read back (4 and 5), and byte 0 takes the 8-bit checksum. *)
Definition extendedChecksum `{U3Driver} (b : list Z) (n : Z) : list Z :=
  let a := extendedChecksum16 b n in
  let b := set_byte b 4 (uint8 (Z.land a 255)) in
  let b := set_byte b 5 (uint8 (Z.land (a / 256) 255)) in
  set_byte b 0 (extendedChecksum8 b).

(** ** ConfigIO_example *)

Definition ConfigIO_sendBuff `{U3Driver} : list Z :=
  extendedChecksum [0; 248; 3; 11; 0; 0; 13; 0; 64; 0; 255; 255] 12.

(** [sendChars] is the answer of [LJUSB_Write], [(recChars, recBuff)] that
    of [LJUSB_Read]; [isDAC1Enabled] is the pointee, returned updated. *)
Definition ConfigIO_example `{U3Driver} (sendChars : Z) (rd : Z * list Z)
    (isDAC1Enabled : Z) (w : World float32) : Z * Z * World float32 :=
  let '(recChars, recBuff) := rd in
  let w := printf "ConfigIO_example...\n" [] w in
  let w := LJUSB_Write ConfigIO_sendBuff w in
  if sendChars <? 12 then
    if sendChars =? 0
    then (-1, isDAC1Enabled, printf "ConfigIO error : write failed\n" [] w)
    else (-1, isDAC1Enabled,
          printf "ConfigIO error : did not write all of the buffer\n" [] w)
  else if recChars <? 12 then
    if recChars =? 0
    then (-1, isDAC1Enabled, printf "ConfigIO error : read failed\n" [] w)
    else (-1, isDAC1Enabled,
          printf "ConfigIO error : did not read all of the buffer\n" [] w)
  else
  let checksumTotal := uint16 (extendedChecksum16 recBuff 12) in
  if negb (uint8 (Z.land (checksumTotal / 256) 255) =? byte_at recBuff 5) then
    (-1, isDAC1Enabled,
     printf "ConfigIO error : read buffer has bad checksum16(MSB)\n" [] w)
  else if negb (uint8 (Z.land checksumTotal 255) =? byte_at recBuff 4) then
    (-1, isDAC1Enabled,
     printf "ConfigIO error : read buffer has bad checksum16(LBS)\n" [] w)
  else if negb (extendedChecksum8 recBuff =? byte_at recBuff 0) then
    (-1, isDAC1Enabled,
     printf "ConfigIO error : read buffer has bad checksum8\n" [] w)
  else if negb (byte_at recBuff 1 =? 248) || negb (byte_at recBuff 2 =? 3)
          || negb (byte_at recBuff 3 =? 11) then
    (-1, isDAC1Enabled,
     printf "ConfigIO error : read buffer has wrong command bytes\n" [] w)
  else if negb (byte_at recBuff 6 =? 0) then
    (-1, isDAC1Enabled,
     printf "ConfigIO error : read buffer received errorcode %d\n"
       [byte_at recBuff 6] w)
  else if negb (byte_at recBuff 8 =? 64) then
    (-1, isDAC1Enabled,
     printf "ConfigIO error : TimerCounterConfig did not get set correctly\n"
       [] w)
  else if negb (byte_at recBuff 10 =? 255) && negb (byte_at recBuff 10 =? 15)
  then
    (-1, isDAC1Enabled,
     printf "ConfigIO error : FIOAnalog did not set get correctly\n" [] w)
  else if negb (byte_at recBuff 11 =? 255) then
    (-1, isDAC1Enabled,
     printf "ConfigIO error : EIOAnalog did not set get correctly (%d)\n"
       [byte_at recBuff 11] w)
  else
    (0, byte_at recBuff 9, printf "ConfigIO_example... OK\n" [] w).

(** ** StreamConfig_example *)

(** [for (i = 0; i < NumChannels; i++) { sendBuff[12 + i*2] = i;
    sendBuff[13 + i*2] = 31; }], [n] iterations from [i]. *)
Fixpoint StreamConfig_channels (n : nat) (i : Z) (sendBuff : list Z) : list Z :=
  match n with
  | O => sendBuff
  | S n' =>
      let sendBuff := set_byte sendBuff (12 + i * 2) (uint8 i) in
      let sendBuff := set_byte sendBuff (13 + i * 2) 31 in
      StreamConfig_channels n' (i + 1) sendBuff
  end.

(** The first [sendBuffSize] bytes of [uint8 sendBuff[64]] (the bytes the
    source never assigns are overwritten by [extendedChecksum] or lie
    beyond [sendBuffSize]). *)
Definition StreamConfig_sendBuff `{U3Driver} `{StreamParams} : list Z :=
  let sendBuffSize := 12 + NumChannels * 2 in
  let scanInterval := uint16 4000 in
  let b := replicate 64 0 in
  let b := set_byte b 1 248 in
  let b := set_byte b 2 (uint8 (3 + NumChannels)) in
  let b := set_byte b 3 17 in
  let b := set_byte b 6 (uint8 NumChannels) in
  let b := set_byte b 7 (uint8 SamplesPerPacket) in
  let b := set_byte b 8 0 in
  let b := set_byte b 9 1 in
  let b := set_byte b 10 (uint8 (Z.land scanInterval 255)) in
  let b := set_byte b 11 (uint8 (scanInterval / 256)) in
  let b := StreamConfig_channels (Z.to_nat NumChannels) 0 b in
  take (Z.to_nat sendBuffSize) (extendedChecksum b sendBuffSize).

(** [for (i = 0; i < 8; i++) printf("%d ", recBuff[i]);] *)
Definition print_recBuff {F} (recBuff : list Z) (w : World F) : World F :=
  foldl (fun w i => printf "%d " [byte_at recBuff i] w) w
        [0; 1; 2; 3; 4; 5; 6; 7].

Definition StreamConfig_example `{U3Driver} `{StreamParams} (sendChars : Z)
    (rd : Z * list Z) (w : World float32) : Z * World float32 :=
  let '(recChars, recBuff) := rd in
  let sendBuffSize := 12 + NumChannels * 2 in
  let w := LJUSB_Write StreamConfig_sendBuff w in
  if sendChars <? sendBuffSize then
    if sendChars =? 0
    then (-1, printf "Error : write failed (StreamConfig).\n" [] w)
    else (-1, printf "Error : did not write all of the buffer (StreamConfig).\n"
                [] w)
  else if recChars <? 8 then
    let w :=
      if recChars =? 0
      then printf "Error : read failed (StreamConfig).\n" [] w
      else printf "Error : did not read all of the buffer, %d (StreamConfig).\n"
             [recChars] w in
    (-1, print_recBuff recBuff w)
  else
  let checksumTotal := uint16 (extendedChecksum16 recBuff 8) in
  if negb (uint8 (Z.land (checksumTotal / 256) 255) =? byte_at recBuff 5) then
    (-1, printf "Error : read buffer has bad checksum16(MSB) (StreamConfig).\n"
           [] w)
  else if negb (uint8 (Z.land checksumTotal 255) =? byte_at recBuff 4) then
    (-1, printf "Error : read buffer has bad checksum16(LBS) (StreamConfig).\n"
           [] w)
  else if negb (extendedChecksum8 recBuff =? byte_at recBuff 0) then
    (-1, printf "Error : read buffer has bad checksum8 (StreamConfig).\n" [] w)
  else if negb (byte_at recBuff 1 =? 248) || negb (byte_at recBuff 2 =? 1)
          || negb (byte_at recBuff 3 =? 17) || negb (byte_at recBuff 7 =? 0)
  then
    (-1, printf "Error : read buffer has wrong command bytes (StreamConfig).\n"
           [] w)
  else if negb (byte_at recBuff 6 =? 0) then
    (-1, printf "Errorcode # %d from StreamConfig read.\n"
           [byte_at recBuff 6] w)
  else (0, w).

(** ** StreamStart and StreamStop *)

Definition StreamStart `{U3Driver} (sendChars : Z) (rd : Z * list Z)
    (w : World float32) : Z * World float32 :=
  let '(recChars, recBuff) := rd in
  let w := LJUSB_Write [168; 168] w in
  if sendChars <? 2 then
    if sendChars =? 0
    then (-1, printf "Error : write failed.\n" [] w)
    else (-1, printf "Error : did not write all of the buffer.\n" [] w)
  else if recChars <? 4 then
    if recChars =? 0
    then (-1, printf "Error : read failed.\n" [] w)
    else (-1, printf "Error : did not read all of the buffer.\n" [] w)
  else if negb (normalChecksum8 recBuff 4 =? byte_at recBuff 0) then
    (-1, printf "Error : read buffer has bad checksum8 (StreamStart).\n" [] w)
  else if negb (byte_at recBuff 1 =? 169) || negb (byte_at recBuff 3 =? 0) then
    (-1, printf "Error : read buffer has wrong command bytes \n" [] w)
  else if negb (byte_at recBuff 2 =? 0) then
    (-1, printf "Errorcode # %d from StreamStart read.\n" [byte_at recBuff 2] w)
  else (0, w).

Definition StreamStop `{U3Driver} (sendChars : Z) (rd : Z * list Z)
    (w : World float32) : Z * World float32 :=
  let '(recChars, recBuff) := rd in
  let w := LJUSB_Write [176; 176] w in
  if sendChars <? 2 then
    if sendChars =? 0
    then (-1, printf "Error : write failed (StreamStop).\n" [] w)
    else (-1, printf "Error : did not write all of the buffer (StreamStop).\n"
                [] w)
  else if recChars <? 4 then
    if recChars =? 0
    then (-1, printf "Error : read failed (StreamStop).\n" [] w)
    else (-1, printf "Error : did not read all of the buffer (StreamStop).\n"
                [] w)
  else if negb (normalChecksum8 recBuff 4 =? byte_at recBuff 0) then
    (-1, printf "Error : read buffer has bad checksum8 (StreamStop).\n" [] w)
  else if negb (byte_at recBuff 1 =? 177) || negb (byte_at recBuff 3 =? 0) then
    (-1, printf "Error : read buffer has wrong command bytes (StreamStop).\n"
           [] w)
  else if negb (byte_at recBuff 2 =? 0) then
    (* the printf of this branch is compiled out (#if 0) *)
    (-1, w)
  else (0, w).

(** ** LabjackNode::onReadAndPubTimer *)

(** The members the callback reads ([hDevice_] is only handed to the
    transport). *)
Record LabjackNode (C : Type) := mkNode {
  caliInfo_ : C;
  dac1Enabled_ : Z
}.
Arguments mkNode {C} _ _.
Arguments caliInfo_ {C} _.
Arguments dac1Enabled_ {C} _.

(** The local variables that live across the loops. *)
Record locals (D : Type) := mkLocals {
  currChannel : Z;
  scanNumber : Z;
  totalPackets : Z;
  autoRecoveryOn : Z;
  voltages : gmap (Z * Z) D
}.
Arguments mkLocals {D} _ _ _ _ _.
Arguments currChannel {D} _.
Arguments scanNumber {D} _.
Arguments totalPackets {D} _.
Arguments autoRecoveryOn {D} _.
Arguments voltages {D} _.

(** How a loop body ends: it falls through, the callback [return]s, or an
    array is accessed outside its bounds. *)
Inductive flow (F A : Type) :=
  | Next (a : A)
  | Return (w : World F)
  | Undefined.
Arguments Next {F A} _.
Arguments Return {F A} _.
Arguments Undefined {F A}.

Section Stream.
Context `{U3Driver} `{StreamParams}.

Local Abbreviation World := (World float32).
Local Abbreviation LabjackNode := (LabjackNode u3CalibrationInfo).
Local Abbreviation locals := (locals double).
Local Abbreviation flow := (flow float32).

Definition responseSize : Z := 14 + SamplesPerPacket * 2.
Definition recBuffSize : Z := 14 + SamplesPerPacket * 2.

(** First dimension of [double voltages[..][NumChannels]]. *)
Definition voltages_rows : Z :=
  (SamplesPerPacket ÷ NumChannels) * readSizeMultiplier * numReadsPerDisplay.

Definition in_bounds (s c : Z) : bool :=
  (0 <=? s) && (s <? voltages_rows) && (0 <=? c) && (c <? NumChannels).

(** [voltages[s][c] = v] *)
Definition store (a : gmap (Z * Z) double) (s c : Z) (v : double)
    : option (gmap (Z * Z) double) :=
  if in_bounds s c then Some (<[(s, c) := v]> a) else None.

(** [voltages[s][c]]; reading a cell that was never written has no
    defined value either. *)
Definition load (a : gmap (Z * Z) double) (s c : Z) : option double :=
  if in_bounds s c then a !! (s, c) else None.

Definition init_locals : locals := mkLocals 0 0 0 0 ∅.

(** The [if (hardwareVersion >= 1.30) .. else ..] of the inner loop. *)
Definition calibrate (node : LabjackNode) (currChannel voltageBytes : Z)
    : double :=
  if hardwareVersion_ge_1_30 (caliInfo_ node)
  then getAinVoltCalibrated_hw130 (caliInfo_ node) currChannel 31
         voltageBytes
  else getAinVoltCalibrated (caliInfo_ node) (dac1Enabled_ node) 31
         voltageBytes.

(** Body of [for (k = 12; k < 12 + SamplesPerPacket*2; k += 2)]. *)
Definition sample_body (node : LabjackNode) (recBuff : list Z) (m k : Z)
    (l : locals) : option locals :=
  let voltageBytes :=
    uint16 (byte_at recBuff (m * recBuffSize + k)
            + byte_at recBuff (m * recBuffSize + k + 1) * 256) in
  match store (voltages l) (scanNumber l) (currChannel l)
          (calibrate node (currChannel l) voltageBytes) with
  | None => None
  | Some v =>
      let c := currChannel l + 1 in
      if NumChannels <=? c
      then Some (mkLocals 0 (scanNumber l + 1) (totalPackets l)
                   (autoRecoveryOn l) v)
      else Some (mkLocals c (scanNumber l) (totalPackets l)
                   (autoRecoveryOn l) v)
  end.

(** The [k] loop, [n] iterations from [k]. *)
Fixpoint for_k (node : LabjackNode) (recBuff : list Z) (m : Z) (n : nat)
    (k : Z) (l : locals) : option locals :=
  match n with
  | O => Some l
  | S n' =>
      match sample_body node recBuff m k l with
      | None => None
      | Some l' => for_k node recBuff m n' (k + 2) l'
      end
  end.

(** Body of [for (m = 0; m < readSizeMultiplier; m++)], first half: the
    checks of packet [m] and the branch on its status byte.  [tp] is
    [totalPackets] after its increment; the result is the new value of
    [autoRecoveryOn]. *)
Definition packet_status (recBuff : list Z) (m tp autoRecoveryOn : Z)
    (w : World) : flow (Z * World) :=
  let base := m * recBuffSize in
  let checksumTotal :=
    uint16 (extendedChecksum16 (offset recBuff base) recBuffSize) in
  if negb (uint8 (Z.land (checksumTotal / 256) 255)
           =? byte_at recBuff (base + 5)) then
    Return (RCLCPP_ERROR
      "Error : read buffer has bad checksum16(MSB) (StreamData).\n" [] w)
  else if negb (uint8 (Z.land checksumTotal 255)
                =? byte_at recBuff (base + 4)) then
    Return (RCLCPP_ERROR
      "Error : read buffer has bad checksum16(LBS) (StreamData).\n" [] w)
  else
  let checksumTotal := uint16 (extendedChecksum8 (offset recBuff base)) in
  if negb (checksumTotal =? byte_at recBuff base) then
    Return (RCLCPP_ERROR
      "Error : read buffer has bad checksum8 (StreamData).\n" [] w)
  else if negb (byte_at recBuff (base + 1) =? 249)
          || negb (byte_at recBuff (base + 2) =? 4 + SamplesPerPacket)
          || negb (byte_at recBuff (base + 3) =? 192) then
    Return (RCLCPP_ERROR
      "Error : read buffer has wrong command bytes (StreamData).\n" [] w)
  else if byte_at recBuff (base + 11) =? 59 then
    if autoRecoveryOn =? 0 then
      Next (1, printf
        "\nU3 data buffer overflow detected in packet %d.\nNow using auto-recovery and reading buffered samples.\n"
        [tp] w)
    else Next (autoRecoveryOn, w)
  else if byte_at recBuff (base + 11) =? 60 then
    Next (0, printf
      "Auto-recovery report in packet %d: %d scans were dropped.\nAuto-recovery is now off.\n"
      [tp; byte_at recBuff (base + 6) + byte_at recBuff (base + 7) * 256] w)
  else if negb (byte_at recBuff (base + 11) =? 0) then
    Return (RCLCPP_ERROR "Errorcode # %d from StreamData read.\n"
                 [byte_at recBuff 11] w)
  else Next (autoRecoveryOn, w).

(** The whole body: [totalPackets++], the checks and the status branch,
    then the [k] loop over the samples of packet [m]. *)
Definition packet_body (node : LabjackNode) (recBuff : list Z) (m : Z)
    (st : locals * World) : flow (locals * World) :=
  let '(l, w) := st in
  let totalPackets' := totalPackets l + 1 in
  match packet_status recBuff m totalPackets' (autoRecoveryOn l) w with
  | Return w' => Return w'
  | Undefined => Undefined
  | Next (autoRecoveryOn', w') =>
      match for_k node recBuff m (Z.to_nat SamplesPerPacket) 12
              (mkLocals (currChannel l) (scanNumber l) totalPackets'
                 autoRecoveryOn' (voltages l)) with
      | None => Undefined
      | Some l' => Next (l', w')
      end
  end.

(** The [m] loop, [n] iterations from [m]. *)
Fixpoint for_m (node : LabjackNode) (recBuff : list Z) (n : nat) (m : Z)
    (st : locals * World) : flow (locals * World) :=
  match n with
  | O => Next st
  | S n' =>
      match packet_body node recBuff m st with
      | Next st' => for_m node recBuff n' (m + 1) st'
      | Return w => Return w
      | Undefined => Undefined
      end
  end.

(** Body of [for (j = 0; j < numReadsPerDisplay; j++)];
    [(recChars, recBuff)] is what [LJUSB_Stream] answers. *)
Definition read_body (node : LabjackNode) (rd : Z * list Z)
    (st : locals * World) : flow (locals * World) :=
  let '(recChars, recBuff) := rd in
  let '(l, w) := st in
  if recChars <? responseSize * readSizeMultiplier then
    if recChars =? 0
    then Return (RCLCPP_ERROR "Error : read failed (StreamData).\n" [] w)
    else Return (RCLCPP_ERROR
      "Error : did not read all of the buffer, expected %d bytes but received %d(StreamData).\n"
      [responseSize * readSizeMultiplier; recChars] w)
  else for_m node recBuff (Z.to_nat readSizeMultiplier) 0 (l, w).

(** The [j] loop, [n] iterations from [j]; [LJUSB_Stream j] is the
    transport's answer to the read of iteration [j]. *)
Fixpoint for_j (node : LabjackNode) (LJUSB_Stream : Z -> Z * list Z)
    (n : nat) (j : Z) (st : locals * World) : flow (locals * World) :=
  match n with
  | O => Next st
  | S n' =>
      match read_body node (LJUSB_Stream j) st with
      | Next st' => for_j node LJUSB_Stream n' (j + 1) st'
      | Return w => Return w
      | Undefined => Undefined
      end
  end.

(** [for (k = 0; k < NumChannels; k++) msgAdc.data[k] =
    voltages[scanNumber - 1][k];], [n] iterations from [k]. *)
Fixpoint read_scan (a : gmap (Z * Z) double) (s : Z) (n : nat) (k : Z)
    : option (list float32) :=
  match n with
  | O => Some []
  | S n' =>
      match load a s k with
      | None => None
      | Some v =>
          match read_scan a s n' (k + 1) with
          | None => None
          | Some data => Some (double_to_float v :: data)
          end
      end
  end.

(** Everything after the loops. *)
Definition emit_scan (l : locals) (w : World) : option World :=
  let w := RCLCPP_DEBUG "Number of scans: %d\n" [scanNumber l] w in
  let w := RCLCPP_DEBUG "Total packets read: %d\n" [totalPackets l] w in
  match read_scan (voltages l) (scanNumber l - 1) (Z.to_nat NumChannels) 0
  with
  | None => None
  | Some data => Some (publish data w)
  end.

(** The loops, from the initial values of the locals. *)
Definition stream_loops (node : LabjackNode)
    (LJUSB_Stream : Z -> Z * list Z) (w : World) : flow (locals * World) :=
  for_j node LJUSB_Stream (Z.to_nat numReadsPerDisplay) 0 (init_locals, w).

(** One call of the timer callback; [None]: undefined behaviour. *)
Definition onReadAndPubTimer (node : LabjackNode)
    (LJUSB_Stream : Z -> Z * list Z) (w : World) : option World :=
  match stream_loops node LJUSB_Stream w with
  | Return w' => Some w'
  | Undefined => None
  | Next (l, w') => emit_scan l w'
  end.

End Stream.

(** ** LabjackNode: constructor, destructor, main *)

(** What the transport answers to one command operation: [sendChars] of
    [LJUSB_Write], then [(recChars, recBuff)] of [LJUSB_Read]. *)
Definition answer : Type := Z * (Z * list Z).

(** How the constructor ends: a [std::runtime_error] with its text, or
    the node. *)
Inductive construction (C F : Type) :=
  | Thrown (what : string) (w : World F)
  | Constructed (node : LabjackNode C) (w : World F).
Arguments Thrown {C F} _ _.
Arguments Constructed {C F} _ _.

(** How [main] ends: with the exception of the constructor, which nothing
    catches, or by returning. *)
Inductive exit (F : Type) :=
  | Uncaught (what : string) (w : World F)
  | Returned (w : World F).
Arguments Uncaught {F} _ _.
Arguments Returned {F} _.

Section Node.
Context `{U3Driver} `{StreamParams}.

Local Abbreviation World := (World float32).
Local Abbreviation LabjackNode := (LabjackNode u3CalibrationInfo).

(** [LabjackNode::LabjackNode()].  [opened] tells whether
    [openUSBConnection] gave a handle, [cali] is the return value of
    [getCalibrationInfo] and the record it fills, [dac1Enabled0] is what
    the member [dac1Enabled_] holds before [ConfigIO_example] assigns it.
    The parameter, the timer and the publisher created at the end belong
    to rclcpp and are left out. *)
Definition LabjackNode_new (opened : bool) (cali : Z * u3CalibrationInfo)
    (dac1Enabled0 : Z)
    (a_ConfigIO a_StreamStop a_StreamConfig a_StreamStart : answer)
    (w : World) : construction u3CalibrationInfo float32 :=
  if negb opened then Thrown "Error: openUSBConnection" w
  else if fst cali <? 0 then Thrown "Error: getCalibrationInfo" w
  else
  let '(r, dac1Enabled, w) :=
    ConfigIO_example (fst a_ConfigIO) (snd a_ConfigIO) dac1Enabled0 w in
  if negb (r =? 0) then Thrown "Error: ConfigIO_example" w
  else
  (* Stopping any previous streams: the return value is dropped *)
  let w := snd (StreamStop (fst a_StreamStop) (snd a_StreamStop) w) in
  let '(r, w) :=
    StreamConfig_example (fst a_StreamConfig) (snd a_StreamConfig) w in
  if negb (r =? 0) then Thrown "Error: StreamConfig_example" w
  else
  let '(r, w) := StreamStart (fst a_StreamStart) (snd a_StreamStart) w in
  if negb (r =? 0) then Thrown "Error: StreamStart" w
  else Constructed (mkNode (snd cali) dac1Enabled) w.

(** [LabjackNode::~LabjackNode()]: [StreamStop], its return value
    dropped, then [closeUSBConnection]. *)
Definition LabjackNode_delete (a_StreamStop : answer) (w : World) : World :=
  snd (StreamStop (fst a_StreamStop) (snd a_StreamStop) w).

(** [rclcpp::spin(node)], as far as this file goes: the timer callback,
    once per tick, each tick with the answers of its [LJUSB_Stream]
    calls. *)
Fixpoint spin (node : LabjackNode) (ticks : list (Z -> Z * list Z))
    (w : World) : option World :=
  match ticks with
  | [] => Some w
  | LJUSB_Stream :: ticks' =>
      match onReadAndPubTimer node LJUSB_Stream w with
      | None => None
      | Some w' => spin node ticks' w'
      end
  end.

(** [main]: the node is made, spun for the given ticks and destroyed. *)
Definition main (opened : bool) (cali : Z * u3CalibrationInfo)
    (dac1Enabled0 : Z)
    (a_ConfigIO a_StreamStop a_StreamConfig a_StreamStart : answer)
    (ticks : list (Z -> Z * list Z)) (a_last_StreamStop : answer)
    (w : World) : option (exit float32) :=
  match LabjackNode_new opened cali dac1Enabled0 a_ConfigIO a_StreamStop
          a_StreamConfig a_StreamStart w with
  | Thrown what w' => Some (Uncaught what w')
  | Constructed node w' =>
      match spin node ticks w' with
      | None => None
      | Some w'' => Some (Returned (LabjackNode_delete a_last_StreamStop w''))
      end
  end.

End Node.

(** ** The constants of the source and a driver to run the model with *)

(** [NumChannels = 5], [SamplesPerPacket = 25], [readSizeMultiplier = 5],
    [numReadsPerDisplay = 1]. *)
Definition u3_params : StreamParams :=
  {| NumChannels := 5; SamplesPerPacket := 25;
     readSizeMultiplier := 5; numReadsPerDisplay := 1 |}.

(** [b[from] + ... + b[to - 1]] *)
Definition sum_bytes (b : list Z) (from to : Z) : Z :=
  foldr Z.add 0 (take (Z.to_nat (to - from)) (drop (Z.to_nat from) b)).

(** Modelled from the spec: the three checksum routines of u3.c, which is
    not among the sources.  "16-bit sum over all bytes from offset 6 to
    length-1"; "8-bit checksum computed over a fixed subset of header bytes
    (bytes 1..5)"; "sum of all bytes except the checksum byte itself,
    truncated to 8 bits".  The 8-bit checksum of the extended family is
    taken, like the normal one, as the truncated sum. *)
Definition spec_extendedChecksum16 (b : list Z) (n : Z) : Z :=
  uint16 (sum_bytes b 6 n).
Definition spec_extendedChecksum8 (b : list Z) : Z :=
  uint8 (sum_bytes b 1 6).
Definition spec_normalChecksum8 (b : list Z) (n : Z) : Z :=
  uint8 (sum_bytes b 1 n).

(** A driver for evaluating the model: the checksums above, voltages that
    carry the arguments of the conversion that produced them, and a
    calibration record that is just the outcome of the version test. *)
Inductive test_volt :=
  | Volt_hw130 (positiveChannel negChannel bytesVolt : Z)
  | Volt_old (dac1Enabled negChannel bytesVolt : Z).

Definition test_driver : U3Driver :=
  {| double := test_volt;
     float32 := test_volt;
     double_to_float := fun v => v;
     u3CalibrationInfo := bool;
     hardwareVersion_ge_1_30 := fun c => c;
     getAinVoltCalibrated_hw130 := fun _ => Volt_hw130;
     getAinVoltCalibrated := fun _ => Volt_old;
     extendedChecksum16 := spec_extendedChecksum16;
     extendedChecksum8 := spec_extendedChecksum8;
     normalChecksum8 := spec_normalChecksum8 |}.

Definition test_node : LabjackNode bool := mkNode true 0.

Definition empty_world : World test_volt := mkWorld [] [] [].

(** The two payload bytes of a 16-bit code, low byte first. *)
Definition le16 (v : Z) : list Z := [v mod 256; v / 256].

(** A StreamData response for [SamplesPerPacket = 25] whose checksums are
    right: status byte [status], bytes 6 and 7 as given, and the 25 sample
    codes [first], [first + 1], ... *)
Definition test_packet (status b6 b7 first : Z) : list Z :=
  @extendedChecksum test_driver
    ([0; 249; 29; 192; 0; 0; b6; b7; 0; 0; 0; status]
       ++ mjoin ((fun i => le16 (first + i)) <$> seqZ 0 25) ++ [0; 0]) 64.

(** A full read: five packets, with the given status bytes. *)
Definition test_read (s0 s1 s2 s3 s4 : Z) : Z * list Z :=
  (320, test_packet s0 0 0 1000 ++ test_packet s1 0 0 2000
          ++ test_packet s2 0 0 3000 ++ test_packet s3 44 1 4000
          ++ test_packet s4 0 0 5000).

(** ConfigIO responses: an accepted one, with byte [i] replaced by [v], and
    the checksums recomputed or not. *)
Definition test_ConfigIO_response (i v : Z) (fix_checksum : bool) : list Z :=
  let ok :=
    @extendedChecksum test_driver [0; 248; 3; 11; 0; 0; 0; 0; 64; 0; 255; 255]
      12 in
  if fix_checksum then @extendedChecksum test_driver (set_byte ok i v) 12
  else set_byte ok i v.

(** ** Vocabulary of the statements *)

Section Vocabulary.
Context `{U3Driver} `{StreamParams}.

(** The 16-bit code the [k] loop decodes at offset [k] of packet [m]. *)
Definition sample_at (recBuff : list Z) (m k : Z) : Z :=
  uint16 (byte_at recBuff (m * recBuffSize + k)
          + byte_at recBuff (m * recBuffSize + k + 1) * 256).

(** The status byte of packet [m]. *)
Definition status_byte (recBuff : list Z) (m : Z) : Z :=
  byte_at recBuff (m * recBuffSize + 11).

(** Packet [m] passes the two checksum tests and the command-byte test of
    the [m] loop. *)
Definition checks_pass (recBuff : list Z) (m : Z) : bool :=
  let base := m * recBuffSize in
  let checksumTotal :=
    uint16 (extendedChecksum16 (offset recBuff base) recBuffSize) in
  (uint8 (Z.land (checksumTotal / 256) 255) =? byte_at recBuff (base + 5))
  && (uint8 (Z.land checksumTotal 255) =? byte_at recBuff (base + 4))
  && (uint16 (extendedChecksum8 (offset recBuff base)) =? byte_at recBuff base)
  && (byte_at recBuff (base + 1) =? 249)
  && (byte_at recBuff (base + 2) =? 4 + SamplesPerPacket)
  && (byte_at recBuff (base + 3) =? 192).

(** The status byte takes none of the three branches that go on. *)
Definition status_fatal (recBuff : list Z) (m : Z) : bool :=
  negb (status_byte recBuff m =? 59) && negb (status_byte recBuff m =? 60)
  && negb (status_byte recBuff m =? 0).

(** Number of samples stored so far, when counting starts at scan 0,
    channel 0. *)
Definition consumed {D} (l : locals D) : Z :=
  scanNumber l * NumChannels + currChannel l.

(** The constants for which the declared [voltages] holds every scan of a
    cycle: the source asks that "SamplesPerPacket needs to be a multiple of
    NumChannels". *)
Definition well_configured : Prop :=
  0 < NumChannels /\ 0 < SamplesPerPacket /\ 0 < readSizeMultiplier
  /\ 0 < numReadsPerDisplay /\ SamplesPerPacket mod NumChannels = 0.

(** A cycle meets a short read, or a packet that fails a check or reports
    a device error. *)
Definition cycle_fatal (LJUSB_Stream : Z -> Z * list Z) : Prop :=
  exists j, 0 <= j < numReadsPerDisplay
    /\ (fst (LJUSB_Stream j) < responseSize * readSizeMultiplier
        \/ exists m, 0 <= m < readSizeMultiplier
             /\ (checks_pass (snd (LJUSB_Stream j)) m = false
                 \/ status_fatal (snd (LJUSB_Stream j)) m = true)).

(** ** Console lines of the stream loop *)

Definition overflow_msg (tp : Z) : Msg :=
  mkMsg Stdout
    "\nU3 data buffer overflow detected in packet %d.\nNow using auto-recovery and reading buffered samples.\n"
    [tp].

Definition recovery_msg (tp droppedScans : Z) : Msg :=
  mkMsg Stdout
    "Auto-recovery report in packet %d: %d scans were dropped.\nAuto-recovery is now off.\n"
    [tp; droppedScans].

Definition errorcode_msg (code : Z) : Msg :=
  mkMsg LogError "Errorcode # %d from StreamData read.\n" [code].

(** One more line on the console, nothing else touched. *)
Definition say {F} (e : Msg) (w : World F) : World F :=
  mkWorld (usb_written w) (console w ++ [e]) (published w).

(** [w'] is [w] with more lines on the console: nothing was written to the
    device and nothing was published. *)
Definition extends {F} (w w' : World F) : Prop :=
  usb_written w' = usb_written w /\ published w' = published w
  /\ exists ms, console w' = console w ++ ms.

(** [w'] is [w] with more lines on the console, the last of them an error
    of the logger. *)
Definition aborts {F} (w w' : World F) : Prop :=
  usb_written w' = usb_written w /\ published w' = published w
  /\ exists ms e, console w' = console w ++ ms ++ [e]
       /\ msg_sink e = LogError.

(** [w] replayed after [w0]: what [w0] holds, then what [w] holds. *)
Definition prepend {F} (w0 w : World F) : World F :=
  mkWorld (usb_written w0 ++ usb_written w) (console w0 ++ console w)
    (published w0 ++ published w).

Definition flow_prepend {F A} (w0 : World F) (r : flow F (A * World F))
    : flow F (A * World F) :=
  match r with
  | Next (x, w) => Next (x, prepend w0 w)
  | Return w => Return (prepend w0 w)
  | Undefined => Undefined
  end.

(** ** The checks of the command responses *)

(** The three checksum tests of an extended response of [n] bytes. *)
Definition extended_checksums_ok (recBuff : list Z) (n : Z) : bool :=
  let checksumTotal := uint16 (extendedChecksum16 recBuff n) in
  (uint8 (Z.land (checksumTotal / 256) 255) =? byte_at recBuff 5)
  && (uint8 (Z.land checksumTotal 255) =? byte_at recBuff 4)
  && (extendedChecksum8 recBuff =? byte_at recBuff 0).

(** The checksum test of a 4-byte normal response. *)
Definition normal_checksum_ok (recBuff : list Z) : bool :=
  normalChecksum8 recBuff 4 =? byte_at recBuff 0.

(** The command-byte tests. *)
Definition ConfigIO_echo_ok (recBuff : list Z) : bool :=
  (byte_at recBuff 1 =? 248) && (byte_at recBuff 2 =? 3)
  && (byte_at recBuff 3 =? 11).
Definition StreamConfig_echo_ok (recBuff : list Z) : bool :=
  (byte_at recBuff 1 =? 248) && (byte_at recBuff 2 =? 1)
  && (byte_at recBuff 3 =? 17) && (byte_at recBuff 7 =? 0).
Definition StreamStart_echo_ok (recBuff : list Z) : bool :=
  (byte_at recBuff 1 =? 169) && (byte_at recBuff 3 =? 0).
Definition StreamStop_echo_ok (recBuff : list Z) : bool :=
  (byte_at recBuff 1 =? 177) && (byte_at recBuff 3 =? 0).

(** The world of [ConfigIO_example] once the command is handed to the
    transport. *)
Definition ConfigIO_sent (w : World float32) : World float32 :=
  LJUSB_Write ConfigIO_sendBuff (printf "ConfigIO_example...\n" [] w).

Definition TimerCounterConfig_msg : Msg :=
  mkMsg Stdout
    "ConfigIO error : TimerCounterConfig did not get set correctly\n" [].
Definition FIOAnalog_msg : Msg :=
  mkMsg Stdout "ConfigIO error : FIOAnalog did not set get correctly\n" [].
Definition EIOAnalog_msg (v : Z) : Msg :=
  mkMsg Stdout "ConfigIO error : EIOAnalog did not set get correctly (%d)\n"
    [v].

(** What a reader of the console can tell from a line. *)
Inductive failure_kind :=
  | ChecksumMismatch
  | UnexpectedResponseShape
  | DeviceError
  | SettingNotApplied.

Definition mentions (needle : string) (e : Msg) : bool :=
  match String.index 0 needle (msg_fmt e) with
  | Some _ => true
  | None => false
  end.

Definition line_kind (e : Msg) : option failure_kind :=
  if mentions "bad checksum" e then Some ChecksumMismatch
  else if mentions "wrong command bytes" e then Some UnexpectedResponseShape
  else if mentions "rrorcode" e then Some DeviceError
  else if mentions "correctly" e then Some SettingNotApplied
  else None.

Definition last_line_kind {F} (w : World F) : option failure_kind :=
  last (console w) ≫= line_kind.

(** What the caller of a command operation gets: [ret] is 0 or -1 whatever
    went wrong, 0 only if nothing did; which check failed shows in the
    last console line, unless the operation is [silent] about a device
    error code, in which case the console is as it was. *)
Definition generic_failure {F} (w : World F) (ret : Z) (w' : World F)
    (io_complete checksum_ok echo_ok : bool) (code : Z) (silent : bool)
    : Prop :=
  (ret = 0 \/ ret = -1)
  /\ (ret = 0 -> io_complete = true /\ checksum_ok = true
                 /\ echo_ok = true /\ code = 0)
  /\ (io_complete = true -> checksum_ok = false ->
      ret = -1 /\ last_line_kind w' = Some ChecksumMismatch)
  /\ (io_complete = true -> checksum_ok = true -> echo_ok = false ->
      ret = -1 /\ last_line_kind w' = Some UnexpectedResponseShape)
  /\ (io_complete = true -> checksum_ok = true -> echo_ok = true ->
      code <> 0 ->
      ret = -1 /\ if silent then console w' = console w
                   else last_line_kind w' = Some DeviceError).

(** The three tests of lines 174-193 on the settings a ConfigIO response
    echoes. *)
Definition ConfigIO_settings_ok (recBuff : list Z) : bool :=
  (byte_at recBuff 8 =? 64)
  && ((byte_at recBuff 10 =? 255) || (byte_at recBuff 10 =? 15))
  && (byte_at recBuff 11 =? 255).

(** What the caller of a command operation gets, every test counted:
    [ret] is 0 or -1, and 0 exactly when the transfer was complete and
    every test passed; whichever test fails first, [ret] is the same -1,
    and the test shows only in the last console line, unless the operation
    is [silent] about a device error code, in which case the console is as
    it was. *)
Definition command_outcome {F} (w : World F) (ret : Z) (w' : World F)
    (io_complete checksum_ok echo_ok : bool) (code : Z)
    (settings_ok silent : bool) : Prop :=
  (ret = 0 \/ ret = -1)
  /\ (ret = 0 <-> io_complete = true /\ checksum_ok = true
                  /\ echo_ok = true /\ code = 0 /\ settings_ok = true)
  /\ (io_complete = true -> checksum_ok = false ->
      ret = -1 /\ last_line_kind w' = Some ChecksumMismatch)
  /\ (io_complete = true -> checksum_ok = true -> echo_ok = false ->
      ret = -1 /\ last_line_kind w' = Some UnexpectedResponseShape)
  /\ (io_complete = true -> checksum_ok = true -> echo_ok = true ->
      code <> 0 ->
      ret = -1 /\ if silent then console w' = console w
                   else last_line_kind w' = Some DeviceError)
  /\ (io_complete = true -> checksum_ok = true -> echo_ok = true ->
      code = 0 -> settings_ok = false ->
      ret = -1 /\ last_line_kind w' = Some SettingNotApplied).

(** The three checksum tests of the [m] loop on packet [m]. *)
Definition packet_checksums_ok (recBuff : list Z) (m : Z) : bool :=
  let base := m * recBuffSize in
  let checksumTotal :=
    uint16 (extendedChecksum16 (offset recBuff base) recBuffSize) in
  (uint8 (Z.land (checksumTotal / 256) 255) =? byte_at recBuff (base + 5))
  && (uint8 (Z.land checksumTotal 255) =? byte_at recBuff (base + 4))
  && (uint16 (extendedChecksum8 (offset recBuff base)) =? byte_at recBuff base).

(** The command-byte test of the [m] loop on packet [m]. *)
Definition packet_echo_ok (recBuff : list Z) (m : Z) : bool :=
  let base := m * recBuffSize in
  (byte_at recBuff (base + 1) =? 249)
  && (byte_at recBuff (base + 2) =? 4 + SamplesPerPacket)
  && (byte_at recBuff (base + 3) =? 192).

(** Packet [m] ends the callback: it fails a test or carries an error
    status. *)
Definition packet_bad (recBuff : list Z) (m : Z) : bool :=
  negb (checks_pass recBuff m) || status_fatal recBuff m.

(** The test a bad packet fails first, in the order of the [m] loop. *)
Definition packet_kind (recBuff : list Z) (m : Z) : failure_kind :=
  if negb (packet_checksums_ok recBuff m) then ChecksumMismatch
  else if negb (packet_echo_ok recBuff m) then UnexpectedResponseShape
  else DeviceError.

(** The callback stopped at [w'] on one more line than [w] has, an error
    of the logger that tells a bad packet's kind [k]. *)
Definition poll_reports {F} (w w' : World F) (k : failure_kind) : Prop :=
  (exists e, console w' = console w ++ [e] /\ msg_sink e = LogError
             /\ line_kind e = Some k)
  /\ usb_written w' = usb_written w /\ published w' = published w.

(** Packet [m] of a read is the first bad one of the [m] loop. *)
Definition first_bad_packet (recBuff : list Z) (m : Z) : Prop :=
  0 <= m < readSizeMultiplier
  /\ (forall k, 0 <= k < m -> packet_bad recBuff k = false)
  /\ packet_bad recBuff m = true.

(** A read the [j] loop goes through: it was complete and none of its
    packets is bad. *)
Definition read_clean (rd : Z * list Z) : Prop :=
  responseSize * readSizeMultiplier <= fst rd
  /\ forall m, 0 <= m < readSizeMultiplier -> packet_bad (snd rd) m = false.

(** The reads before read [j] are clean. *)
Definition reads_clean (LJUSB_Stream : Z -> Z * list Z) (j : Z) : Prop :=
  forall i, 0 <= i < j -> read_clean (LJUSB_Stream i).

(** The callback stopped at [w'] in the read [rd]: on a short read the
    last line tells none of the kinds, otherwise it tells the kind of the
    first bad packet of the read. *)
Definition poll_failure {F} (rd : Z * list Z) (w' : World F) : Prop :=
  (fst rd < responseSize * readSizeMultiplier /\ last_line_kind w' = None)
  \/ (responseSize * readSizeMultiplier <= fst rd
      /\ exists m, first_bad_packet (snd rd) m
           /\ last_line_kind w' = Some (packet_kind (snd rd) m)).

End Vocabulary.

(** The locals and the world at the end of the loops of a cycle of the
    test node, started on an empty world. *)
Definition test_loops_end (LJUSB_Stream : Z -> Z * list Z)
    : locals test_volt * World test_volt :=
  match @stream_loops test_driver u3_params test_node LJUSB_Stream
          empty_world with
  | Next st => st
  | _ => (@init_locals test_driver, empty_world)
  end.

(** A StreamStop response with error code [code] and a right checksum. *)
Definition test_StreamStop_response (code : Z) : list Z :=
  [spec_normalChecksum8 [0; 177; code; 0] 4; 177; code; 0].

(** ** Reading the console of a cycle *)

(** The overflow report and the auto-recovery report, recognised by
    their sink and format. *)
Definition is_overflow_line (e : Msg) : bool :=
  match msg_sink e with
  | Stdout => String.eqb (msg_fmt e) (msg_fmt (overflow_msg 0))
  | _ => false
  end.

Definition is_recovery_line (e : Msg) : bool :=
  match msg_sink e with
  | Stdout => String.eqb (msg_fmt e) (msg_fmt (recovery_msg 0 0))
  | _ => false
  end.

Definition status_line (e : Msg) : Prop :=
  is_overflow_line e || is_recovery_line e = true.

(** Replays the reports of a console: [on] tells whether an overflow is
    pending; an overflow report while one is pending has no replay. *)
Fixpoint recovery_trace (on : bool) (ms : list Msg) : option bool :=
  match ms with
  | [] => Some on
  | e :: ms' =>
      if is_overflow_line e then
        if on then None else recovery_trace true ms'
      else if is_recovery_line e then recovery_trace false ms'
      else recovery_trace on ms'
  end.

(** [autoRecoveryOn] as the replay sees it. *)
Definition pending (a : Z) : bool := negb (a =? 0).

(** What a stretch of the loops, started with the flag at [on] in world
    [w], did to the world when it ended as [r]: nothing written to the
    device, nothing published, status reports that replay from [on] to the
    flag it ended with, and, on a return, one error line after them. *)
Definition loop_lines {F A} (flag_of : A -> Z) (on : bool) (w : World F)
    (r : flow F (A * World F)) : Prop :=
  match r with
  | Next (x, w') =>
      usb_written w' = usb_written w /\ published w' = published w
      /\ exists ms, console w' = console w ++ ms /\ Forall status_line ms
           /\ recovery_trace on ms = Some (pending (flag_of x))
  | Return w' =>
      usb_written w' = usb_written w /\ published w' = published w
      /\ exists ms e, console w' = console w ++ ms ++ [e]
           /\ Forall status_line ms /\ is_Some (recovery_trace on ms)
           /\ msg_sink e = LogError
  | Undefined => True
  end.

(** Accepted responses to StreamConfig and StreamStart. *)
Definition test_StreamConfig_response : list Z :=
  @extendedChecksum test_driver [0; 248; 1; 17; 0; 0; 0; 0] 8.

Definition test_StreamStart_response : list Z :=
  [spec_normalChecksum8 [0; 169; 0; 0] 4; 169; 0; 0].

(** ** Evaluation on concrete inputs *)

Section Examples.
Local Existing Instance test_driver.
Local Existing Instance u3_params.

Example test_packet_length : length (test_packet 0 0 0 1000) = 64%nat.
Proof. reflexivity. Qed.

Example ConfigIO_accepts :
  ConfigIO_example 12 (12, test_ConfigIO_response 9 0 true) 7 empty_world
  = (0, 0, mkWorld [ConfigIO_sendBuff]
             [mkMsg Stdout "ConfigIO_example...\n" [];
              mkMsg Stdout "ConfigIO_example... OK\n" []] []).
Proof. vm_compute. reflexivity. Qed.

Example cycle_publishes_last_scan :
  onReadAndPubTimer test_node (fun _ => test_read 0 0 0 0 0) empty_world
  = Some (mkWorld []
            [mkMsg LogDebug "Number of scans: %d\n" [25];
             mkMsg LogDebug "Total packets read: %d\n" [5]]
            [[Volt_hw130 0 31 5020; Volt_hw130 1 31 5021;
              Volt_hw130 2 31 5022; Volt_hw130 3 31 5023;
              Volt_hw130 4 31 5024]]).
Proof. vm_compute. reflexivity. Qed.

End Examples.

(** ** The sample loop *)

Section SampleLoop.
Context `{U3Driver} `{StreamParams}.

Local Abbreviation World := (World float32).
Local Abbreviation LabjackNode := (LabjackNode u3CalibrationInfo).
Local Abbreviation locals := (locals double).
Local Abbreviation flow := (flow float32).

Implicit Types (node : LabjackNode) (recBuff : list Z) (l : locals)
  (w : World) (m k s c : Z) (n : nat).

Lemma in_bounds_true s c :
  in_bounds s c = true <->
  0 <= s < voltages_rows /\ 0 <= c < NumChannels.
Proof. unfold in_bounds. rewrite !andb_true_iff. lia. Qed.

Lemma sample_body_Some node recBuff m k l l' :
  sample_body node recBuff m k l = Some l' ->
  in_bounds (scanNumber l) (currChannel l) = true
  /\ consumed l' = consumed l + 1
  /\ 0 <= currChannel l' < NumChannels
  /\ totalPackets l' = totalPackets l
  /\ autoRecoveryOn l' = autoRecoveryOn l
  /\ voltages l'
     = <[(scanNumber l, currChannel l) :=
           calibrate node (currChannel l) (sample_at recBuff m k)]>
         (voltages l).
Proof.
  unfold sample_body, store, consumed.
  destruct (in_bounds _ _) eqn:Hb; [|discriminate].
  apply in_bounds_true in Hb.
  destruct (NumChannels <=? currChannel l + 1) eqn:Hc;
    intros [= <-]; simpl; repeat split; try lia.
Qed.

Lemma sample_body_defined node recBuff m k l :
  in_bounds (scanNumber l) (currChannel l) = true ->
  is_Some (sample_body node recBuff m k l).
Proof.
  intros Hb. unfold sample_body, store. rewrite Hb.
  destruct (NumChannels <=? _); eauto.
Qed.

(** Two cells with the same running index are the same cell. *)
Lemma cell_unique s c s' c' :
  0 <= c < NumChannels -> 0 <= c' < NumChannels ->
  s * NumChannels + c = s' * NumChannels + c' -> s = s' /\ c = c'.
Proof. intros. assert (s = s') by nia. subst. lia. Qed.

(** What [n] iterations of the [k] loop leave behind. *)
Lemma for_k_Some node recBuff m n : forall k l l',
  for_k node recBuff m n k l = Some l' ->
  0 <= currChannel l < NumChannels ->
  consumed l' = consumed l + Z.of_nat n
  /\ 0 <= currChannel l' < NumChannels
  /\ totalPackets l' = totalPackets l
  /\ autoRecoveryOn l' = autoRecoveryOn l
  /\ forall s c,
       voltages l' !! (s, c)
       = if decide (0 <= c < NumChannels
                    /\ consumed l <= s * NumChannels + c
                       < consumed l + Z.of_nat n)
         then Some (calibrate node c
                (sample_at recBuff m
                   (k + 2 * (s * NumChannels + c - consumed l))))
         else voltages l !! (s, c).
Proof.
  induction n as [|n IH]; intros k l l'; cbn [for_k].
  - intros [= <-] Hc. repeat split; try lia.
    intros s c. case_decide; [lia|done].
  - destruct (sample_body node recBuff m k l) as [l1|] eqn:Hb; [|discriminate].
    intros Hk Hc.
    destruct (sample_body_Some _ _ _ _ _ _ Hb)
      as (Hin & Hp1 & Hc1 & Ht1 & Ha1 & Hv1).
    destruct (IH _ _ _ Hk Hc1) as (Hp & Hc' & Ht & Ha & Hv).
    repeat split; try lia.
    intros s c. rewrite (Hv s c), Hv1.
    destruct (decide (0 <= c < NumChannels
                      /\ s * NumChannels + c = consumed l)) as [[Hcr Heq]|Hne].
    + destruct (cell_unique s c (scanNumber l) (currChannel l)) as [-> ->];
        [lia|lia|exact Heq|].
      rewrite lookup_insert_eq.
      repeat case_decide; try lia.
      do 3 f_equal. unfold consumed. lia.
    + rewrite lookup_insert_ne
        by (intros [= <- <-]; apply Hne; split; [lia|reflexivity]).
      repeat case_decide; try lia; [|done].
      do 3 f_equal. lia.
Qed.

(** The [k] loop neither reads nor writes [totalPackets] and
    [autoRecoveryOn]. *)
Lemma for_k_frame node recBuff m n tp a : forall k l,
  for_k node recBuff m n k
    (mkLocals (currChannel l) (scanNumber l) tp a (voltages l))
  = (fun l' => mkLocals (currChannel l') (scanNumber l') tp a (voltages l'))
    <$> for_k node recBuff m n k l.
Proof.
  induction n as [|n IH]; intros k l; cbn [for_k]; [done|].
  unfold sample_body; simpl.
  destruct (store _ _ _ _) as [v|]; [|done]. simpl.
  destruct (NumChannels <=? currChannel l + 1); simpl;
    [rewrite <- (IH (k + 2) (mkLocals 0 (scanNumber l + 1) (totalPackets l)
                              (autoRecoveryOn l) v))
    |rewrite <- (IH (k + 2) (mkLocals (currChannel l + 1) (scanNumber l)
                              (totalPackets l) (autoRecoveryOn l) v))];
    reflexivity.
Qed.

(** The [k] loop reads the bytes at offsets [k .. k + 2n - 1] of packet
    [m], and no other byte of the buffer. *)
Lemma for_k_ext node recBuff recBuff0 m n : forall k l,
  (forall i, k <= i < k + 2 * Z.of_nat n ->
     byte_at recBuff (m * recBuffSize + i)
     = byte_at recBuff0 (m * recBuffSize + i)) ->
  for_k node recBuff m n k l = for_k node recBuff0 m n k l.
Proof.
  induction n as [|n IH]; intros k l Hsame; cbn [for_k]; [done|].
  unfold sample_body.
  rewrite (Hsame k) by lia.
  replace (m * recBuffSize + k + 1) with (m * recBuffSize + (k + 1)) by lia.
  rewrite (Hsame (k + 1)) by lia.
  destruct (store _ _ _ _) as [v|]; [|done].
  destruct (NumChannels <=? currChannel l + 1);
    apply IH; intros i Hi; apply Hsame; lia.
Qed.

(** The [k] loop stays inside [voltages] as long as the samples fit. *)
Lemma for_k_defined node recBuff m n : forall k l,
  0 <= currChannel l < NumChannels -> 0 <= scanNumber l ->
  consumed l + Z.of_nat n <= voltages_rows * NumChannels ->
  is_Some (for_k node recBuff m n k l).
Proof.
  induction n as [|n IH]; intros k l Hc Hs Hfit; simpl; [eauto|].
  assert (Hin : in_bounds (scanNumber l) (currChannel l) = true).
  { apply in_bounds_true. unfold consumed in Hfit. nia. }
  destruct (sample_body_defined node recBuff m k l Hin) as [l1 Hb].
  rewrite Hb.
  destruct (sample_body_Some _ _ _ _ _ _ Hb) as (_ & Hp1 & Hc1 & _).
  apply IH; [lia| |lia].
  unfold consumed in Hp1. nia.
Qed.

End SampleLoop.

(** ** One packet, and the packets of one read *)

Section PacketLoop.
Context `{U3Driver} `{StreamParams}.

Local Abbreviation World := (World float32).
Local Abbreviation LabjackNode := (LabjackNode u3CalibrationInfo).
Local Abbreviation locals := (locals double).
Local Abbreviation flow := (flow float32).

Implicit Types (node : LabjackNode) (recBuff : list Z) (l : locals)
  (w : World) (m k s c tp a : Z) (n : nat).

Lemma extends_refl w : extends w w.
Proof. repeat split. exists []. by rewrite app_nil_r. Qed.

Lemma extends_trans w1 w2 w3 : extends w1 w2 -> extends w2 w3 -> extends w1 w3.
Proof.
  intros (Hu & Hp & ms & Hc) (Hu' & Hp' & ms' & Hc').
  repeat split; [congruence..|].
  exists (ms ++ ms'). by rewrite Hc', Hc, app_assoc.
Qed.

Lemma extends_say e w : extends w (say e w).
Proof. repeat split. by exists [e]. Qed.

Lemma extends_aborts w1 w2 w3 : extends w1 w2 -> aborts w2 w3 -> aborts w1 w3.
Proof.
  intros (Hu & Hp & ms & Hc) (Hu' & Hp' & ms' & e & Hc' & He).
  repeat split; [congruence..|].
  exists (ms ++ ms'), e. split; [|done].
  by rewrite Hc', Hc, !app_assoc.
Qed.

Lemma aborts_error fmt args w : aborts w (RCLCPP_ERROR fmt args w).
Proof. repeat split. by exists [], (mkMsg LogError fmt args). Qed.

(** A packet that fails a check ends the callback with one error line. *)
Lemma packet_status_checks_fail recBuff m tp a w :
  checks_pass recBuff m = false ->
  exists fmt, packet_status recBuff m tp a w = Return (RCLCPP_ERROR fmt [] w).
Proof.
  unfold checks_pass, packet_status.
  repeat match goal with
  | |- context [negb (?x =? ?y)] => destruct (x =? y); simpl
  end; intros Hf; try discriminate; eauto.
Qed.

(** A packet that passes the checks is handled by its status byte alone. *)
Lemma packet_status_checks_pass recBuff m tp a w :
  checks_pass recBuff m = true ->
  packet_status recBuff m tp a w
  = if status_byte recBuff m =? 59 then
      if a =? 0 then Next (1, say (overflow_msg tp) w) else Next (a, w)
    else if status_byte recBuff m =? 60 then
      Next (0, say (recovery_msg tp
                      (byte_at recBuff (m * recBuffSize + 6)
                       + byte_at recBuff (m * recBuffSize + 7) * 256)) w)
    else if negb (status_byte recBuff m =? 0) then
      Return (say (errorcode_msg (byte_at recBuff 11)) w)
    else Next (a, w).
Proof.
  unfold checks_pass, packet_status, status_byte.
  rewrite !andb_true_iff. intros (((((-> & ->) & ->) & ->) & ->) & ->).
  reflexivity.
Qed.

Lemma packet_status_Next recBuff m tp a w a' w' :
  packet_status recBuff m tp a w = Next (a', w') ->
  checks_pass recBuff m = true /\ status_fatal recBuff m = false
  /\ extends w w'
  /\ a' = (if status_byte recBuff m =? 59 then if a =? 0 then 1 else a
           else if status_byte recBuff m =? 60 then 0 else a).
Proof.
  destruct (checks_pass recBuff m) eqn:Hc.
  - rewrite packet_status_checks_pass by done. unfold status_fatal.
    destruct (status_byte recBuff m =? 59); [destruct (a =? 0)|];
      [| |destruct (status_byte recBuff m =? 60);
           [|destruct (status_byte recBuff m =? 0)]]; simpl;
      intros [= <- <-] || discriminate;
      auto using extends_refl, extends_say.
  - destruct (packet_status_checks_fail recBuff m tp a w Hc) as [fmt ->].
    discriminate.
Qed.

Lemma packet_status_Return recBuff m tp a w w' :
  packet_status recBuff m tp a w = Return w' ->
  (checks_pass recBuff m = false \/ status_fatal recBuff m = true)
  /\ aborts w w'.
Proof.
  destruct (checks_pass recBuff m) eqn:Hc.
  - rewrite packet_status_checks_pass by done. unfold status_fatal.
    destruct (status_byte recBuff m =? 59); [destruct (a =? 0)|];
      [| |destruct (status_byte recBuff m =? 60);
           [|destruct (status_byte recBuff m =? 0)]]; simpl;
      intros [= <-] || discriminate.
    split; [by right|]. apply (aborts_error _ [byte_at recBuff 11]).
  - destruct (packet_status_checks_fail recBuff m tp a w Hc) as [fmt ->].
    intros [= <-]. split; [by left|]. apply aborts_error.
Qed.

Lemma packet_status_defined recBuff m tp a w :
  packet_status recBuff m tp a w <> Undefined.
Proof.
  destruct (checks_pass recBuff m) eqn:Hc.
  - rewrite packet_status_checks_pass by done.
    repeat match goal with |- context [if ?b then _ else _] => destruct b end;
      discriminate.
  - destruct (packet_status_checks_fail recBuff m tp a w Hc) as [fmt ->].
    discriminate.
Qed.

End PacketLoop.

Section ReadLoop.
Context `{U3Driver} `{StreamParams}.

Local Abbreviation World := (World float32).
Local Abbreviation LabjackNode := (LabjackNode u3CalibrationInfo).
Local Abbreviation locals := (locals double).
Local Abbreviation flow := (flow float32).

Implicit Types (node : LabjackNode) (recBuff : list Z) (l : locals)
  (w : World) (m k s c tp a : Z) (n : nat).

(** Iterations of the [k] loop. *)
Local Abbreviation spp := (Z.of_nat (Z.to_nat SamplesPerPacket)).

Lemma packet_body_Next node recBuff m l w l' w' :
  packet_body node recBuff m (l, w) = Next (l', w') ->
  0 <= currChannel l < NumChannels ->
  (checks_pass recBuff m = true /\ status_fatal recBuff m = false)
  /\ extends w w'
  /\ autoRecoveryOn l'
     = (if status_byte recBuff m =? 59
        then if autoRecoveryOn l =? 0 then 1 else autoRecoveryOn l
        else if status_byte recBuff m =? 60 then 0 else autoRecoveryOn l)
  /\ totalPackets l' = totalPackets l + 1
  /\ consumed l' = consumed l + spp
  /\ 0 <= currChannel l' < NumChannels
  /\ forall s c,
       voltages l' !! (s, c)
       = if decide (0 <= c < NumChannels
                    /\ consumed l <= s * NumChannels + c < consumed l + spp)
         then Some (calibrate node c
                (sample_at recBuff m
                   (12 + 2 * (s * NumChannels + c - consumed l))))
         else voltages l !! (s, c).
Proof.
  unfold packet_body.
  destruct (packet_status _ _ _ _ _) as [[a' w1]| |] eqn:Hs; try discriminate.
  destruct (for_k _ _ _ _ _ _) as [l1|] eqn:Hk; [|discriminate].
  intros [= <- <-] Hc.
  apply packet_status_Next in Hs as (Hp & Hf & He & ->).
  apply for_k_Some in Hk as (Hn & Hc' & Ht & Ha & Hv); [|exact Hc].
  unfold consumed in *. simpl in *.
  repeat split; auto; try lia; apply He.
Qed.

Lemma packet_body_Return node recBuff m l w w' :
  packet_body node recBuff m (l, w) = Return w' ->
  (checks_pass recBuff m = false \/ status_fatal recBuff m = true)
  /\ aborts w w'.
Proof.
  unfold packet_body.
  destruct (packet_status _ _ _ _ _) as [[a' w1]| |] eqn:Hs; try discriminate.
  - destruct (for_k _ _ _ _ _ _); discriminate.
  - intros [= <-]. by apply packet_status_Return in Hs.
Qed.

Lemma packet_body_defined node recBuff m l w :
  0 <= currChannel l < NumChannels -> 0 <= scanNumber l ->
  consumed l + spp <= voltages_rows * NumChannels ->
  packet_body node recBuff m (l, w) <> Undefined.
Proof.
  intros Hc Hs Hfit. unfold packet_body.
  destruct (packet_status _ _ _ _ _) as [[a' w1]| |] eqn:Hst; try discriminate.
  - edestruct (for_k_defined node recBuff m (Z.to_nat SamplesPerPacket) 12
                 (mkLocals (currChannel l) (scanNumber l) (totalPackets l + 1)
                    a' (voltages l))) as [l1 ->]; simpl; auto.
  - by apply packet_status_defined in Hst.
Qed.

(** The last iteration of the [m] loop, taken apart. *)
Lemma for_m_snoc node recBuff n : forall m (st : locals * World),
  for_m node recBuff (S n) m st
  = match for_m node recBuff n m st with
    | Next st1 => packet_body node recBuff (m + Z.of_nat n) st1
    | Return w => Return w
    | Undefined => Undefined
    end.
Proof.
  induction n as [|n IH]; intros m st.
  - simpl. rewrite Z.add_0_r. by destruct (packet_body _ _ _ _).
  - change (for_m node recBuff (S (S n)) m st)
      with (match packet_body node recBuff m st with
            | Next st' => for_m node recBuff (S n) (m + 1) st'
            | Return w => Return w
            | Undefined => Undefined
            end).
    change (for_m node recBuff (S n) m st)
      with (match packet_body node recBuff m st with
            | Next st' => for_m node recBuff n (m + 1) st'
            | Return w => Return w
            | Undefined => Undefined
            end).
    destruct (packet_body node recBuff m st) as [st'| |]; [|done..].
    rewrite IH. replace (m + 1 + Z.of_nat n) with (m + Z.of_nat (S n)) by lia.
    reflexivity.
Qed.

Lemma for_m_Next node recBuff n : forall m l w l' w',
  for_m node recBuff n m (l, w) = Next (l', w') ->
  0 <= currChannel l < NumChannels ->
  consumed l' = consumed l + Z.of_nat n * spp
  /\ 0 <= currChannel l' < NumChannels
  /\ totalPackets l' = totalPackets l + Z.of_nat n
  /\ extends w w'
  /\ forall i, 0 <= i < Z.of_nat n ->
       checks_pass recBuff (m + i) = true
       /\ status_fatal recBuff (m + i) = false.
Proof.
  induction n as [|n IH]; intros m l w l' w'; cbn [for_m].
  - intros [= <- <-] Hc.
    split; [lia|]. split; [done|]. split; [lia|].
    split; [apply extends_refl|]. intros i Hi. lia.
  - destruct (packet_body node recBuff m (l, w)) as [[l1 w1]| |] eqn:Hb;
      try discriminate.
    intros Hm Hc.
    apply packet_body_Next in Hb as (Hok & He & _ & Ht & Hn & Hc1 & _);
      [|exact Hc].
    apply IH in Hm as (Hn' & Hc' & Ht' & He' & Hall); [|exact Hc1].
    split; [lia|]. split; [done|]. split; [lia|].
    split; [eapply extends_trans; eassumption|].
    intros i Hi. destruct (decide (i = 0)) as [->|].
    + by rewrite Z.add_0_r.
    + replace (m + i) with (m + 1 + (i - 1)) by lia. apply Hall. lia.
Qed.

Lemma for_m_Return node recBuff n : forall m l w w',
  for_m node recBuff n m (l, w) = Return w' ->
  0 <= currChannel l < NumChannels ->
  aborts w w'.
Proof.
  induction n as [|n IH]; intros m l w w'; cbn [for_m]; [discriminate|].
  destruct (packet_body node recBuff m (l, w)) as [[l1 w1]| |] eqn:Hb;
    try discriminate.
  - intros Hm Hc.
    apply packet_body_Next in Hb as (_ & He & _ & _ & _ & Hc1 & _);
      [|exact Hc].
    eapply extends_aborts; [exact He|]. eapply IH; eauto.
  - intros [= <-] _. apply packet_body_Return in Hb. apply Hb.
Qed.

Lemma for_m_defined node recBuff n : forall m l w,
  0 <= currChannel l < NumChannels -> 0 <= scanNumber l ->
  consumed l + Z.of_nat n * spp <= voltages_rows * NumChannels ->
  for_m node recBuff n m (l, w) <> Undefined.
Proof.
  induction n as [|n IH]; intros m l w Hc Hs Hfit; cbn [for_m];
    [discriminate|].
  destruct (packet_body node recBuff m (l, w)) as [[l1 w1]| |] eqn:Hb;
    try discriminate.
  - apply packet_body_Next in Hb as (_ & _ & _ & _ & Hn & Hc1 & _);
      [|exact Hc].
    apply IH; [exact Hc1| |lia].
    unfold consumed in Hn. nia.
  - exfalso. revert Hb. apply packet_body_defined; auto. lia.
Qed.

End ReadLoop.

(** ** The reads of one cycle *)

Section Cycle.
Context `{U3Driver} `{StreamParams}.

Local Abbreviation World := (World float32).
Local Abbreviation LabjackNode := (LabjackNode u3CalibrationInfo).
Local Abbreviation locals := (locals double).
Local Abbreviation flow := (flow float32).

Implicit Types (node : LabjackNode) (recBuff : list Z) (l : locals)
  (w : World) (m k s c tp a j : Z) (n : nat) (rd : Z * list Z)
  (LJUSB_Stream : Z -> Z * list Z).

Local Abbreviation spp := (Z.of_nat (Z.to_nat SamplesPerPacket)).
Local Abbreviation mult := (Z.of_nat (Z.to_nat readSizeMultiplier)).

Lemma read_body_Next node rd l w l' w' :
  read_body node rd (l, w) = Next (l', w') ->
  0 <= currChannel l < NumChannels ->
  responseSize * readSizeMultiplier <= fst rd
  /\ for_m node (snd rd) (Z.to_nat readSizeMultiplier) 0 (l, w)
     = Next (l', w')
  /\ consumed l' = consumed l + mult * spp
  /\ 0 <= currChannel l' < NumChannels
  /\ totalPackets l' = totalPackets l + mult
  /\ extends w w'
  /\ forall i, 0 <= i < mult ->
       checks_pass (snd rd) i = true /\ status_fatal (snd rd) i = false.
Proof.
  destruct rd as [recChars recBuff]. unfold read_body.
  destruct (recChars <? _) eqn:Hr.
  { destruct (recChars =? 0); discriminate. }
  intros Hm Hc. apply Z.ltb_ge in Hr.
  pose proof (for_m_Next _ _ _ _ _ _ _ _ Hm Hc) as (Hn & Hc' & Ht & He & Hall).
  simpl. repeat (split; [done|]). exact Hall.
Qed.

Lemma read_body_Return node rd l w w' :
  read_body node rd (l, w) = Return w' ->
  0 <= currChannel l < NumChannels ->
  aborts w w'.
Proof.
  destruct rd as [recChars recBuff]. unfold read_body.
  destruct (recChars <? _).
  - destruct (recChars =? 0); intros [= <-] _; apply aborts_error.
  - apply for_m_Return.
Qed.

Lemma read_body_defined node rd l w :
  0 <= currChannel l < NumChannels -> 0 <= scanNumber l ->
  consumed l + mult * spp <= voltages_rows * NumChannels ->
  read_body node rd (l, w) <> Undefined.
Proof.
  intros Hc Hs Hfit. destruct rd as [recChars recBuff]. unfold read_body.
  destruct (recChars <? _).
  - destruct (recChars =? 0); discriminate.
  - by apply for_m_defined.
Qed.

(** The last iteration of the [j] loop, taken apart. *)
Lemma for_j_snoc node LJUSB_Stream n : forall j (st : locals * World),
  for_j node LJUSB_Stream (S n) j st
  = match for_j node LJUSB_Stream n j st with
    | Next st1 => read_body node (LJUSB_Stream (j + Z.of_nat n)) st1
    | Return w => Return w
    | Undefined => Undefined
    end.
Proof.
  induction n as [|n IH]; intros j st.
  - cbn [for_j]. rewrite Z.add_0_r. by destruct (read_body _ _ _).
  - change (for_j node LJUSB_Stream (S (S n)) j st)
      with (match read_body node (LJUSB_Stream j) st with
            | Next st' => for_j node LJUSB_Stream (S n) (j + 1) st'
            | Return w => Return w
            | Undefined => Undefined
            end).
    change (for_j node LJUSB_Stream (S n) j st)
      with (match read_body node (LJUSB_Stream j) st with
            | Next st' => for_j node LJUSB_Stream n (j + 1) st'
            | Return w => Return w
            | Undefined => Undefined
            end).
    destruct (read_body node (LJUSB_Stream j) st) as [st'| |]; [|done..].
    rewrite IH. replace (j + 1 + Z.of_nat n) with (j + Z.of_nat (S n)) by lia.
    reflexivity.
Qed.

Lemma for_j_Next node LJUSB_Stream n : forall j l w l' w',
  for_j node LJUSB_Stream n j (l, w) = Next (l', w') ->
  0 <= currChannel l < NumChannels ->
  consumed l' = consumed l + Z.of_nat n * (mult * spp)
  /\ 0 <= currChannel l' < NumChannels
  /\ totalPackets l' = totalPackets l + Z.of_nat n * mult
  /\ extends w w'
  /\ forall i, 0 <= i < Z.of_nat n ->
       responseSize * readSizeMultiplier <= fst (LJUSB_Stream (j + i))
       /\ forall m, 0 <= m < mult ->
            checks_pass (snd (LJUSB_Stream (j + i))) m = true
            /\ status_fatal (snd (LJUSB_Stream (j + i))) m = false.
Proof.
  induction n as [|n IH]; intros j l w l' w'; cbn [for_j].
  - intros [= <- <-] Hc.
    split; [lia|]. split; [done|]. split; [lia|].
    split; [apply extends_refl|]. intros i Hi. lia.
  - destruct (read_body node (LJUSB_Stream j) (l, w)) as [[l1 w1]| |] eqn:Hb;
      try discriminate.
    intros Hj Hc.
    apply read_body_Next in Hb as (Hr & _ & Hn & Hc1 & Ht & He & Hok);
      [|exact Hc].
    apply IH in Hj as (Hn' & Hc' & Ht' & He' & Hall); [|exact Hc1].
    split; [lia|]. split; [done|]. split; [lia|].
    split; [eapply extends_trans; eassumption|].
    intros i Hi. destruct (decide (i = 0)) as [->|].
    + by rewrite Z.add_0_r.
    + replace (j + i) with (j + 1 + (i - 1)) by lia. apply Hall. lia.
Qed.

Lemma for_j_Return node LJUSB_Stream n : forall j l w w',
  for_j node LJUSB_Stream n j (l, w) = Return w' ->
  0 <= currChannel l < NumChannels ->
  aborts w w'.
Proof.
  induction n as [|n IH]; intros j l w w'; cbn [for_j]; [discriminate|].
  destruct (read_body node (LJUSB_Stream j) (l, w)) as [[l1 w1]| |] eqn:Hb;
    try discriminate.
  - intros Hj Hc.
    apply read_body_Next in Hb as (_ & _ & _ & Hc1 & _ & He & _);
      [|exact Hc].
    eapply extends_aborts; [exact He|]. eapply IH; eauto.
  - intros [= <-] Hc. eapply read_body_Return; eauto.
Qed.

Lemma for_j_defined node LJUSB_Stream n : forall j l w,
  0 <= currChannel l < NumChannels -> 0 <= scanNumber l ->
  consumed l + Z.of_nat n * (mult * spp) <= voltages_rows * NumChannels ->
  for_j node LJUSB_Stream n j (l, w) <> Undefined.
Proof.
  induction n as [|n IH]; intros j l w Hc Hs Hfit; cbn [for_j];
    [discriminate|].
  destruct (read_body node (LJUSB_Stream j) (l, w)) as [[l1 w1]| |] eqn:Hb;
    try discriminate.
  - apply read_body_Next in Hb as (_ & _ & Hn & Hc1 & _); [|exact Hc].
    apply IH; [exact Hc1| |lia].
    unfold consumed in Hn. nia.
  - exfalso. revert Hb. apply read_body_defined; auto. nia.
Qed.

End Cycle.

(** ** A whole cycle under the constants' side condition *)

Section WellConfigured.
Context `{U3Driver} `{StreamParams}.
Hypothesis Hcfg : well_configured.

Local Abbreviation World := (World float32).
Local Abbreviation LabjackNode := (LabjackNode u3CalibrationInfo).
Local Abbreviation locals := (locals double).
Local Abbreviation flow := (flow float32).

Implicit Types (node : LabjackNode) (recBuff : list Z) (l : locals)
  (w : World) (m k s c tp a j : Z) (n : nat) (rd : Z * list Z)
  (LJUSB_Stream : Z -> Z * list Z).

(** [voltages] has room for exactly the samples of a cycle. *)
Lemma capacity :
  voltages_rows * NumChannels
  = numReadsPerDisplay * (readSizeMultiplier * SamplesPerPacket).
Proof.
  destruct Hcfg as (Hn & Hs & Hm & Hr & Hd). unfold voltages_rows.
  rewrite Z.quot_div_nonneg by lia.
  assert (Hq : SamplesPerPacket
               = NumChannels * (SamplesPerPacket / NumChannels))
    by (apply Z.div_exact; [lia|exact Hd]).
  set (q := SamplesPerPacket / NumChannels) in *.
  rewrite Hq. ring.
Qed.

Lemma channels_le_samples : NumChannels <= SamplesPerPacket.
Proof.
  destruct Hcfg as (Hn & Hs & Hm & Hr & Hd).
  assert (Hq : SamplesPerPacket
               = NumChannels * (SamplesPerPacket / NumChannels))
    by (apply Z.div_exact; [lia|exact Hd]).
  set (q := SamplesPerPacket / NumChannels) in *.
  assert (1 <= q) by nia. nia.
Qed.

Lemma rows_positive : 0 < voltages_rows.
Proof.
  pose proof capacity. destruct Hcfg as (Hn & Hs & Hm & Hr & Hd). nia.
Qed.

Lemma stream_loops_defined node LJUSB_Stream w :
  stream_loops node LJUSB_Stream w <> Undefined.
Proof.
  pose proof capacity. destruct Hcfg as (Hn & Hs & Hm & Hr & Hd).
  unfold stream_loops. apply for_j_defined; unfold consumed; simpl; lia.
Qed.

(** The locals at the end of the loops of a cycle that did not return:
    every row of [voltages] is complete, and the last one holds the last
    [NumChannels] samples of the last packet of the last read. *)
Lemma stream_loops_Next node LJUSB_Stream w l w' :
  stream_loops node LJUSB_Stream w = Next (l, w') ->
  scanNumber l = voltages_rows /\ currChannel l = 0
  /\ totalPackets l = numReadsPerDisplay * readSizeMultiplier
  /\ extends w w'
  /\ (forall j, 0 <= j < numReadsPerDisplay ->
        responseSize * readSizeMultiplier <= fst (LJUSB_Stream j)
        /\ forall m, 0 <= m < readSizeMultiplier ->
             checks_pass (snd (LJUSB_Stream j)) m = true
             /\ status_fatal (snd (LJUSB_Stream j)) m = false)
  /\ forall c, 0 <= c < NumChannels ->
       voltages l !! (voltages_rows - 1, c)
       = Some (calibrate node c
                 (sample_at (snd (LJUSB_Stream (numReadsPerDisplay - 1)))
                    (readSizeMultiplier - 1)
                    (12 + 2 * (SamplesPerPacket - NumChannels + c)))).
Proof.
  pose proof capacity as Hcap. pose proof channels_le_samples as Hle.
  destruct Hcfg as (Hn & Hs & Hm & Hr & Hd).
  unfold stream_loops. intros Hj.
  assert (Hc0 : 0 <= currChannel (@init_locals H) < NumChannels)
    by (simpl; lia).
  pose proof (for_j_Next _ _ _ _ _ _ _ _ Hj Hc0)
    as (Hcons & Hc & Ht & He & Hall).
  rewrite !Z2Nat.id in Hcons, Ht, Hall by lia.
  change (consumed init_locals) with (0 * NumChannels + 0) in Hcons.
  change (totalPackets init_locals) with 0 in Ht.
  assert (Hsc : scanNumber l = voltages_rows /\ currChannel l = 0).
  { apply cell_unique; [lia|lia|]. unfold consumed in Hcons. lia. }
  destruct Hsc as [Hsn Hcc].
  split; [done|]. split; [done|]. split; [lia|]. split; [done|].
  split; [intros j Hjr; specialize (Hall j Hjr);
          by rewrite Z.add_0_l in Hall|].
  (* the last read, and its last packet *)
  destruct (Z.to_nat numReadsPerDisplay) as [|nj] eqn:Enj; [lia|].
  rewrite for_j_snoc in Hj.
  destruct (for_j node LJUSB_Stream nj 0 (init_locals, w))
    as [[l1 w1]| |] eqn:Hj1; try discriminate.
  apply for_j_Next in Hj1 as (Hcons1 & Hc1 & _); [|exact Hc0].
  apply read_body_Next in Hj as (_ & Hmm & _); [|exact Hc1].
  destruct (Z.to_nat readSizeMultiplier) as [|nm] eqn:Enm; [lia|].
  rewrite for_m_snoc in Hmm.
  destruct (for_m node _ nm 0 (l1, w1)) as [[l2 w2]| |] eqn:Hm2;
    try discriminate.
  apply for_m_Next in Hm2 as (Hcons2 & Hc2 & _); [|exact Hc1].
  apply packet_body_Next in Hmm as (_ & _ & _ & _ & Hcons3 & _ & Hv);
    [|exact Hc2].
  intros c Hcr. rewrite (Hv _ _).
  rewrite !Z2Nat.id in * by lia.
  change (consumed init_locals) with 0 in Hcons1.
  assert (Hnj : Z.of_nat nj = numReadsPerDisplay - 1) by lia.
  assert (Hnm : Z.of_nat nm = readSizeMultiplier - 1) by lia.
  rewrite !Z.add_0_l, Hnj, Hnm in *.
  assert (Hl2 : consumed l2
                = voltages_rows * NumChannels - SamplesPerPacket) by lia.
  rewrite Hl2. case_decide; [|lia].
  do 3 f_equal. lia.
Qed.

End WellConfigured.

(** ** Reading the published scan *)

Section Emission.
Context `{U3Driver} `{StreamParams}.

Local Abbreviation World := (World float32).
Local Abbreviation locals := (locals double).

Implicit Types (l : locals) (w : World) (k s c : Z) (n : nat)
  (a : gmap (Z * Z) double).

(** [read_scan] looks at row [s], columns [k .. k + n - 1], and nowhere
    else. *)
Lemma read_scan_ext a a' s n : forall k,
  (forall c, k <= c < k + Z.of_nat n -> a !! (s, c) = a' !! (s, c)) ->
  read_scan a s n k = read_scan a' s n k.
Proof.
  induction n as [|n IH]; intros k Hrow; cbn [read_scan]; [done|].
  unfold load. rewrite (Hrow k) by lia.
  rewrite (IH (k + 1)) by (intros c Hc; apply Hrow; lia).
  reflexivity.
Qed.

Lemma read_scan_map a s (f : Z -> double) n : forall k,
  (forall c, k <= c < k + Z.of_nat n -> load a s c = Some (f c)) ->
  read_scan a s n k
  = Some ((fun c => double_to_float (f c)) <$> seqZ k (Z.of_nat n)).
Proof.
  induction n as [|n IH]; intros k Hrow; cbn [read_scan]; [done|].
  rewrite (Hrow k) by lia.
  rewrite (IH (k + 1)) by (intros c Hc; apply Hrow; lia).
  rewrite (seqZ_cons k (Z.of_nat (S n))) by lia.
  replace (Z.pred (Z.of_nat (S n))) with (Z.of_nat n) by lia.
  reflexivity.
Qed.

Lemma read_scan_length a s n : forall k data,
  read_scan a s n k = Some data -> length data = n.
Proof.
  induction n as [|n IH]; intros k data; cbn [read_scan].
  - by intros [= <-].
  - destruct (load a s k); [|discriminate].
    destruct (read_scan a s n (k + 1)) as [rest|] eqn:Hd; [|discriminate].
    intros [= <-]. simpl. f_equal. eauto.
Qed.

(** The emission depends on the locals through [scanNumber],
    [totalPackets] and row [scanNumber - 1] of [voltages] only. *)
Lemma emit_scan_ext l l' w :
  scanNumber l' = scanNumber l -> totalPackets l' = totalPackets l ->
  (forall c, voltages l' !! (scanNumber l - 1, c)
             = voltages l !! (scanNumber l - 1, c)) ->
  emit_scan l' w = emit_scan l w.
Proof.
  intros Hs Ht Hrow. unfold emit_scan. rewrite Hs, Ht.
  by rewrite (read_scan_ext (voltages l') (voltages l)).
Qed.

End Emission.

Section LastRow.
Context `{U3Driver} `{StreamParams}.
Hypothesis Hcfg : well_configured.

(** After the loops, row [scanNumber - 1] reads back as the calibrated
    last [NumChannels] samples of the last packet of the last read. *)
Lemma read_last_row (node : LabjackNode u3CalibrationInfo)
    (LJUSB_Stream : Z -> Z * list Z) (w : World float32)
    (l : locals double) (w1 : World float32) :
  stream_loops node LJUSB_Stream w = Next (l, w1) ->
  read_scan (voltages l) (scanNumber l - 1) (Z.to_nat NumChannels) 0
  = Some ((fun c => double_to_float (calibrate node c
             (sample_at (snd (LJUSB_Stream (numReadsPerDisplay - 1)))
                (readSizeMultiplier - 1)
                (12 + 2 * (SamplesPerPacket - NumChannels + c)))))
          <$> seqZ 0 NumChannels).
Proof.
  intros Hloops.
  pose proof (rows_positive Hcfg) as Hrows.
  destruct (stream_loops_Next Hcfg _ _ _ _ _ Hloops)
    as (Hs & Hc & _ & _ & _ & Hrow).
  destruct Hcfg as (Hn & _).
  replace (seqZ 0 NumChannels)
    with (seqZ 0 (Z.of_nat (Z.to_nat NumChannels)))
    by (rewrite Z2Nat.id; [done|lia]).
  apply (read_scan_map _ _ (fun c => calibrate node c _)).
  intros c Hcr. unfold load.
  replace (in_bounds (scanNumber l - 1) c) with true
    by (symmetry; apply in_bounds_true; lia).
  rewrite Hs. apply Hrow. lia.
Qed.

End LastRow.

(** ** The cycle as a whole: emission, abort, bounds *)

Lemma u3_well_configured : @well_configured u3_params.
Proof. unfold well_configured. simpl. repeat split; lia. Qed.

(** C5: on a cycle that did not return early, the message published is
    row [scanNumber - 1] of [voltages], one converted value per channel,
    namely the calibrated last [NumChannels] samples of the last packet;
    and the emission looks at no other row: locals that differ in
    [currChannel] or in any other row, such as a partly filled row
    [scanNumber], give the same emission. *)
Theorem C5_last_complete_scan_published `{U3Driver} `{StreamParams}
    (node : LabjackNode u3CalibrationInfo) (LJUSB_Stream : Z -> Z * list Z)
    (w : World float32) (l : locals double) (w1 : World float32) :
  well_configured ->
  stream_loops node LJUSB_Stream w = Next (l, w1) ->
  exists data w',
    data = (fun c => double_to_float (calibrate node c
              (sample_at (snd (LJUSB_Stream (numReadsPerDisplay - 1)))
                 (readSizeMultiplier - 1)
                 (12 + 2 * (SamplesPerPacket - NumChannels + c)))))
           <$> seqZ 0 NumChannels
    /\ read_scan (voltages l) (scanNumber l - 1) (Z.to_nat NumChannels) 0
       = Some data
    /\ length data = Z.to_nat NumChannels
    /\ onReadAndPubTimer node LJUSB_Stream w = Some w'
    /\ published w' = published w ++ [data]
    /\ usb_written w' = usb_written w
    /\ forall l' : locals double,
         scanNumber l' = scanNumber l -> totalPackets l' = totalPackets l ->
         (forall c, voltages l' !! (scanNumber l - 1, c)
                    = voltages l !! (scanNumber l - 1, c)) ->
         emit_scan l' w1 = emit_scan l w1.
Proof.
  intros Hcfg Hloops.
  destruct (stream_loops_Next Hcfg _ _ _ _ _ Hloops)
    as (Hs & Hc & _ & (Hu & Hp & _) & _ & Hrow).
  pose proof (read_last_row Hcfg _ _ _ _ _ Hloops) as Hread.
  destruct Hcfg as (Hn & _).
  eexists _, _. split; [reflexivity|].
  split; [exact Hread|].
  split; [by rewrite length_fmap, length_seqZ|].
  unfold onReadAndPubTimer. rewrite Hloops. unfold emit_scan at 1.
  rewrite Hread.
  split; [reflexivity|]. simpl.
  split; [by rewrite Hp|]. split; [done|].
  intros l' Hs' Ht' Hrow'. by apply emit_scan_ext.
Qed.

(** C7: a cycle that meets a short read, a failed check or a device error
    code ends at once with an error line; nothing is published and nothing
    is written to the device. *)
Theorem C7_fatal_cycle_publishes_nothing `{U3Driver} `{StreamParams}
    (node : LabjackNode u3CalibrationInfo) (LJUSB_Stream : Z -> Z * list Z)
    (w : World float32) :
  well_configured ->
  cycle_fatal LJUSB_Stream ->
  exists w', onReadAndPubTimer node LJUSB_Stream w = Some w'
    /\ published w' = published w
    /\ usb_written w' = usb_written w
    /\ exists ms e, console w' = console w ++ ms ++ [e]
         /\ msg_sink e = LogError.
Proof.
  intros Hcfg (j & Hj & Hbad).
  unfold onReadAndPubTimer.
  destruct (stream_loops node LJUSB_Stream w) as [[l w1]|w'|] eqn:Hloops.
  - exfalso.
    destruct (stream_loops_Next Hcfg _ _ _ _ _ Hloops)
      as (_ & _ & _ & _ & Hall & _).
    destruct (Hall j Hj) as [Hfull Hpk].
    destruct Hbad as [Hshort|(m & Hm & Hbad)]; [lia|].
    destruct (Hpk m Hm) as [Hck Hst].
    destruct Hbad; congruence.
  - exists w'. split; [done|].
    destruct Hcfg as (Hn & _).
    apply for_j_Return in Hloops as (Hu & Hp & Hlines); [|simpl; lia].
    auto.
  - by apply stream_loops_defined in Hloops.
Qed.

(** C10: with the constants of the source, [voltages] has 25 rows of 5
    cells, a store or a load outside them is the only way to [Undefined],
    and no cycle gets there; a cycle that reaches the emission has
    [scanNumber = 25], [currChannel = 0], and reads row 24. *)
Theorem C10_fixed_constants_stay_in_bounds `{U3Driver}
    (node : LabjackNode u3CalibrationInfo) (LJUSB_Stream : Z -> Z * list Z)
    (w : World float32) :
  @voltages_rows u3_params = 25
  /\ (forall s c, @in_bounds u3_params s c = true
                  <-> 0 <= s <= 24 /\ 0 <= c <= 4)
  /\ (forall a s c v, is_Some (@store _ u3_params a s c v)
                      <-> @in_bounds u3_params s c = true)
  /\ @stream_loops _ u3_params node LJUSB_Stream w <> Undefined
  /\ is_Some (@onReadAndPubTimer _ u3_params node LJUSB_Stream w)
  /\ forall l w', @stream_loops _ u3_params node LJUSB_Stream w = Next (l, w')
       -> scanNumber l = 25 /\ currChannel l = 0
          /\ @emit_scan _ u3_params l w'
             = match @read_scan _ u3_params (voltages l) 24 5 0 with
               | Some data =>
                   Some (publish data
                     (RCLCPP_DEBUG "Total packets read: %d\n" [totalPackets l]
                        (RCLCPP_DEBUG "Number of scans: %d\n" [scanNumber l]
                           w')))
               | None => None
               end
          /\ is_Some (@read_scan _ u3_params (voltages l) 24 5 0).
Proof.
  pose proof u3_well_configured as Hcfg.
  split; [reflexivity|].
  split; [intros s c; rewrite (@in_bounds_true u3_params);
          change (@voltages_rows u3_params) with 25;
          change (@NumChannels u3_params) with 5; lia|].
  split.
  { intros a s c v. unfold store. destruct (in_bounds s c); split;
      intros; eauto; try discriminate. by destruct H0. }
  split; [apply (stream_loops_defined Hcfg)|].
  assert (Hend : forall l w',
    @stream_loops _ u3_params node LJUSB_Stream w = Next (l, w') ->
    scanNumber l = 25 /\ currChannel l = 0
    /\ is_Some (@read_scan _ u3_params (voltages l) 24 5 0)).
  { intros l w' Hloops.
    pose proof (read_last_row Hcfg _ _ _ _ _ Hloops) as Hread.
    destruct (stream_loops_Next Hcfg _ _ _ _ _ Hloops) as (Hs & Hc & _).
    change (@voltages_rows u3_params) with 25 in Hs.
    rewrite Hs in Hread. split; [done|]. split; [done|]. by eexists. }
  split.
  - unfold onReadAndPubTimer.
    destruct (stream_loops node LJUSB_Stream w) as [[l w1]|w'|] eqn:Hloops;
      [|by eexists|by apply (stream_loops_defined Hcfg) in Hloops].
    destruct (Hend _ _ eq_refl) as (Hs & _ & data & Hread).
    unfold emit_scan. rewrite Hs. change (25 - 1) with 24.
    change (Z.to_nat NumChannels) with 5%nat. rewrite Hread. by eexists.
  - intros l w' Hloops. destruct (Hend _ _ Hloops) as (Hs & Hc & Hread).
    split; [done|]. split; [done|]. split; [|done].
    unfold emit_scan. rewrite Hs. reflexivity.
Qed.

Lemma C5_witness :
  exists w',
    @onReadAndPubTimer test_driver u3_params test_node
      (fun _ => test_read 0 59 0 60 0) empty_world = Some w'
    /\ published w'
       = [[Volt_hw130 0 31 5020; Volt_hw130 1 31 5021; Volt_hw130 2 31 5022;
           Volt_hw130 3 31 5023; Volt_hw130 4 31 5024]].
Proof.
  assert (Hloops :
    @stream_loops test_driver u3_params test_node
      (fun _ => test_read 0 59 0 60 0) empty_world
    = Next (fst (test_loops_end (fun _ => test_read 0 59 0 60 0)),
            snd (test_loops_end (fun _ => test_read 0 59 0 60 0)))).
  { vm_compute. reflexivity. }
  destruct (@C5_last_complete_scan_published test_driver u3_params test_node
              (fun _ => test_read 0 59 0 60 0) empty_world _ _
              u3_well_configured Hloops)
    as (data & w' & Hd & _ & _ & Hrun & Hpub & _).
  exists w'. split; [exact Hrun|]. rewrite Hpub, Hd.
  vm_compute. reflexivity.
Defined.

Lemma C7_witness :
  exists w',
    @onReadAndPubTimer test_driver u3_params test_node
      (fun _ => test_read 0 0 7 0 0) empty_world = Some w'
    /\ published w' = [] /\ usb_written w' = [].
Proof.
  destruct (@C7_fatal_cycle_publishes_nothing test_driver u3_params test_node
              (fun _ => test_read 0 0 7 0 0) empty_world u3_well_configured)
    as (w' & Hrun & Hp & Hu & _).
  - exists 0. split; [simpl; lia|]. right.
    exists 2. split; [simpl; lia|]. right. vm_compute. reflexivity.
  - exists w'. auto.
Defined.

(** ** One packet: extraction, status byte, recovery flag *)

Lemma byte_at_range (b : list Z) (i : Z) :
  Forall (fun x => 0 <= x < 256) b -> 0 <= byte_at b i < 256.
Proof.
  intros Hb. unfold byte_at.
  destruct (b !! Z.to_nat i) as [x|] eqn:E; simpl; [|lia].
  by eapply (Forall_lookup_1 _ _ _ _ Hb) in E.
Qed.

(** C1: with [NumChannels = 5] and [SamplesPerPacket = 25], a 64-byte
    packet that passes the checks with status byte 0, met on a scan
    boundary, stores exactly 25 values: sample [i] is the little-endian
    16-bit code at payload bytes [12 + 2i], [13 + 2i], it is calibrated for
    and stored under channel [i mod 5] of scan [scanNumber + i / 5], and
    [scanNumber] ends 5 higher with [currChannel] back at 0. *)
Theorem C1_one_packet_five_scans `{U3Driver}
    (node : LabjackNode u3CalibrationInfo) (recBuff : list Z) (m : Z)
    (l : locals double) (w : World float32) :
  @checks_pass _ u3_params recBuff m = true ->
  @status_byte u3_params recBuff m = 0 ->
  Forall (fun b => 0 <= b < 256) recBuff ->
  currChannel l = 0 -> 0 <= scanNumber l -> scanNumber l + 5 <= 25 ->
  @recBuffSize u3_params = 64
  /\ exists l',
       @packet_body _ u3_params node recBuff m (l, w) = Next (l', w)
       /\ currChannel l' = 0
       /\ scanNumber l' = scanNumber l + 5
       /\ (forall i, 0 <= i < 25 ->
             voltages l' !! (scanNumber l + i / 5, i mod 5)
             = Some (calibrate node (i mod 5)
                       (byte_at recBuff (m * 64 + (12 + 2 * i))
                        + byte_at recBuff (m * 64 + (12 + 2 * i) + 1) * 256)))
       /\ (forall s c,
             ~ (0 <= c < 5 /\ scanNumber l <= s < scanNumber l + 5) ->
             voltages l' !! (s, c) = voltages l !! (s, c)).
Proof.
  intros Hck Hst Hbytes Hc Hs Hfit. split; [reflexivity|].
  unfold packet_body.
  rewrite (packet_status_checks_pass _ _ _ _ _ Hck), Hst.
  change (0 =? 59) with false. change (0 =? 60) with false.
  change (negb (0 =? 0)) with false. cbv iota.
  change (Z.to_nat SamplesPerPacket) with 25%nat.
  set (l0 := mkLocals (currChannel l) (scanNumber l) (totalPackets l + 1)
               (autoRecoveryOn l) (voltages l)).
  destruct (@for_k_defined _ u3_params node recBuff m 25 12 l0)
    as [l' Hk];
    [simpl; lia|simpl; lia
    |change (@voltages_rows u3_params) with 25; unfold consumed; simpl; lia|].
  rewrite Hk.
  apply (@for_k_Some _ u3_params) in Hk as (Hn & Hc' & _ & _ & Hv);
    [|simpl; lia].
  unfold consumed in Hn, Hv. simpl in Hn, Hc', Hv. rewrite Hc in Hn, Hv.
  exists l'. split; [reflexivity|].
  split; [lia|]. split; [lia|]. split.
  - intros i Hi. rewrite Hv.
    assert (Hi5 : i = 5 * (i / 5) + i mod 5) by (apply Z.div_mod; lia).
    pose proof (Z.mod_pos_bound i 5 ltac:(lia)) as Hr.
    set (q := i / 5) in *. set (r := i mod 5) in *.
    case_decide as Hd.
    + do 2 f_equal. unfold sample_at, uint16.
      change (@recBuffSize u3_params) with 64.
      replace (12 + 2 * ((scanNumber l + q) * 5 + r
                         - (scanNumber l * 5 + 0)))
        with (12 + 2 * i) by lia.
      pose proof (byte_at_range recBuff (m * 64 + (12 + 2 * i)) Hbytes).
      pose proof (byte_at_range recBuff (m * 64 + (12 + 2 * i) + 1) Hbytes).
      apply Z.mod_small. lia.
    + exfalso. apply Hd. lia.
  - intros s c Hout. rewrite Hv. case_decide as Hd; [|reflexivity].
    exfalso. apply Hout. lia.
Qed.

Lemma C1_witness :
  exists l',
    @packet_body test_driver u3_params test_node
      (snd (test_read 0 0 0 0 0)) 1 (@init_locals test_driver, empty_world)
    = Next (l', empty_world)
    /\ scanNumber l' = 5
    /\ voltages l' !! (2, 3) = Some (Volt_hw130 3 31 2013).
Proof.
  destruct (@C1_one_packet_five_scans test_driver test_node
              (snd (test_read 0 0 0 0 0)) 1 (@init_locals test_driver)
              empty_world)
    as (_ & l' & Hrun & _ & Hs & Hcells & _).
  - vm_compute. reflexivity.
  - vm_compute. reflexivity.
  - apply (bool_decide_unpack _). vm_compute. exact I.
  - reflexivity.
  - simpl. lia.
  - simpl. lia.
  - exists l'. split; [exact Hrun|]. split; [exact Hs|].
    assert (H13 : 0 <= 13 < 25) by lia. specialize (Hcells 13 H13).
    change (scanNumber init_locals + 13 / 5, 13 mod 5) with (2, 3) in Hcells.
    etrans; [exact Hcells|]. vm_compute. reflexivity.
Defined.

(** C4: in a packet that passes the checks, status byte 59 is no error:
    the flag goes on (with one console line when it was off) and the
    packet goes on to the sample loop; status byte 60 prints the number of
    dropped scans, byte 6 plus 256 times byte 7 of the packet, turns the
    flag off and goes on as well; status byte 0 changes nothing. *)
Theorem C4_status_byte_branches `{U3Driver} `{StreamParams}
    (recBuff : list Z) (m tp a : Z) (w : World float32) :
  checks_pass recBuff m = true ->
  (status_byte recBuff m = 59 ->
     packet_status recBuff m tp a w
     = (if a =? 0 then Next (1, say (overflow_msg tp) w) else Next (a, w)))
  /\ (status_byte recBuff m = 60 ->
        packet_status recBuff m tp a w
        = Next (0, say (recovery_msg tp
                          (byte_at recBuff (m * recBuffSize + 6)
                           + byte_at recBuff (m * recBuffSize + 7) * 256)) w))
  /\ (status_byte recBuff m = 0 -> packet_status recBuff m tp a w = Next (a, w))
  /\ (status_byte recBuff m = 59 \/ status_byte recBuff m = 60
      \/ status_byte recBuff m = 0 ->
      forall (node : LabjackNode u3CalibrationInfo) (l : locals double) w',
        packet_body node recBuff m (l, w) <> Return w').
Proof.
  intros Hck.
  split; [|split; [|split]].
  - intros Hst. by rewrite (packet_status_checks_pass _ _ _ _ _ Hck), Hst.
  - intros Hst. by rewrite (packet_status_checks_pass _ _ _ _ _ Hck), Hst.
  - intros Hst. by rewrite (packet_status_checks_pass _ _ _ _ _ Hck), Hst.
  - intros Hst node l w' Hret.
    apply packet_body_Return in Hret as [[Hbad|Hbad] _]; [congruence|].
    unfold status_fatal in Hbad.
    destruct Hst as [Hst|[Hst|Hst]]; rewrite Hst in Hbad; discriminate.
Qed.

Lemma C4_witness :
  @packet_status test_driver u3_params (snd (test_read 0 59 0 60 0)) 3 4 1
    empty_world
  = Next (0, say (recovery_msg 4 300) empty_world).
Proof.
  destruct (@C4_status_byte_branches test_driver u3_params
              (snd (test_read 0 59 0 60 0)) 3 4 1 empty_world)
    as (_ & H60 & _).
  - vm_compute. reflexivity.
  - etrans; [apply H60; vm_compute; reflexivity|].
    vm_compute. reflexivity.
Defined.



(** ** A cycle does not look at the world it starts from *)

Section Replay.
Context `{U3Driver} `{StreamParams}.

Local Abbreviation World := (World float32).
Local Abbreviation LabjackNode := (LabjackNode u3CalibrationInfo).
Local Abbreviation locals := (locals double).

Implicit Types (node : LabjackNode) (recBuff : list Z) (l : locals)
  (w wp : World) (m k s c tp a j : Z) (n : nat) (rd : Z * list Z)
  (LJUSB_Stream : Z -> Z * list Z).

Lemma emit_prepend (sk : sink) fmt args wp w :
  emit sk fmt args (prepend wp w) = prepend wp (emit sk fmt args w).
Proof. unfold emit, prepend. simpl. by rewrite app_assoc. Qed.

Lemma publish_prepend (data : list float32) wp w :
  publish data (prepend wp w) = prepend wp (publish data w).
Proof. unfold publish, prepend. simpl. by rewrite app_assoc. Qed.

Lemma prepend_empty w : prepend w (mkWorld [] [] []) = w.
Proof. destruct w. unfold prepend. simpl. by rewrite !app_nil_r. Qed.

Lemma packet_status_prepend recBuff m tp a wp w :
  packet_status recBuff m tp a (prepend wp w)
  = flow_prepend wp (packet_status recBuff m tp a w).
Proof.
  unfold packet_status, RCLCPP_ERROR, printf.
  repeat match goal with
  | |- context [if ?b then _ else _] => destruct b
  end; simpl; by rewrite ?emit_prepend.
Qed.

Lemma packet_body_prepend node recBuff m l wp w :
  packet_body node recBuff m (l, prepend wp w)
  = flow_prepend wp (packet_body node recBuff m (l, w)).
Proof.
  unfold packet_body. rewrite packet_status_prepend.
  destruct (packet_status recBuff m _ _ w) as [[a' w1]| |]; simpl; [|done..].
  by destruct (for_k _ _ _ _ _ _).
Qed.

Lemma for_m_prepend node recBuff n wp : forall m l w,
  for_m node recBuff n m (l, prepend wp w)
  = flow_prepend wp (for_m node recBuff n m (l, w)).
Proof.
  induction n as [|n IH]; intros m l w; cbn [for_m]; [done|].
  rewrite packet_body_prepend.
  destruct (packet_body node recBuff m (l, w)) as [[l1 w1]| |]; simpl;
    [apply IH|done..].
Qed.

Lemma read_body_prepend node rd l wp w :
  read_body node rd (l, prepend wp w)
  = flow_prepend wp (read_body node rd (l, w)).
Proof.
  destruct rd as [recChars recBuff]. unfold read_body, RCLCPP_ERROR.
  destruct (recChars <? _); [|apply for_m_prepend].
  destruct (recChars =? 0); simpl; by rewrite emit_prepend.
Qed.

Lemma for_j_prepend node LJUSB_Stream n wp : forall j l w,
  for_j node LJUSB_Stream n j (l, prepend wp w)
  = flow_prepend wp (for_j node LJUSB_Stream n j (l, w)).
Proof.
  induction n as [|n IH]; intros j l w; cbn [for_j]; [done|].
  rewrite read_body_prepend.
  destruct (read_body node (LJUSB_Stream j) (l, w)) as [[l1 w1]| |]; simpl;
    [apply IH|done..].
Qed.

Lemma emit_scan_prepend l wp w :
  emit_scan l (prepend wp w) = prepend wp <$> emit_scan l w.
Proof.
  unfold emit_scan, RCLCPP_DEBUG.
  destruct (read_scan _ _ _ _); simpl; [|done].
  by rewrite !emit_prepend, publish_prepend.
Qed.

Lemma onReadAndPubTimer_prepend node LJUSB_Stream wp w :
  onReadAndPubTimer node LJUSB_Stream (prepend wp w)
  = prepend wp <$> onReadAndPubTimer node LJUSB_Stream w.
Proof.
  unfold onReadAndPubTimer, stream_loops. rewrite for_j_prepend.
  destruct (for_j _ _ _ _ _) as [[l1 w1]| |]; simpl; [|done..].
  apply emit_scan_prepend.
Qed.

End Replay.

(** C9: [autoRecoveryOn] is a local of the callback, 0 when the loops
    start; what a cycle does is what it does from an empty world, replayed
    after the world it finds, so nothing of an earlier cycle reaches it;
    and across one packet the flag changes only from 0 to 1 on status byte
    59 or to 0 on status byte 60. *)
Theorem C9_recovery_flag_is_per_cycle `{U3Driver} `{StreamParams}
    (node : LabjackNode u3CalibrationInfo) (LJUSB_Stream : Z -> Z * list Z)
    (w : World float32) (recBuff : list Z) (m : Z) (l : locals double) :
  stream_loops node LJUSB_Stream w
  = for_j node LJUSB_Stream (Z.to_nat numReadsPerDisplay) 0
      (mkLocals 0 0 0 0 ∅, w)
  /\ onReadAndPubTimer node LJUSB_Stream w
     = prepend w <$> onReadAndPubTimer node LJUSB_Stream (mkWorld [] [] [])
  /\ match packet_body node recBuff m (l, w) with
     | Next (l', _) =>
         autoRecoveryOn l' = autoRecoveryOn l
         \/ (status_byte recBuff m = 59 /\ autoRecoveryOn l = 0
             /\ autoRecoveryOn l' = 1)
         \/ (status_byte recBuff m = 60 /\ autoRecoveryOn l' = 0)
     | _ => True
     end.
Proof.
  split; [reflexivity|]. split.
  - by rewrite <- onReadAndPubTimer_prepend, prepend_empty.
  - unfold packet_body.
    destruct (packet_status _ _ _ _ _) as [[a' w1]| |] eqn:Hs; [|done..].
    apply packet_status_Next in Hs as (_ & _ & _ & ->).
    rewrite (for_k_frame node _ m _ _ _ 12 l).
    destruct (for_k node recBuff m _ 12 l) as [lk|]; simpl; [|done].
    destruct (status_byte recBuff m =? 59) eqn:E59;
      [destruct (autoRecoveryOn l =? 0) eqn:E0
      |destruct (status_byte recBuff m =? 60) eqn:E60]; auto;
      right; [left|right]; lia.
Qed.

(** ** The command operations *)

(** Decides the first comparison a test depends on. *)
Ltac decide_atom c :=
  lazymatch c with
  | negb ?x => decide_atom x
  | orb ?x _ => decide_atom x
  | andb ?x _ => decide_atom x
  | _ => destruct c eqn:?
  end.

(** Decides the tests of the goal from the outside in. *)
Ltac decide_checks :=
  repeat (lazymatch goal with
          | |- context [if ?c then _ else _] => decide_atom c
          end; cbn [negb orb andb]).

Section Commands.
Context `{U3Driver} `{StreamParams}.

Local Abbreviation World := (World float32).
Implicit Types (recBuff : list Z) (w : World) (sendChars recChars dac : Z).

Lemma last_line_kind_emit (sk : sink) fmt args w :
  last_line_kind (emit sk fmt args w) = line_kind (mkMsg sk fmt args).
Proof. unfold last_line_kind, emit. simpl. by rewrite last_snoc. Qed.

(** Past the transport, the checksums, the command bytes and the error
    code, [ConfigIO_example] is down to the three echoed settings. *)
Lemma ConfigIO_checks_passed sendChars recChars recBuff dac w :
  12 <= sendChars -> 12 <= recChars ->
  extended_checksums_ok recBuff 12 = true ->
  ConfigIO_echo_ok recBuff = true ->
  byte_at recBuff 6 = 0 ->
  ConfigIO_example sendChars (recChars, recBuff) dac w
  = if negb (byte_at recBuff 8 =? 64)
    then (-1, dac, say TimerCounterConfig_msg (ConfigIO_sent w))
    else if negb (byte_at recBuff 10 =? 255)
            && negb (byte_at recBuff 10 =? 15)
    then (-1, dac, say FIOAnalog_msg (ConfigIO_sent w))
    else if negb (byte_at recBuff 11 =? 255)
    then (-1, dac, say (EIOAnalog_msg (byte_at recBuff 11)) (ConfigIO_sent w))
    else (0, byte_at recBuff 9,
          printf "ConfigIO_example... OK\n" [] (ConfigIO_sent w)).
Proof.
  intros Hs Hr Hck Hecho Herr.
  unfold ConfigIO_example, extended_checksums_ok, ConfigIO_echo_ok in *.
  apply Z.ltb_ge in Hs, Hr. rewrite Hs, Hr.
  repeat (apply andb_true_iff in Hck as [Hck ?]).
  repeat (apply andb_true_iff in Hecho as [Hecho ?]).
  repeat match goal with Hx : (_ =? _) = true |- _ => rewrite Hx; clear Hx end.
  rewrite Herr. reflexivity.
Qed.

(** The first comparison the outermost test of the goal depends on. *)
Ltac destruct_atom c :=
  lazymatch c with
  | negb ?x => destruct_atom x
  | orb ?x _ => destruct_atom x
  | andb ?x _ => destruct_atom x
  | _ => destruct c eqn:?
  end.

(** Walks down a chain of tests, one comparison at a time. *)
Ltac walk_checks :=
  repeat (lazymatch goal with
          | |- context [if ?c then _ else _] => destruct_atom c
          end; cbn [negb orb andb]).

(** Closes [generic_failure] once the outcome is a literal. *)
Ltac close_generic :=
  unfold generic_failure; cbn [fst snd negb andb orb];
  rewrite ?last_line_kind_emit;
  repeat split; intros;
  first [congruence | lia | reflexivity | (vm_compute; reflexivity)].

Lemma ConfigIO_generic sendChars recChars recBuff dac w :
  generic_failure w
    (fst (fst (ConfigIO_example sendChars (recChars, recBuff) dac w)))
    (snd (ConfigIO_example sendChars (recChars, recBuff) dac w))
    (negb (sendChars <? 12) && negb (recChars <? 12))
    (extended_checksums_ok recBuff 12) (ConfigIO_echo_ok recBuff)
    (byte_at recBuff 6) false.
Proof.
  unfold ConfigIO_example, extended_checksums_ok, ConfigIO_echo_ok, printf.
  cbv zeta. walk_checks; close_generic.
Qed.

Lemma StreamConfig_generic sendChars recChars recBuff w :
  generic_failure w
    (fst (StreamConfig_example sendChars (recChars, recBuff) w))
    (snd (StreamConfig_example sendChars (recChars, recBuff) w))
    (negb (sendChars <? 12 + NumChannels * 2) && negb (recChars <? 8))
    (extended_checksums_ok recBuff 8) (StreamConfig_echo_ok recBuff)
    (byte_at recBuff 6) false.
Proof.
  unfold StreamConfig_example, extended_checksums_ok, StreamConfig_echo_ok,
    printf.
  cbv zeta. walk_checks; close_generic.
Qed.

Lemma StreamStart_generic sendChars recChars recBuff w :
  generic_failure w
    (fst (StreamStart sendChars (recChars, recBuff) w))
    (snd (StreamStart sendChars (recChars, recBuff) w))
    (negb (sendChars <? 2) && negb (recChars <? 4))
    (normal_checksum_ok recBuff) (StreamStart_echo_ok recBuff)
    (byte_at recBuff 2) false.
Proof.
  unfold StreamStart, normal_checksum_ok, StreamStart_echo_ok, printf.
  cbv zeta. walk_checks; close_generic.
Qed.

Lemma StreamStop_generic sendChars recChars recBuff w :
  generic_failure w
    (fst (StreamStop sendChars (recChars, recBuff) w))
    (snd (StreamStop sendChars (recChars, recBuff) w))
    (negb (sendChars <? 2) && negb (recChars <? 4))
    (normal_checksum_ok recBuff) (StreamStop_echo_ok recBuff)
    (byte_at recBuff 2) true.
Proof.
  unfold StreamStop, normal_checksum_ok, StreamStop_echo_ok, printf.
  cbv zeta. walk_checks; close_generic.
Qed.

(** Closes [command_outcome] once the outcome is a literal. *)
Ltac close_outcome :=
  unfold command_outcome; cbn [fst snd negb andb orb];
  rewrite ?last_line_kind_emit;
  repeat split; intros;
  first [congruence | lia | reflexivity | discriminate
        | (vm_compute; reflexivity)
        | intuition (first [congruence | lia])].

Lemma ConfigIO_outcome sendChars recChars recBuff dac w :
  command_outcome w
    (fst (fst (ConfigIO_example sendChars (recChars, recBuff) dac w)))
    (snd (ConfigIO_example sendChars (recChars, recBuff) dac w))
    (negb (sendChars <? 12) && negb (recChars <? 12))
    (extended_checksums_ok recBuff 12) (ConfigIO_echo_ok recBuff)
    (byte_at recBuff 6) (ConfigIO_settings_ok recBuff) false.
Proof.
  unfold ConfigIO_example, extended_checksums_ok, ConfigIO_echo_ok,
    ConfigIO_settings_ok, printf.
  cbv zeta. walk_checks; close_outcome.
Qed.

Lemma StreamConfig_outcome sendChars recChars recBuff w :
  command_outcome w
    (fst (StreamConfig_example sendChars (recChars, recBuff) w))
    (snd (StreamConfig_example sendChars (recChars, recBuff) w))
    (negb (sendChars <? 12 + NumChannels * 2) && negb (recChars <? 8))
    (extended_checksums_ok recBuff 8) (StreamConfig_echo_ok recBuff)
    (byte_at recBuff 6) true false.
Proof.
  unfold StreamConfig_example, extended_checksums_ok, StreamConfig_echo_ok,
    printf.
  cbv zeta. walk_checks; close_outcome.
Qed.

Lemma StreamStart_outcome sendChars recChars recBuff w :
  command_outcome w
    (fst (StreamStart sendChars (recChars, recBuff) w))
    (snd (StreamStart sendChars (recChars, recBuff) w))
    (negb (sendChars <? 2) && negb (recChars <? 4))
    (normal_checksum_ok recBuff) (StreamStart_echo_ok recBuff)
    (byte_at recBuff 2) true false.
Proof.
  unfold StreamStart, normal_checksum_ok, StreamStart_echo_ok, printf.
  cbv zeta. walk_checks; close_outcome.
Qed.

Lemma StreamStop_outcome sendChars recChars recBuff w :
  command_outcome w
    (fst (StreamStop sendChars (recChars, recBuff) w))
    (snd (StreamStop sendChars (recChars, recBuff) w))
    (negb (sendChars <? 2) && negb (recChars <? 4))
    (normal_checksum_ok recBuff) (StreamStop_echo_ok recBuff)
    (byte_at recBuff 2) true true.
Proof.
  unfold StreamStop, normal_checksum_ok, StreamStop_echo_ok, printf.
  cbv zeta. walk_checks; close_outcome.
Qed.

End Commands.

(** ** The failures of the stream poll *)

Section PollFailures.
Context `{U3Driver} `{StreamParams}.

Local Abbreviation World := (World float32).
Local Abbreviation LabjackNode := (LabjackNode u3CalibrationInfo).
Local Abbreviation locals := (locals double).

Implicit Types (node : LabjackNode) (recBuff : list Z) (l : locals)
  (w : World) (m k tp a j : Z) (n : nat) (LJUSB_Stream : Z -> Z * list Z).

Lemma checks_pass_split recBuff m :
  checks_pass recBuff m
  = packet_checksums_ok recBuff m && packet_echo_ok recBuff m.
Proof.
  unfold checks_pass, packet_checksums_ok, packet_echo_ok. cbv zeta.
  by rewrite !andb_assoc.
Qed.

Lemma poll_reports_last w w' (knd : failure_kind) :
  poll_reports w w' knd -> last_line_kind w' = Some knd.
Proof.
  intros [(e & Hc & _ & Hk) _]. unfold last_line_kind.
  by rewrite Hc, last_snoc.
Qed.

(** The status branch of a packet: a bad packet ends the callback on the
    line of the test it fails first, any other goes on. *)
Lemma packet_status_kind recBuff m tp a w :
  match packet_status recBuff m tp a w with
  | Return w' =>
      packet_bad recBuff m = true
      /\ poll_reports w w' (packet_kind recBuff m)
  | Next _ => packet_bad recBuff m = false
  | Undefined => False
  end.
Proof.
  unfold packet_bad, packet_kind. rewrite checks_pass_split.
  unfold packet_status, packet_checksums_ok, packet_echo_ok, status_fatal,
    status_byte, poll_reports, RCLCPP_ERROR, emit.
  cbv zeta.
  decide_checks; cbv beta iota;
    first [reflexivity
          | split; [reflexivity|];
            split; [|split; reflexivity];
            eexists; split; [reflexivity|];
            split; [reflexivity|vm_compute; reflexivity]].
Qed.

Lemma packet_body_kind node recBuff m l w :
  match packet_body node recBuff m (l, w) with
  | Return w' =>
      packet_bad recBuff m = true
      /\ last_line_kind w' = Some (packet_kind recBuff m)
  | Next _ => packet_bad recBuff m = false
  | Undefined => True
  end.
Proof.
  unfold packet_body.
  pose proof (packet_status_kind recBuff m (totalPackets l + 1)
                (autoRecoveryOn l) w) as Hs.
  destruct (packet_status _ _ _ _ _) as [[a' w1]|w1|]; [| |done].
  - by destruct (for_k _ _ _ _ _ _).
  - destruct Hs as [Hb Hr]. split; [exact Hb|].
    by apply poll_reports_last in Hr.
Qed.

(** The [m] loop stops at its first bad packet, on that packet's line. *)
Lemma for_m_failures node recBuff n : forall m l w,
  match for_m node recBuff n m (l, w) with
  | Return w' =>
      exists i, 0 <= i < Z.of_nat n
        /\ (forall k, 0 <= k < i -> packet_bad recBuff (m + k) = false)
        /\ packet_bad recBuff (m + i) = true
        /\ last_line_kind w' = Some (packet_kind recBuff (m + i))
  | Next _ => forall k, 0 <= k < Z.of_nat n -> packet_bad recBuff (m + k) = false
  | Undefined => True
  end.
Proof.
  induction n as [|n IH]; intros m l w; cbn [for_m]; [intros k Hk; lia|].
  pose proof (packet_body_kind node recBuff m l w) as Hb.
  destruct (packet_body node recBuff m (l, w)) as [[l1 w1]|w1|]; [| |done].
  - specialize (IH (m + 1) l1 w1).
    destruct (for_m node recBuff n (m + 1) (l1, w1)) as [[l2 w2]|w2|];
      [| |done].
    + intros k Hk. destruct (decide (k = 0)) as [->|Hne].
      * by rewrite Z.add_0_r.
      * replace (m + k) with (m + 1 + (k - 1)) by lia. apply IH. lia.
    + destruct IH as (i & Hi & Hbefore & Hbad & Hkind). exists (i + 1).
      replace (m + (i + 1)) with (m + 1 + i) by lia.
      split; [lia|]. split; [|by split].
      intros k Hk. destruct (decide (k = 0)) as [->|Hne].
      * by rewrite Z.add_0_r.
      * replace (m + k) with (m + 1 + (k - 1)) by lia. apply Hbefore. lia.
  - exists 0. rewrite Z.add_0_r. split; [lia|]. split; [intros k Hk; lia|].
    exact Hb.
Qed.

Lemma read_body_failures node (rd : Z * list Z) l w :
  match read_body node rd (l, w) with
  | Return w' => poll_failure rd w'
  | Next _ => read_clean rd
  | Undefined => True
  end.
Proof.
  destruct rd as [recChars recBuff].
  unfold read_body, poll_failure, read_clean, RCLCPP_ERROR. cbn [fst snd].
  destruct (Z.ltb_spec recChars (responseSize * readSizeMultiplier)) as [Hlt|Hge].
  - destruct (recChars =? 0); left; (split; [exact Hlt|]);
      rewrite last_line_kind_emit; reflexivity.
  - pose proof (for_m_failures node recBuff (Z.to_nat readSizeMultiplier)
                  0 l w) as Hm.
    destruct (for_m _ _ _ _ _) as [[l1 w1]|w1|]; [| |done].
    + split; [exact Hge|]. intros m Hr. apply (Hm m). lia.
    + right. split; [exact Hge|].
      destruct Hm as (i & Hi & Hbefore & Hbad & Hkind). exists i.
      split; [|exact Hkind].
      split; [lia|]. split; [|exact Hbad].
      intros k Hk. exact (Hbefore k Hk).
Qed.

(** The [j] loop stops in its first read that is short or holds a bad
    packet. *)
Lemma for_j_failures node LJUSB_Stream n : forall j l w,
  match for_j node LJUSB_Stream n j (l, w) with
  | Return w' =>
      exists i, 0 <= i < Z.of_nat n
        /\ (forall k, 0 <= k < i -> read_clean (LJUSB_Stream (j + k)))
        /\ poll_failure (LJUSB_Stream (j + i)) w'
  | Next _ => forall k, 0 <= k < Z.of_nat n -> read_clean (LJUSB_Stream (j + k))
  | Undefined => True
  end.
Proof.
  induction n as [|n IH]; intros j l w; cbn [for_j]; [intros k Hk; lia|].
  pose proof (read_body_failures node (LJUSB_Stream j) l w) as Hb.
  destruct (read_body node (LJUSB_Stream j) (l, w)) as [[l1 w1]|w1|];
    [| |done].
  - specialize (IH (j + 1) l1 w1).
    destruct (for_j node LJUSB_Stream n (j + 1) (l1, w1)) as [[l2 w2]|w2|];
      [| |done].
    + intros k Hk. destruct (decide (k = 0)) as [->|Hne].
      * by rewrite Z.add_0_r.
      * replace (j + k) with (j + 1 + (k - 1)) by lia. apply IH. lia.
    + destruct IH as (i & Hi & Hbefore & Hfail). exists (i + 1).
      replace (j + (i + 1)) with (j + 1 + i) by lia.
      split; [lia|]. split; [|exact Hfail].
      intros k Hk. destruct (decide (k = 0)) as [->|Hne].
      * by rewrite Z.add_0_r.
      * replace (j + k) with (j + 1 + (k - 1)) by lia. apply Hbefore. lia.
  - exists 0. rewrite Z.add_0_r. split; [lia|]. split; [intros k Hk; lia|].
    exact Hb.
Qed.

(** A cycle, by the first failure it meets. *)
Lemma stream_loops_failures node LJUSB_Stream w :
  match stream_loops node LJUSB_Stream w with
  | Return w' =>
      onReadAndPubTimer node LJUSB_Stream w = Some w'
      /\ exists j, 0 <= j < numReadsPerDisplay
           /\ reads_clean LJUSB_Stream j
           /\ poll_failure (LJUSB_Stream j) w'
  | Next _ => reads_clean LJUSB_Stream numReadsPerDisplay
  | Undefined => True
  end.
Proof.
  unfold onReadAndPubTimer.
  pose proof (for_j_failures node LJUSB_Stream (Z.to_nat numReadsPerDisplay)
                0 init_locals w) as Hj.
  unfold stream_loops.
  destruct (for_j _ _ _ _ _) as [[l1 w1]|w1|]; [| |done].
  - intros i Hi. apply (Hj i). lia.
  - split; [reflexivity|].
    destruct Hj as (i & Hi & Hbefore & Hfail). exists i.
    split; [lia|]. split; [|exact Hfail].
    intros k Hk. exact (Hbefore k Hk).
Qed.

End PollFailures.

(** C6: a ConfigIO response that passes the checksum, command-byte and
    error-code tests is accepted exactly when byte 8 echoes 64, byte 10
    echoes 255 or 15 and byte 11 echoes 255; otherwise the operation
    returns -1 with the line of the first setting that differs. *)
Theorem C6_ConfigIO_applied_configuration `{U3Driver}
    (sendChars recChars : Z) (recBuff : list Z) (dac : Z)
    (w : World float32) :
  12 <= sendChars -> 12 <= recChars ->
  extended_checksums_ok recBuff 12 = true ->
  ConfigIO_echo_ok recBuff = true ->
  byte_at recBuff 6 = 0 ->
  (fst (fst (ConfigIO_example sendChars (recChars, recBuff) dac w)) = 0
   <-> byte_at recBuff 8 = 64
       /\ (byte_at recBuff 10 = 255 \/ byte_at recBuff 10 = 15)
       /\ byte_at recBuff 11 = 255)
  /\ (byte_at recBuff 8 <> 64 ->
      ConfigIO_example sendChars (recChars, recBuff) dac w
      = (-1, dac, say TimerCounterConfig_msg (ConfigIO_sent w)))
  /\ (byte_at recBuff 8 = 64 ->
      byte_at recBuff 10 <> 255 -> byte_at recBuff 10 <> 15 ->
      ConfigIO_example sendChars (recChars, recBuff) dac w
      = (-1, dac, say FIOAnalog_msg (ConfigIO_sent w)))
  /\ (byte_at recBuff 8 = 64 ->
      byte_at recBuff 10 = 255 \/ byte_at recBuff 10 = 15 ->
      byte_at recBuff 11 <> 255 ->
      ConfigIO_example sendChars (recChars, recBuff) dac w
      = (-1, dac, say (EIOAnalog_msg (byte_at recBuff 11)) (ConfigIO_sent w)))
  /\ (fst (fst (ConfigIO_example sendChars (recChars, recBuff) dac w)) = 0 ->
      snd (fst (ConfigIO_example sendChars (recChars, recBuff) dac w))
      = byte_at recBuff 9).
Proof.
  intros Hs Hr Hck Hecho Herr.
  rewrite (ConfigIO_checks_passed _ _ _ _ _ Hs Hr Hck Hecho Herr).
  destruct (Z.eqb_spec (byte_at recBuff 8) 64);
    destruct (Z.eqb_spec (byte_at recBuff 10) 255);
    destruct (Z.eqb_spec (byte_at recBuff 10) 15);
    destruct (Z.eqb_spec (byte_at recBuff 11) 255);
    cbn [negb andb fst snd];
    repeat split; intros; first [lia | congruence | reflexivity | tauto].
Qed.

Lemma C6_witness :
  fst (fst (@ConfigIO_example test_driver 12
              (12, test_ConfigIO_response 10 15 true) 7 empty_world)) = 0.
Proof.
  destruct (@C6_ConfigIO_applied_configuration test_driver 12 12
              (test_ConfigIO_response 10 15 true) 7 empty_world)
    as [Hiff _].
  - lia.
  - lia.
  - vm_compute. reflexivity.
  - vm_compute. reflexivity.
  - vm_compute. reflexivity.
  - apply Hiff. vm_compute. auto.
Defined.

(** C3, as the code has it: each of the four command operations returns
    0 or -1 to its caller, 0 exactly when the transfer was complete and
    every test passed (for [ConfigIO_example] the three echoed settings
    too), and the same -1 whichever test failed; a failed checksum, wrong
    command bytes, a device error code and a setting that was not applied
    are told apart only by the last console line, and [StreamStop] prints
    no line for a device error code.  The stream poll has no return value:
    a packet that fails a test or carries an error status ends it with one
    more line, an error of the logger that tells a failed checksum from
    wrong command bytes from a device error code; a cycle stops at its
    first short read or bad packet, on the line of that packet's kind, and
    a cycle that goes through its loops met neither. *)
Theorem C3_failures_return_minus_one `{U3Driver} `{StreamParams}
    (sendChars recChars : Z) (recBuff : list Z) (dac m tp a : Z)
    (w : World float32) (node : LabjackNode u3CalibrationInfo)
    (LJUSB_Stream : Z -> Z * list Z) :
  command_outcome w
    (fst (fst (ConfigIO_example sendChars (recChars, recBuff) dac w)))
    (snd (ConfigIO_example sendChars (recChars, recBuff) dac w))
    (negb (sendChars <? 12) && negb (recChars <? 12))
    (extended_checksums_ok recBuff 12) (ConfigIO_echo_ok recBuff)
    (byte_at recBuff 6) (ConfigIO_settings_ok recBuff) false
  /\ command_outcome w
       (fst (StreamConfig_example sendChars (recChars, recBuff) w))
       (snd (StreamConfig_example sendChars (recChars, recBuff) w))
       (negb (sendChars <? 12 + NumChannels * 2) && negb (recChars <? 8))
       (extended_checksums_ok recBuff 8) (StreamConfig_echo_ok recBuff)
       (byte_at recBuff 6) true false
  /\ command_outcome w
       (fst (StreamStart sendChars (recChars, recBuff) w))
       (snd (StreamStart sendChars (recChars, recBuff) w))
       (negb (sendChars <? 2) && negb (recChars <? 4))
       (normal_checksum_ok recBuff) (StreamStart_echo_ok recBuff)
       (byte_at recBuff 2) true false
  /\ command_outcome w
       (fst (StreamStop sendChars (recChars, recBuff) w))
       (snd (StreamStop sendChars (recChars, recBuff) w))
       (negb (sendChars <? 2) && negb (recChars <? 4))
       (normal_checksum_ok recBuff) (StreamStop_echo_ok recBuff)
       (byte_at recBuff 2) true true
  /\ match packet_status recBuff m tp a w with
     | Return w' =>
         packet_bad recBuff m = true
         /\ poll_reports w w' (packet_kind recBuff m)
     | Next _ => packet_bad recBuff m = false
     | Undefined => False
     end
  /\ match stream_loops node LJUSB_Stream w with
     | Return w' =>
         onReadAndPubTimer node LJUSB_Stream w = Some w'
         /\ exists j, 0 <= j < numReadsPerDisplay
              /\ reads_clean LJUSB_Stream j
              /\ poll_failure (LJUSB_Stream j) w'
     | Next _ => reads_clean LJUSB_Stream numReadsPerDisplay
     | Undefined => True
     end.
Proof.
  split; [apply ConfigIO_outcome|].
  split; [apply StreamConfig_outcome|].
  split; [apply StreamStart_outcome|].
  split; [apply StreamStop_outcome|].
  split; [apply packet_status_kind|apply stream_loops_failures].
Qed.

(** C3 as stated fails: a corrupted checksum and a device error code give
    the caller of [ConfigIO_example] the same value, and [StreamStop]
    answers a device error code with -1 and not a line on the console. *)
Lemma C3_counterexample :
  @extended_checksums_ok test_driver (test_ConfigIO_response 9 1 false) 12
    = false
  /\ (@extended_checksums_ok test_driver (test_ConfigIO_response 6 5 true) 12
      = true
      /\ ConfigIO_echo_ok (test_ConfigIO_response 6 5 true) = true
      /\ byte_at (test_ConfigIO_response 6 5 true) 6 = 5)
  /\ fst (fst (@ConfigIO_example test_driver 12
                 (12, test_ConfigIO_response 9 1 false) 0 empty_world))
     = fst (fst (@ConfigIO_example test_driver 12
                   (12, test_ConfigIO_response 6 5 true) 0 empty_world))
  /\ @StreamStop test_driver 2 (4, test_StreamStop_response 5) empty_world
     = (-1, mkWorld [[176; 176]] [] []).
Proof. vm_compute. repeat split; reflexivity. Qed.

(** Three cycles that stop in their first read: a payload byte of packet
    2 changed, the command byte of packet 0 changed under recomputed
    checksums, and status byte 7 in packet 1. *)
Example poll_lines_tell_kinds :
  last_line_kind
    <$> @onReadAndPubTimer test_driver u3_params test_node
          (fun _ => (320, set_byte (snd (test_read 0 0 0 0 0)) 140 9))
          empty_world
  = Some (Some ChecksumMismatch)
  /\ last_line_kind
       <$> @onReadAndPubTimer test_driver u3_params test_node
             (fun _ => (320,
                @extendedChecksum test_driver
                  (set_byte (test_packet 0 0 0 1000) 1 0) 64
                ++ drop 64 (snd (test_read 0 0 0 0 0))))
             empty_world
     = Some (Some UnexpectedResponseShape)
  /\ last_line_kind
       <$> @onReadAndPubTimer test_driver u3_params test_node
             (fun _ => test_read 0 7 0 0 0) empty_world
     = Some (Some DeviceError).
Proof. vm_compute. repeat split; reflexivity. Qed.

(** C2: the error line of a packet other than the first carries byte 11
    of the buffer, the status byte of the first packet: here packet 1 has
    status byte 7 and the line says 0. *)
Lemma C2_errorcode_line_reads_first_packet :
  @status_byte u3_params (snd (test_read 0 7 0 0 0)) 1 = 7
  /\ @onReadAndPubTimer test_driver u3_params test_node
       (fun _ => test_read 0 7 0 0 0) empty_world
     = Some (mkWorld [] [errorcode_msg 0] []).
Proof. vm_compute. split; reflexivity. Qed.

(** Two cycles in a row: the first ends with the flag on, and the second
    reports the overflow of its first packet again. *)
Example recovery_flag_restarts :
  (@onReadAndPubTimer test_driver u3_params test_node
     (fun _ => test_read 59 59 59 59 59) empty_world
   ≫= @onReadAndPubTimer test_driver u3_params test_node
        (fun _ => test_read 59 0 0 0 0))
  ≫= (fun w => Some (console w))
  = Some [overflow_msg 1;
          mkMsg LogDebug "Number of scans: %d\n" [25];
          mkMsg LogDebug "Total packets read: %d\n" [5];
          overflow_msg 1;
          mkMsg LogDebug "Number of scans: %d\n" [25];
          mkMsg LogDebug "Total packets read: %d\n" [5]].
Proof. vm_compute. reflexivity. Qed.

(** ** More on the command operations *)

Section CommandResults.
Context `{U3Driver} `{StreamParams}.

Local Abbreviation World := (World float32).
Implicit Types (recBuff : list Z) (w : World) (sendChars recChars dac : Z)
  (rd : Z * list Z).

(** Closes an equivalence between a literal return value and the
    conditions of acceptance, once every comparison is decided. *)
Ltac close_iff :=
  cbn [negb andb orb fst snd] in *;
  intuition (first [congruence | lia]).

(** X1: [StreamStart] and [StreamStop] return 0 for exactly the
    responses that were written and read in full, carry their own 8-bit
    checksum in byte 0, the acknowledge byte (0xA9, 0xB1) in byte 1 and
    zero in bytes 2 and 3; and then they leave the console as it was. *)
Theorem normal_commands_accept_iff sendChars recChars recBuff w :
  (fst (StreamStart sendChars (recChars, recBuff) w) = 0
   <-> 2 <= sendChars /\ 4 <= recChars
       /\ normalChecksum8 recBuff 4 = byte_at recBuff 0
       /\ byte_at recBuff 1 = 169 /\ byte_at recBuff 2 = 0
       /\ byte_at recBuff 3 = 0)
  /\ (fst (StreamStop sendChars (recChars, recBuff) w) = 0
      <-> 2 <= sendChars /\ 4 <= recChars
          /\ normalChecksum8 recBuff 4 = byte_at recBuff 0
          /\ byte_at recBuff 1 = 177 /\ byte_at recBuff 2 = 0
          /\ byte_at recBuff 3 = 0)
  /\ (fst (StreamStart sendChars (recChars, recBuff) w) = 0 ->
      console (snd (StreamStart sendChars (recChars, recBuff) w)) = console w)
  /\ (fst (StreamStop sendChars (recChars, recBuff) w) = 0 ->
      console (snd (StreamStop sendChars (recChars, recBuff) w)) = console w).
Proof.
  unfold StreamStart, StreamStop, printf.
  split; [|split; [|split]]; decide_checks; close_iff.
Qed.

(** X2: [StreamConfig_example] returns 0 for exactly the responses that
    were written and read in full, pass the three checksum tests, echo
    0xF8, 0x01, 0x11 in bytes 1 to 3 and zero in byte 7, and carry error
    code 0 in byte 6. *)
Theorem StreamConfig_accepts_iff sendChars recChars recBuff w :
  fst (StreamConfig_example sendChars (recChars, recBuff) w) = 0
  <-> 12 + NumChannels * 2 <= sendChars /\ 8 <= recChars
      /\ extended_checksums_ok recBuff 8 = true
      /\ byte_at recBuff 1 = 248 /\ byte_at recBuff 2 = 1
      /\ byte_at recBuff 3 = 17 /\ byte_at recBuff 7 = 0
      /\ byte_at recBuff 6 = 0.
Proof.
  unfold StreamConfig_example, extended_checksums_ok, printf. cbv zeta.
  decide_checks; close_iff.
Qed.

(** X3: [ConfigIO_example] returns 0 for exactly the responses that were
    written and read in full, pass the checksum tests, echo 0xF8, 0x03,
    0x0B, carry error code 0 and echo the settings 64, 255 or 15, and
    255; it assigns [*isDAC1Enabled] (byte 9 of the response) on that
    path and on no other. *)
Theorem ConfigIO_accepts_iff sendChars recChars recBuff dac w :
  (fst (fst (ConfigIO_example sendChars (recChars, recBuff) dac w)) = 0
   <-> 12 <= sendChars /\ 12 <= recChars
       /\ extended_checksums_ok recBuff 12 = true
       /\ byte_at recBuff 1 = 248 /\ byte_at recBuff 2 = 3
       /\ byte_at recBuff 3 = 11 /\ byte_at recBuff 6 = 0
       /\ byte_at recBuff 8 = 64
       /\ (byte_at recBuff 10 = 255 \/ byte_at recBuff 10 = 15)
       /\ byte_at recBuff 11 = 255)
  /\ snd (fst (ConfigIO_example sendChars (recChars, recBuff) dac w))
     = (if fst (fst (ConfigIO_example sendChars (recChars, recBuff) dac w))
           =? 0
        then byte_at recBuff 9 else dac).
Proof.
  unfold ConfigIO_example, extended_checksums_ok, printf. cbv zeta.
  split; decide_checks; first [reflexivity | close_iff].
Qed.

End CommandResults.

(** ** The command frames *)

Lemma length_set_byte (b : list Z) (i v : Z) :
  length (set_byte b i v) = length b.
Proof. apply length_insert. Qed.

Lemma byte_at_set_byte_eq (b : list Z) (i v : Z) :
  (Z.to_nat i < length b)%nat -> byte_at (set_byte b i v) i = v.
Proof.
  intros Hi. unfold byte_at, set_byte. by rewrite list_lookup_insert_eq.
Qed.

Lemma byte_at_set_byte_ne (b : list Z) (i j v : Z) :
  0 <= i -> 0 <= j -> i <> j -> byte_at (set_byte b i v) j = byte_at b j.
Proof.
  intros Hi Hj Hne. unfold byte_at, set_byte.
  rewrite list_lookup_insert_ne by lia. reflexivity.
Qed.

Lemma byte_at_take (b : list Z) (n j : Z) :
  0 <= j < n -> byte_at (take (Z.to_nat n) b) j = byte_at b j.
Proof.
  intros Hj. unfold byte_at. rewrite lookup_take_lt by lia. reflexivity.
Qed.

Section Frames.
Context `{U3Driver} `{StreamParams}.

(** [extendedChecksum] touches bytes 0, 4 and 5 only. *)
Lemma length_extendedChecksum (b : list Z) (n : Z) :
  length (extendedChecksum b n) = length b.
Proof. unfold extendedChecksum. by rewrite !length_set_byte. Qed.

Lemma byte_at_extendedChecksum (b : list Z) (n j : Z) :
  0 < j -> j <> 4 -> j <> 5 ->
  byte_at (extendedChecksum b n) j = byte_at b j.
Proof.
  intros H0j H4 H5. unfold extendedChecksum.
  rewrite !byte_at_set_byte_ne by lia. reflexivity.
Qed.

(** The channel loop of [StreamConfig_example] fills the pairs of the
    channels it runs over and leaves the bytes before them alone. *)
Lemma StreamConfig_channels_spec (n : nat) : forall (i0 : Z) (b : list Z),
  0 <= i0 -> (Z.to_nat (13 + (i0 + Z.of_nat n - 1) * 2) < length b)%nat
  \/ n = 0%nat ->
  length (StreamConfig_channels n i0 b) = length b
  /\ (forall j, 0 <= j < 12 + i0 * 2 ->
        byte_at (StreamConfig_channels n i0 b) j = byte_at b j)
  /\ (forall i, i0 <= i < i0 + Z.of_nat n ->
        byte_at (StreamConfig_channels n i0 b) (12 + i * 2) = uint8 i
        /\ byte_at (StreamConfig_channels n i0 b) (13 + i * 2) = 31).
Proof.
  induction n as [|n IH]; intros i0 b Hi0 Hfit; cbn [StreamConfig_channels].
  - split; [done|]. split; [done|]. intros i Hi. lia.
  - destruct Hfit as [Hfit|]; [|done].
    set (b1 := set_byte (set_byte b (12 + i0 * 2) (uint8 i0))
                 (13 + i0 * 2) 31).
    assert (Hlen1 : length b1 = length b)
      by (unfold b1; by rewrite !length_set_byte).
    destruct (IH (i0 + 1) b1) as (Hlen & Hlow & Hpairs); [lia| |].
    { destruct n; [by right|left]. rewrite Hlen1. lia. }
    split; [by rewrite Hlen|]. split.
    + intros j Hj. rewrite Hlow by lia. unfold b1.
      rewrite !byte_at_set_byte_ne by lia. reflexivity.
    + intros i Hi. destruct (decide (i = i0)) as [->|Hne].
      * rewrite !Hlow by lia. unfold b1. split.
        -- rewrite byte_at_set_byte_ne by lia.
           apply byte_at_set_byte_eq. lia.
        -- apply byte_at_set_byte_eq. rewrite length_set_byte. lia.
      * apply Hpairs. lia.
Qed.

(** X4: for up to 26 channels, the StreamConfig frame handed to the
    transport has [12 + 2 * NumChannels] bytes: the command bytes 0xF8,
    [3 + NumChannels], 0x11, then [NumChannels], [SamplesPerPacket], 0, the
    scan configuration 1, the scan interval 4000 low byte first, and for
    each channel [i] the pair [i], 31 -- whatever the checksum routines
    put in bytes 0, 4 and 5. *)
Theorem StreamConfig_frame_layout :
  0 <= NumChannels <= 26 ->
  length StreamConfig_sendBuff = Z.to_nat (12 + NumChannels * 2)
  /\ byte_at StreamConfig_sendBuff 1 = 248
  /\ byte_at StreamConfig_sendBuff 2 = 3 + NumChannels
  /\ byte_at StreamConfig_sendBuff 3 = 17
  /\ byte_at StreamConfig_sendBuff 6 = NumChannels
  /\ byte_at StreamConfig_sendBuff 7 = SamplesPerPacket mod 256
  /\ byte_at StreamConfig_sendBuff 8 = 0
  /\ byte_at StreamConfig_sendBuff 9 = 1
  /\ byte_at StreamConfig_sendBuff 10 + byte_at StreamConfig_sendBuff 11 * 256
     = 4000
  /\ forall i, 0 <= i < NumChannels ->
       byte_at StreamConfig_sendBuff (12 + i * 2) = i
       /\ byte_at StreamConfig_sendBuff (13 + i * 2) = 31.
Proof.
  intros Hnc. unfold StreamConfig_sendBuff. cbv zeta.
  set (b0 := set_byte _ 11 _).
  assert (Hlen0 : length b0 = 64%nat) by reflexivity.
  destruct (StreamConfig_channels_spec (Z.to_nat NumChannels) 0 b0)
    as (Hlen & Hlow & Hpairs); [lia| |].
  { destruct (Z.to_nat NumChannels) eqn:E; [by right|left].
    rewrite Hlen0. lia. }
  set (b1 := StreamConfig_channels _ 0 b0) in *.
  assert (Hhead : forall j, 0 < j < 12 -> j <> 4 -> j <> 5 ->
            byte_at (take (Z.to_nat (12 + NumChannels * 2))
                       (extendedChecksum b1 (12 + NumChannels * 2))) j
            = byte_at b0 j).
  { intros j Hj H4 H5. rewrite byte_at_take by lia.
    rewrite byte_at_extendedChecksum by lia. apply Hlow. lia. }
  split.
  { rewrite length_take_le; [done|].
    rewrite length_extendedChecksum, Hlen, Hlen0. lia. }
  rewrite !Hhead by lia. unfold b0.
  do 8 (split; [repeat first
    [ rewrite byte_at_set_byte_eq
        by (rewrite ?length_set_byte, ?length_replicate; lia)
    | rewrite byte_at_set_byte_ne by lia ];
    unfold uint8, uint16; try reflexivity;
    try (apply Z.mod_small; lia)|]).
  intros i Hi. rewrite !byte_at_take by lia.
  rewrite !byte_at_extendedChecksum by lia.
  destruct (Hpairs i) as [Hp Hn]; [lia|].
  rewrite Hp, Hn. split; [|done]. unfold uint8. apply Z.mod_small. lia.
Qed.

End Frames.

Lemma StreamConfig_frame_layout_witness :
  length (@StreamConfig_sendBuff test_driver u3_params) = 22%nat
  /\ byte_at (@StreamConfig_sendBuff test_driver u3_params) 20 = 4
  /\ byte_at (@StreamConfig_sendBuff test_driver u3_params) 21 = 31.
Proof.
  destruct (@StreamConfig_frame_layout test_driver u3_params)
    as (Hlen & _ & _ & _ & _ & _ & _ & _ & _ & Hpairs).
  - simpl. lia.
  - split; [exact Hlen|]. apply (Hpairs 4). simpl. lia.
Defined.

Section ConfigIOFrame.
Context `{U3Driver}.

(** X5: the ConfigIO frame has 12 bytes and asks, under write mask 13,
    for the settings 64, 255, 255; a response that passes the checksum,
    command-byte and error-code tests and echoes bytes 8, 10 and 11 of the
    frame is accepted. *)
Theorem ConfigIO_echoed_request_accepted (sendChars recChars : Z)
    (recBuff : list Z) (dac : Z) (w : World float32) :
  12 <= sendChars -> 12 <= recChars ->
  extended_checksums_ok recBuff 12 = true ->
  ConfigIO_echo_ok recBuff = true ->
  byte_at recBuff 6 = 0 ->
  byte_at recBuff 8 = byte_at ConfigIO_sendBuff 8 ->
  byte_at recBuff 10 = byte_at ConfigIO_sendBuff 10 ->
  byte_at recBuff 11 = byte_at ConfigIO_sendBuff 11 ->
  length ConfigIO_sendBuff = 12%nat
  /\ ConfigIO_echo_ok ConfigIO_sendBuff = true
  /\ byte_at ConfigIO_sendBuff 6 = 13
  /\ ConfigIO_example sendChars (recChars, recBuff) dac w
     = (0, byte_at recBuff 9,
        printf "ConfigIO_example... OK\n" [] (ConfigIO_sent w)).
Proof.
  intros Hs Hr Hck Hecho Herr H8 H10 H11.
  unfold ConfigIO_sendBuff in *.
  rewrite byte_at_extendedChecksum in H8, H10, H11 by lia.
  split; [by rewrite length_extendedChecksum|].
  split; [unfold ConfigIO_echo_ok;
          by rewrite !byte_at_extendedChecksum by lia|].
  split; [by rewrite byte_at_extendedChecksum by lia|].
  rewrite (ConfigIO_checks_passed _ _ _ _ _ Hs Hr Hck Hecho Herr).
  rewrite H8, H10, H11. reflexivity.
Qed.

End ConfigIOFrame.

Lemma ConfigIO_echoed_request_accepted_witness :
  fst (fst (@ConfigIO_example test_driver 12
              (12, test_ConfigIO_response 9 1 true) 0 empty_world)) = 0
  /\ snd (fst (@ConfigIO_example test_driver 12
                 (12, test_ConfigIO_response 9 1 true) 0 empty_world)) = 1.
Proof.
  destruct (@ConfigIO_echoed_request_accepted test_driver 12 12
              (test_ConfigIO_response 9 1 true) 0 empty_world)
    as (_ & _ & _ & Hrun).
  - lia.
  - lia.
  - vm_compute. reflexivity.
  - vm_compute. reflexivity.
  - vm_compute. reflexivity.
  - vm_compute. reflexivity.
  - vm_compute. reflexivity.
  - vm_compute. reflexivity.
  - rewrite Hrun. split; vm_compute; reflexivity.
Defined.

(** ** The constructor *)

Section Construction.
Context `{U3Driver} `{StreamParams}.

Local Abbreviation World := (World float32).
Implicit Types (w : World) (sendChars dac : Z) (rd : Z * list Z)
  (a : answer).

(** Each command operation hands its frame to the transport, whatever
    comes back, and publishes nothing. *)
Lemma ConfigIO_io sendChars rd dac w :
  usb_written (snd (ConfigIO_example sendChars rd dac w))
  = usb_written w ++ [ConfigIO_sendBuff]
  /\ published (snd (ConfigIO_example sendChars rd dac w)) = published w.
Proof.
  destruct rd as [recChars recBuff]. unfold ConfigIO_example. cbv zeta.
  decide_checks; split; reflexivity.
Qed.

Lemma StreamConfig_io sendChars rd w :
  usb_written (snd (StreamConfig_example sendChars rd w))
  = usb_written w ++ [StreamConfig_sendBuff]
  /\ published (snd (StreamConfig_example sendChars rd w)) = published w.
Proof.
  destruct rd as [recChars recBuff]. unfold StreamConfig_example. cbv zeta.
  decide_checks; split; reflexivity.
Qed.

Lemma StreamStart_io sendChars rd w :
  usb_written (snd (StreamStart sendChars rd w))
  = usb_written w ++ [[168; 168]]
  /\ published (snd (StreamStart sendChars rd w)) = published w.
Proof.
  destruct rd as [recChars recBuff]. unfold StreamStart.
  decide_checks; split; reflexivity.
Qed.

Lemma StreamStop_io sendChars rd w :
  usb_written (snd (StreamStop sendChars rd w))
  = usb_written w ++ [[176; 176]]
  /\ published (snd (StreamStop sendChars rd w)) = published w.
Proof.
  destruct rd as [recChars recBuff]. unfold StreamStop.
  decide_checks; split; reflexivity.
Qed.

(** The return values do not depend on the world. *)
Lemma StreamConfig_ret sendChars rd w (wo : World) :
  fst (StreamConfig_example sendChars rd w)
  = fst (StreamConfig_example sendChars rd wo).
Proof.
  destruct rd as [recChars recBuff]. unfold StreamConfig_example. cbv zeta.
  decide_checks; reflexivity.
Qed.

Lemma StreamStart_ret sendChars rd w (wo : World) :
  fst (StreamStart sendChars rd w) = fst (StreamStart sendChars rd wo).
Proof.
  destruct rd as [recChars recBuff]. unfold StreamStart.
  decide_checks; reflexivity.
Qed.

Lemma ConfigIO_out_param sendChars rd dac w :
  (fst (fst (ConfigIO_example sendChars rd dac w)) = 0
   \/ fst (fst (ConfigIO_example sendChars rd dac w)) = -1)
  /\ snd (fst (ConfigIO_example sendChars rd dac w))
     = (if fst (fst (ConfigIO_example sendChars rd dac w)) =? 0
        then byte_at (snd rd) 9 else dac).
Proof.
  destruct rd as [recChars recBuff]. unfold ConfigIO_example. cbv zeta.
  decide_checks; cbn [fst snd] in *; split; first [reflexivity | lia].
Qed.

Lemma StreamConfig_ret_values sendChars rd w :
  fst (StreamConfig_example sendChars rd w) = 0
  \/ fst (StreamConfig_example sendChars rd w) = -1.
Proof. destruct rd. apply StreamConfig_generic. Qed.

Lemma StreamStart_ret_values sendChars rd w :
  fst (StreamStart sendChars rd w) = 0 \/ fst (StreamStart sendChars rd w) = -1.
Proof. destruct rd. apply StreamStart_generic. Qed.

End Construction.

Section ConstructionOutcome.
Context `{U3Driver} `{StreamParams}.

Local Abbreviation World := (World float32).
Implicit Types (w : World) (a : answer) (opened : bool)
  (cali : Z * u3CalibrationInfo) (dac : Z)
  (node : LabjackNode u3CalibrationInfo).

(** The constructor with the pattern matching on the results of the
    operations written as projections. *)
Lemma LabjackNode_new_unfold opened cali dac
    (a_ConfigIO a_StreamStop a_StreamConfig a_StreamStart : answer) w :
  LabjackNode_new opened cali dac a_ConfigIO a_StreamStop a_StreamConfig
    a_StreamStart w
  = if negb opened then Thrown "Error: openUSBConnection" w
    else if fst cali <? 0 then Thrown "Error: getCalibrationInfo" w
    else
    let rC := ConfigIO_example (fst a_ConfigIO) (snd a_ConfigIO) dac w in
    if negb (fst (fst rC) =? 0) then Thrown "Error: ConfigIO_example" (snd rC)
    else
    let w2 := snd (StreamStop (fst a_StreamStop) (snd a_StreamStop) (snd rC))
    in
    let rSC := StreamConfig_example (fst a_StreamConfig) (snd a_StreamConfig)
                 w2 in
    if negb (fst rSC =? 0) then Thrown "Error: StreamConfig_example" (snd rSC)
    else
    let rST := StreamStart (fst a_StreamStart) (snd a_StreamStart) (snd rSC)
    in
    if negb (fst rST =? 0) then Thrown "Error: StreamStart" (snd rST)
    else Constructed (mkNode (snd cali) (snd (fst rC))) (snd rST).
Proof.
  unfold LabjackNode_new. cbv zeta.
  destruct opened; [|done]. cbn [negb].
  destruct (fst cali <? 0); [done|].
  destruct (ConfigIO_example _ _ _ _) as [[r dac1] w1]. cbn [fst snd].
  destruct (negb (r =? 0)); [done|].
  destruct (StreamConfig_example _ _ _) as [r0 w3]. cbn [fst snd].
  destruct (negb (r0 =? 0)); [done|].
  by destruct (StreamStart _ _ _) as [r1 w4].
Qed.

(** X6: when the constructor completes, the device was opened, the
    calibration was read, [ConfigIO_example], [StreamConfig_example] and
    [StreamStart] returned 0, the node holds the calibration record and
    byte 9 of the ConfigIO response, exactly four frames were written, in
    the order ConfigIO, StreamStop, StreamConfig, StreamStart, nothing was
    published, and what [StreamStop] got for an answer made no difference
    to the node. *)
Theorem LabjackNode_new_Constructed opened cali dac
    (a_ConfigIO a_StreamStop a_StreamConfig a_StreamStart : answer) w node w' :
  LabjackNode_new opened cali dac a_ConfigIO a_StreamStop a_StreamConfig
    a_StreamStart w = Constructed node w' ->
  opened = true /\ 0 <= fst cali
  /\ node = mkNode (snd cali) (byte_at (snd (snd a_ConfigIO)) 9)
  /\ fst (fst (ConfigIO_example (fst a_ConfigIO) (snd a_ConfigIO) dac w)) = 0
  /\ (forall wo : World,
        fst (StreamConfig_example (fst a_StreamConfig) (snd a_StreamConfig) wo)
        = 0)
  /\ (forall wo : World,
        fst (StreamStart (fst a_StreamStart) (snd a_StreamStart) wo) = 0)
  /\ usb_written w'
     = usb_written w
       ++ [ConfigIO_sendBuff; [176; 176]; StreamConfig_sendBuff; [168; 168]]
  /\ published w' = published w
  /\ forall a_other : answer, exists wo,
       LabjackNode_new opened cali dac a_ConfigIO a_other a_StreamConfig
         a_StreamStart w = Constructed node wo.
Proof.
  rewrite LabjackNode_new_unfold. cbv zeta.
  destruct opened; [|discriminate]. cbn [negb].
  destruct (fst cali <? 0) eqn:Hcal; [discriminate|].
  pose proof (ConfigIO_out_param (fst a_ConfigIO) (snd a_ConfigIO) dac w)
    as [_ Hdac].
  pose proof (ConfigIO_io (fst a_ConfigIO) (snd a_ConfigIO) dac w)
    as [HuC HpC].
  set (rC := ConfigIO_example _ _ dac w) in *.
  destruct (fst (fst rC) =? 0) eqn:Hr; [|discriminate]. cbn [negb].
  rewrite (StreamConfig_ret _ _ _ w).
  destruct (fst (StreamConfig_example _ _ w) =? 0) eqn:Hsc; [|discriminate].
  rewrite (StreamStart_ret _ _ _ w).
  destruct (fst (StreamStart _ _ w) =? 0) eqn:Hst; [|discriminate].
  cbn [negb]. intros [= <- <-].
  split; [done|]. split; [lia|]. split; [by rewrite Hdac|].
  split; [lia|].
  split; [intros wo; rewrite (StreamConfig_ret _ _ wo w); lia|].
  split; [intros wo; rewrite (StreamStart_ret _ _ wo w); lia|].
  split.
  { rewrite (proj1 (StreamStart_io _ _ _)), (proj1 (StreamConfig_io _ _ _)),
      (proj1 (StreamStop_io _ _ _)), HuC.
    by rewrite <- !app_assoc. }
  split.
  { by rewrite (proj2 (StreamStart_io _ _ _)), (proj2 (StreamConfig_io _ _ _)),
      (proj2 (StreamStop_io _ _ _)), HpC. }
  intros a_other. eexists. rewrite LabjackNode_new_unfold. cbv zeta.
  cbn [negb]. rewrite Hcal. fold rC. rewrite Hr. cbn [negb].
  rewrite (StreamConfig_ret _ _ _ w), Hsc. cbn [negb].
  rewrite (StreamStart_ret _ _ _ w), Hst. cbn [negb].
  by rewrite Hdac.
Qed.

(** X7: when the constructor throws, nothing was published, and the
    exception names the first step that failed, every step before it
    having succeeded: the device did not open; or it opened and the
    calibration could not be read; or both succeeded and
    [ConfigIO_example] returned -1; or [ConfigIO_example] returned 0 and
    [StreamConfig_example] returned -1; or both returned 0 and
    [StreamStart] returned -1.  The frames written tell how far it got:
    none in the first two cases, the ConfigIO frame alone in the third,
    then the StreamStop and StreamConfig frames, then the StreamStart
    frame. *)
Theorem LabjackNode_new_Thrown opened cali dac
    (a_ConfigIO a_StreamStop a_StreamConfig a_StreamStart : answer) w what w' :
  LabjackNode_new opened cali dac a_ConfigIO a_StreamStop a_StreamConfig
    a_StreamStart w = Thrown what w' ->
  published w' = published w
  /\ ((what = "Error: openUSBConnection"%string /\ opened = false /\ w' = w)
      \/ (what = "Error: getCalibrationInfo"%string /\ opened = true
          /\ fst cali < 0 /\ w' = w)
      \/ (what = "Error: ConfigIO_example"%string
          /\ opened = true /\ 0 <= fst cali
          /\ fst (fst (ConfigIO_example (fst a_ConfigIO) (snd a_ConfigIO)
                         dac w)) = -1
          /\ usb_written w' = usb_written w ++ [ConfigIO_sendBuff])
      \/ (what = "Error: StreamConfig_example"%string
          /\ opened = true /\ 0 <= fst cali
          /\ fst (fst (ConfigIO_example (fst a_ConfigIO) (snd a_ConfigIO)
                         dac w)) = 0
          /\ fst (StreamConfig_example (fst a_StreamConfig)
                    (snd a_StreamConfig) w) = -1
          /\ usb_written w'
             = usb_written w
               ++ [ConfigIO_sendBuff; [176; 176]; StreamConfig_sendBuff])
      \/ (what = "Error: StreamStart"%string
          /\ opened = true /\ 0 <= fst cali
          /\ fst (fst (ConfigIO_example (fst a_ConfigIO) (snd a_ConfigIO)
                         dac w)) = 0
          /\ fst (StreamConfig_example (fst a_StreamConfig)
                    (snd a_StreamConfig) w) = 0
          /\ fst (StreamStart (fst a_StreamStart) (snd a_StreamStart) w) = -1
          /\ usb_written w'
             = usb_written w
               ++ [ConfigIO_sendBuff; [176; 176]; StreamConfig_sendBuff;
                   [168; 168]])).
Proof.
  rewrite LabjackNode_new_unfold. cbv zeta.
  destruct opened; cbn [negb];
    [|intros [= <- <-]; split; [done|]; left; done].
  destruct (fst cali <? 0) eqn:Hcal;
    [intros [= <- <-]; split; [done|]; right; left;
     repeat split; try done; lia|].
  pose proof (ConfigIO_out_param (fst a_ConfigIO) (snd a_ConfigIO) dac w)
    as [HrC _].
  pose proof (ConfigIO_io (fst a_ConfigIO) (snd a_ConfigIO) dac w)
    as [HuC HpC].
  set (rC := ConfigIO_example _ _ dac w) in *.
  destruct (fst (fst rC) =? 0) eqn:Hr; cbn [negb];
    [|intros [= <- <-]; split; [done|]; right; right; left;
      repeat split; try done; lia].
  rewrite (StreamConfig_ret _ _ _ w).
  pose proof (StreamConfig_ret_values (fst a_StreamConfig)
                (snd a_StreamConfig) w) as HrSC.
  destruct (fst (StreamConfig_example _ _ w) =? 0) eqn:Hsc; cbn [negb].
  - rewrite (StreamStart_ret _ _ _ w).
    pose proof (StreamStart_ret_values (fst a_StreamStart)
                  (snd a_StreamStart) w) as HrST.
    destruct (fst (StreamStart _ _ w) =? 0) eqn:Hst; cbn [negb];
      [discriminate|].
    intros [= <- <-]. split.
    { by rewrite (proj2 (StreamStart_io _ _ _)),
        (proj2 (StreamConfig_io _ _ _)), (proj2 (StreamStop_io _ _ _)), HpC. }
    do 4 right. split; [done|]. split; [done|]. do 4 (split; [lia|]).
    rewrite (proj1 (StreamStart_io _ _ _)), (proj1 (StreamConfig_io _ _ _)),
      (proj1 (StreamStop_io _ _ _)), HuC.
    by rewrite <- !app_assoc.
  - intros [= <- <-]. split.
    { by rewrite (proj2 (StreamConfig_io _ _ _)),
        (proj2 (StreamStop_io _ _ _)), HpC. }
    do 3 right. left. split; [done|]. split; [done|]. do 3 (split; [lia|]).
    rewrite (proj1 (StreamConfig_io _ _ _)), (proj1 (StreamStop_io _ _ _)),
      HuC.
    by rewrite <- !app_assoc.
Qed.

End ConstructionOutcome.

Lemma LabjackNode_new_Constructed_witness :
  exists w',
    @LabjackNode_new test_driver u3_params true (0, true) 7
      (12, (12, test_ConfigIO_response 9 1 true))
      (2, (4, test_StreamStop_response 5))
      (22, (8, test_StreamConfig_response))
      (2, (4, test_StreamStart_response)) empty_world
    = Constructed (mkNode true 1) w'
    /\ usb_written w'
       = [@ConfigIO_sendBuff test_driver; [176; 176];
          @StreamConfig_sendBuff test_driver u3_params; [168; 168]].
Proof.
  destruct (@LabjackNode_new test_driver u3_params true (0, true) 7
              (12, (12, test_ConfigIO_response 9 1 true))
              (2, (4, test_StreamStop_response 5))
              (22, (8, test_StreamConfig_response))
              (2, (4, test_StreamStart_response)) empty_world)
    as [what w'|node w'] eqn:E.
  - vm_compute in E. discriminate E.
  - destruct (@LabjackNode_new_Constructed test_driver u3_params _ _ _ _ _ _
                _ _ _ _ E) as (_ & _ & -> & _ & _ & _ & Hu & _).
    exists w'. split; [reflexivity|exact Hu].
Defined.

Lemma LabjackNode_new_Thrown_witness :
  exists w',
    @LabjackNode_new test_driver u3_params true (0, true) 7
      (12, (12, test_ConfigIO_response 9 1 false))
      (2, (4, test_StreamStop_response 0))
      (22, (8, test_StreamConfig_response))
      (2, (4, test_StreamStart_response)) empty_world
    = Thrown "Error: ConfigIO_example" w'
    /\ usb_written w' = [@ConfigIO_sendBuff test_driver].
Proof.
  destruct (@LabjackNode_new test_driver u3_params true (0, true) 7
              (12, (12, test_ConfigIO_response 9 1 false))
              (2, (4, test_StreamStop_response 0))
              (22, (8, test_StreamConfig_response))
              (2, (4, test_StreamStart_response)) empty_world)
    as [what w'|node w'] eqn:E.
  - destruct (@LabjackNode_new_Thrown test_driver u3_params _ _ _ _ _ _
                _ _ _ _ E)
      as (_ & [(_ & Hopen & _)|[(_ & _ & Hcal & _)
              |[(-> & _ & _ & _ & Hu)
               |[(_ & _ & _ & _ & Hsc & _)
                |(_ & _ & _ & _ & _ & Hst & _)]]]]).
    + discriminate Hopen.
    + simpl in Hcal. lia.
    + exists w'. split; [reflexivity|exact Hu].
    + vm_compute in Hsc. discriminate Hsc.
    + vm_compute in Hst. discriminate Hst.
  - vm_compute in E. discriminate E.
Defined.

(** ** Which cycles publish *)

Section Outcome.
Context `{U3Driver} `{StreamParams}.

Local Abbreviation World := (World float32).
Local Abbreviation LabjackNode := (LabjackNode u3CalibrationInfo).
Local Abbreviation locals := (locals double).

Implicit Types (node : LabjackNode) (recBuff : list Z) (l : locals)
  (w : World) (m j : Z) (n : nat) (rd : Z * list Z)
  (LJUSB_Stream : Z -> Z * list Z).

(** A return out of the [m] loop comes from a packet of the read. *)
Lemma for_m_Return_bad node recBuff n : forall m l w w',
  for_m node recBuff n m (l, w) = Return w' ->
  0 <= currChannel l < NumChannels ->
  exists i, 0 <= i < Z.of_nat n
    /\ (checks_pass recBuff (m + i) = false
        \/ status_fatal recBuff (m + i) = true).
Proof.
  induction n as [|n IH]; intros m l w w'; cbn [for_m]; [discriminate|].
  destruct (packet_body node recBuff m (l, w)) as [[l1 w1]| |] eqn:Hb;
    try discriminate.
  - intros Hm Hc.
    apply packet_body_Next in Hb as (_ & _ & _ & _ & _ & Hc1 & _);
      [|exact Hc].
    destruct (IH _ _ _ _ Hm Hc1) as (i & Hi & Hbad).
    exists (i + 1). split; [lia|].
    by replace (m + (i + 1)) with (m + 1 + i) by lia.
  - intros _ _. apply packet_body_Return in Hb as [Hbad _].
    exists 0. split; [lia|]. by rewrite Z.add_0_r.
Qed.

Lemma for_j_Return_bad node LJUSB_Stream n : forall j l w w',
  for_j node LJUSB_Stream n j (l, w) = Return w' ->
  0 <= currChannel l < NumChannels ->
  exists i, 0 <= i < Z.of_nat n
    /\ (fst (LJUSB_Stream (j + i)) < responseSize * readSizeMultiplier
        \/ exists m, 0 <= m < readSizeMultiplier
             /\ (checks_pass (snd (LJUSB_Stream (j + i))) m = false
                 \/ status_fatal (snd (LJUSB_Stream (j + i))) m = true)).
Proof.
  induction n as [|n IH]; intros j l w w'; cbn [for_j]; [discriminate|].
  destruct (read_body node (LJUSB_Stream j) (l, w)) as [[l1 w1]| |] eqn:Hb;
    try discriminate.
  - intros Hj Hc.
    apply read_body_Next in Hb as (_ & _ & _ & Hc1 & _); [|exact Hc].
    destruct (IH _ _ _ _ Hj Hc1) as (i & Hi & Hbad).
    exists (i + 1). split; [lia|].
    by replace (j + (i + 1)) with (j + 1 + i) by lia.
  - intros _ Hc. exists 0. split; [lia|]. rewrite Z.add_0_r.
    destruct (LJUSB_Stream j) as [recChars recBuff]. unfold read_body in Hb.
    cbn [fst snd]. destruct (recChars <? _) eqn:Hr; [left; lia|right].
    apply for_m_Return_bad in Hb as (m & Hm & Hbad); [|exact Hc].
    rewrite Z.add_0_l in Hbad. exists m. split; [lia|exact Hbad].
Qed.

(** Under the side condition on the constants a cycle ends in one of two
    ways: it met a fatal condition and published nothing, or it met none
    and published one message of [NumChannels] values. *)
Lemma cycle_outcome node LJUSB_Stream w :
  well_configured ->
  exists w', onReadAndPubTimer node LJUSB_Stream w = Some w'
    /\ usb_written w' = usb_written w
    /\ ((cycle_fatal LJUSB_Stream /\ published w' = published w)
        \/ (~ cycle_fatal LJUSB_Stream
            /\ exists data, published w' = published w ++ [data]
                 /\ length data = Z.to_nat NumChannels)).
Proof.
  intros Hcfg. unfold onReadAndPubTimer.
  destruct (stream_loops node LJUSB_Stream w) as [[l w1]|w'|] eqn:Hloops.
  - pose proof (read_last_row Hcfg _ _ _ _ _ Hloops) as Hread.
    destruct (stream_loops_Next Hcfg _ _ _ _ _ Hloops)
      as (_ & _ & _ & (Hu & Hp & _) & Hall & _).
    unfold emit_scan. rewrite Hread. eexists. split; [reflexivity|].
    cbn [usb_written published publish RCLCPP_DEBUG emit].
    split; [exact Hu|]. right. split.
    + intros (j & Hj & Hbad). destruct (Hall j Hj) as [Hfull Hpk].
      destruct Hbad as [Hshort|(m & Hm & Hbad)]; [lia|].
      destruct (Hpk m Hm) as [Hck Hst]. destruct Hbad; congruence.
    + eexists. split; [by rewrite Hp|].
      rewrite length_fmap, length_seqZ. reflexivity.
  - exists w'. split; [done|].
    destruct Hcfg as (Hn & _ & Hm & Hr & _).
    unfold stream_loops in Hloops.
    pose proof (for_j_Return _ _ _ _ _ _ _ Hloops) as (Hu & Hp & _);
      [simpl; lia|].
    split; [exact Hu|]. left. split; [|exact Hp].
    apply for_j_Return_bad in Hloops as (i & Hi & Hbad); [|simpl; lia].
    rewrite Z.add_0_l in Hbad. exists i. split; [lia|exact Hbad].
  - by apply (stream_loops_defined Hcfg) in Hloops.
Qed.

End Outcome.

Section OutcomeTheorems.
Context `{U3Driver} `{StreamParams}.

Local Abbreviation World := (World float32).
Local Abbreviation LabjackNode := (LabjackNode u3CalibrationInfo).

Implicit Types (node : LabjackNode) (w : World)
  (LJUSB_Stream : Z -> Z * list Z) (ticks : list (Z -> Z * list Z)).

(** X8: with [SamplesPerPacket] a positive multiple of [NumChannels],
    every call of the timer callback is defined and writes nothing to the
    device; it publishes nothing exactly when the cycle met a short read,
    a failed check or an error status, and otherwise exactly one message
    of [NumChannels] values. *)
Theorem cycle_publishes_iff_not_fatal node LJUSB_Stream w :
  well_configured ->
  exists w', onReadAndPubTimer node LJUSB_Stream w = Some w'
    /\ usb_written w' = usb_written w
    /\ (cycle_fatal LJUSB_Stream <-> published w' = published w)
    /\ (~ cycle_fatal LJUSB_Stream <->
        exists data, published w' = published w ++ [data]
          /\ length data = Z.to_nat NumChannels).
Proof.
  intros Hcfg.
  destruct (cycle_outcome node LJUSB_Stream w Hcfg)
    as (w' & Hrun & Hu & [[Hf Hp]|[Hnf (data & Hp & Hlen)]]);
    exists w'; (split; [exact Hrun|]); (split; [exact Hu|]).
  - split; [tauto|]. split; [tauto|].
    intros (data & Hp' & _). rewrite Hp in Hp'.
    apply (f_equal length) in Hp'. rewrite length_app in Hp'. simpl in Hp'.
    lia.
  - split; [|split; [eauto|tauto]]. split; [tauto|].
    intros Hp'. rewrite Hp in Hp'.
    apply (f_equal length) in Hp'. rewrite length_app in Hp'. simpl in Hp'.
    lia.
Qed.

(** X9: any number of ticks of the timer write nothing to the device and
    publish at most one message per tick, each of [NumChannels] values:
    one per tick when no tick is fatal, none when every tick is. *)
Theorem spin_publishes_per_tick node ticks : forall w,
  well_configured ->
  exists w' msgs, spin node ticks w = Some w'
    /\ usb_written w' = usb_written w
    /\ published w' = published w ++ msgs
    /\ (length msgs <= length ticks)%nat
    /\ Forall (fun data => length data = Z.to_nat NumChannels) msgs
    /\ (Forall (fun t => ~ cycle_fatal t) ticks -> length msgs = length ticks)
    /\ (Forall cycle_fatal ticks -> msgs = []).
Proof.
  induction ticks as [|t ticks IH]; intros w Hcfg; cbn [spin].
  - exists w, []. rewrite app_nil_r. repeat split; auto.
  - destruct (cycle_outcome node t w Hcfg) as (w1 & Hrun & Hu1 & Hcase).
    rewrite Hrun.
    destruct (IH w1 Hcfg) as (w' & msgs & Hspin & Hu & Hp & Hlen & Hall
                              & Hgood & Hbad).
    destruct Hcase as [[Hf Hp1]|[Hnf (data & Hp1 & Hd)]].
    + exists w', msgs. split; [exact Hspin|]. split; [congruence|].
      split; [congruence|]. split; [simpl; lia|]. split; [exact Hall|].
      split.
      * intros Hg. apply Forall_cons in Hg as [Hg _]. tauto.
      * intros Hb. apply Forall_cons in Hb as [_ Hb]. auto.
    + exists w', (data :: msgs). split; [exact Hspin|].
      split; [congruence|].
      split; [rewrite Hp, Hp1; by rewrite <- app_assoc|].
      split; [simpl; lia|]. split; [by constructor|].
      split.
      * intros Hg. apply Forall_cons in Hg as [_ Hg]. simpl. auto.
      * intros Hb. apply Forall_cons in Hb as [Hb _]. tauto.
Qed.

(** What the constructor and the ticks leave in the world, as far as the
    device and the publisher go. *)
Lemma LabjackNode_new_io opened (cali : Z * u3CalibrationInfo) (dac : Z)
    (a_ConfigIO a_StreamStop a_StreamConfig a_StreamStart : answer) w :
  match LabjackNode_new opened cali dac a_ConfigIO a_StreamStop
          a_StreamConfig a_StreamStart w with
  | Thrown _ w' => published w' = published w
  | Constructed _ w' =>
      usb_written w'
      = usb_written w
        ++ [ConfigIO_sendBuff; [176; 176]; StreamConfig_sendBuff; [168; 168]]
      /\ published w' = published w
  end.
Proof.
  rewrite LabjackNode_new_unfold. cbv zeta.
  destruct (negb opened); [done|]. destruct (fst cali <? 0); [done|].
  pose proof (ConfigIO_io (fst a_ConfigIO) (snd a_ConfigIO) dac w)
    as [HuC HpC].
  destruct (negb (fst (fst (ConfigIO_example _ _ dac w)) =? 0)); [done|].
  destruct (negb (fst (StreamConfig_example _ _ _) =? 0)).
  { by rewrite (proj2 (StreamConfig_io _ _ _)),
      (proj2 (StreamStop_io _ _ _)). }
  destruct (negb (fst (StreamStart _ _ _) =? 0)).
  { by rewrite (proj2 (StreamStart_io _ _ _)),
      (proj2 (StreamConfig_io _ _ _)), (proj2 (StreamStop_io _ _ _)). }
  split.
  - rewrite (proj1 (StreamStart_io _ _ _)), (proj1 (StreamConfig_io _ _ _)),
      (proj1 (StreamStop_io _ _ _)), HuC.
    by rewrite <- !app_assoc.
  - by rewrite (proj2 (StreamStart_io _ _ _)),
      (proj2 (StreamConfig_io _ _ _)), (proj2 (StreamStop_io _ _ _)).
Qed.

Lemma spin_io node ticks : forall w,
  well_configured ->
  exists w' msgs, spin node ticks w = Some w'
    /\ usb_written w' = usb_written w
    /\ published w' = published w ++ msgs
    /\ (length msgs <= length ticks)%nat.
Proof.
  induction ticks as [|t ticks IH]; intros w Hcfg; cbn [spin].
  - exists w, []. by rewrite app_nil_r.
  - destruct (cycle_outcome node t w Hcfg) as (w1 & -> & Hu1 & Hcase).
    destruct (IH w1 Hcfg) as (w' & msgs & Hspin & Hu & Hp & Hlen).
    destruct Hcase as [[_ Hp1]|[_ (data & Hp1 & _)]].
    + exists w', msgs. repeat split; [done|congruence|congruence|simpl; lia].
    + exists w', (data :: msgs).
      repeat split; [done|congruence| |simpl; lia].
      rewrite Hp, Hp1. by rewrite <- app_assoc.
Qed.


End OutcomeTheorems.

Lemma test_tick_fatal : @cycle_fatal test_driver u3_params
                          (fun _ => test_read 0 0 7 0 0).
Proof.
  exists 0. split; [simpl; lia|]. right.
  exists 2. split; [simpl; lia|]. right. vm_compute. reflexivity.
Defined.

Lemma cycle_publishes_iff_not_fatal_witness :
  exists w',
    @onReadAndPubTimer test_driver u3_params test_node
      (fun _ => test_read 0 0 7 0 0) empty_world = Some w'
    /\ published w' = [].
Proof.
  destruct (@cycle_publishes_iff_not_fatal test_driver u3_params test_node
              (fun _ => test_read 0 0 7 0 0) empty_world u3_well_configured)
    as (w' & Hrun & _ & Hfatal & _).
  exists w'. split; [exact Hrun|]. apply Hfatal. exact test_tick_fatal.
Defined.

Lemma spin_publishes_per_tick_witness :
  exists w',
    @spin test_driver u3_params test_node
      [fun _ => test_read 0 0 7 0 0; fun _ => test_read 0 0 7 0 0] empty_world
    = Some w'
    /\ published w' = [] /\ usb_written w' = [].
Proof.
  destruct (@spin_publishes_per_tick test_driver u3_params test_node
              [fun _ => test_read 0 0 7 0 0; fun _ => test_read 0 0 7 0 0]
              empty_world u3_well_configured)
    as (w' & msgs & Hspin & Hu & Hp & _ & _ & _ & Hnone).
  exists w'. split; [exact Hspin|]. split; [|exact Hu].
  rewrite Hp, Hnone; [reflexivity|].
  repeat constructor; exact test_tick_fatal.
Defined.


(** ** The scan buffer at the end of the loops *)

Section ScanBuffer.
Context `{U3Driver} `{StreamParams}.

Local Abbreviation World := (World float32).
Local Abbreviation LabjackNode := (LabjackNode u3CalibrationInfo).
Local Abbreviation locals := (locals double).

Implicit Types (node : LabjackNode) (recBuff : list Z) (l : locals)
  (w : World) (m j s c t : Z) (n : nat)
  (LJUSB_Stream : Z -> Z * list Z).

Local Abbreviation spp := (Z.of_nat (Z.to_nat SamplesPerPacket)).
Local Abbreviation mult := (Z.of_nat (Z.to_nat readSizeMultiplier)).

(** The packets of one read: sample [t] of packet [m + i] sits in the
    cell whose running index is [i * spp + t] past the start, and every
    other cell is as it was. *)
Lemma for_m_cells node recBuff n : forall m l w l' w',
  for_m node recBuff n m (l, w) = Next (l', w') ->
  0 <= currChannel l < NumChannels ->
  (forall i t s c,
     0 <= i < Z.of_nat n -> 0 <= t < spp -> 0 <= c < NumChannels ->
     s * NumChannels + c = consumed l + i * spp + t ->
     voltages l' !! (s, c)
     = Some (calibrate node c (sample_at recBuff (m + i) (12 + 2 * t))))
  /\ (forall s c,
        ~ (0 <= c < NumChannels
           /\ consumed l <= s * NumChannels + c
              < consumed l + Z.of_nat n * spp) ->
        voltages l' !! (s, c) = voltages l !! (s, c)).
Proof.
  induction n as [|n IH]; intros m l w l' w'; cbn [for_m].
  - intros [= <- <-] Hc. split; [intros; lia|done].
  - destruct (packet_body node recBuff m (l, w)) as [[l1 w1]| |] eqn:Hb;
      try discriminate.
    intros Hm Hc.
    apply packet_body_Next in Hb as (_ & _ & _ & _ & Hn1 & Hc1 & Hv1);
      [|exact Hc].
    destruct (IH _ _ _ _ _ Hm Hc1) as [Hin Hout]. split.
    + intros i t s c Hi Ht Hcr Hpos.
      destruct (decide (i = 0)) as [->|Hne].
      * rewrite Hout by lia. rewrite Hv1. case_decide as Hd; [|lia].
        rewrite Z.add_0_r. do 3 f_equal. lia.
      * replace (m + i) with (m + 1 + (i - 1)) by lia.
        apply Hin; [lia|lia|lia|]. rewrite Hn1, Hpos. lia.
    + intros s c Hnot. rewrite Hout by lia. rewrite Hv1.
      case_decide as Hd; [|done]. exfalso. apply Hnot. lia.
Qed.

(** The reads of one cycle, likewise. *)
Lemma for_j_cells node LJUSB_Stream n : forall j l w l' w',
  for_j node LJUSB_Stream n j (l, w) = Next (l', w') ->
  0 <= currChannel l < NumChannels ->
  (forall i m t s c,
     0 <= i < Z.of_nat n -> 0 <= m < mult -> 0 <= t < spp ->
     0 <= c < NumChannels ->
     s * NumChannels + c = consumed l + (i * mult + m) * spp + t ->
     voltages l' !! (s, c)
     = Some (calibrate node c
               (sample_at (snd (LJUSB_Stream (j + i))) m (12 + 2 * t))))
  /\ (forall s c,
        ~ (0 <= c < NumChannels
           /\ consumed l <= s * NumChannels + c
              < consumed l + Z.of_nat n * (mult * spp)) ->
        voltages l' !! (s, c) = voltages l !! (s, c)).
Proof.
  induction n as [|n IH]; intros j l w l' w'; cbn [for_j].
  - intros [= <- <-] Hc. split; [intros; lia|done].
  - destruct (read_body node (LJUSB_Stream j) (l, w)) as [[l1 w1]| |] eqn:Hb;
      try discriminate.
    intros Hj Hc.
    apply read_body_Next in Hb as (_ & Hmm & Hn1 & Hc1 & _); [|exact Hc].
    apply for_m_cells in Hmm as [Hin1 Hout1]; [|exact Hc].
    destruct (IH _ _ _ _ _ Hj Hc1) as [Hin Hout]. split.
    + intros i m t s c Hi Hm Ht Hcr Hpos.
      destruct (decide (i = 0)) as [->|Hne].
      * rewrite Hout by nia. rewrite Z.add_0_r.
        rewrite <- (Z.add_0_l m) at 1. apply Hin1; [lia|lia|lia|]. lia.
      * replace (j + i) with (j + 1 + (i - 1)) by lia.
        apply Hin; [lia|lia|lia|lia|]. rewrite Hn1, Hpos. lia.
    + intros s c Hnot. rewrite Hout by lia. apply Hout1. lia.
Qed.

(** X11: at the end of the loops of a cycle that did not return, the scan
    buffer holds every sample of the cycle and nothing else: sample [t] of
    packet [m] of read [j] has running index
    [(j * readSizeMultiplier + m) * SamplesPerPacket + t], and the cell of
    scan [s], channel [c] with [s * NumChannels + c] equal to that index
    holds its code calibrated for channel [c]; no sample overwrites
    another, and no cell past the last sample is written. *)
Theorem scan_buffer_holds_every_sample node LJUSB_Stream w l w1 :
  well_configured ->
  stream_loops node LJUSB_Stream w = Next (l, w1) ->
  (forall j m t s c,
     0 <= j < numReadsPerDisplay -> 0 <= m < readSizeMultiplier ->
     0 <= t < SamplesPerPacket -> 0 <= c < NumChannels ->
     s * NumChannels + c
     = (j * readSizeMultiplier + m) * SamplesPerPacket + t ->
     voltages l !! (s, c)
     = Some (calibrate node c
               (sample_at (snd (LJUSB_Stream j)) m (12 + 2 * t))))
  /\ (forall s c,
        ~ (0 <= c < NumChannels /\ 0 <= s < voltages_rows) ->
        voltages l !! (s, c) = None).
Proof.
  intros Hcfg Hloops. pose proof (capacity Hcfg) as Hcap.
  destruct Hcfg as (Hn & Hs & Hm & Hr & Hd).
  unfold stream_loops in Hloops.
  apply for_j_cells in Hloops as [Hin Hout]; [|simpl; lia].
  rewrite !Z2Nat.id in Hin, Hout by lia.
  change (consumed init_locals) with 0 in Hin, Hout. split.
  - intros j m t s c Hj Hmr Ht Hc Hpos.
    rewrite <- (Z.add_0_l j) at 1. apply Hin; try lia.
  - intros s c Hnot. rewrite Hout; [done|].
    intros [Hc Hpos]. apply Hnot. split; [done|]. nia.
Qed.

End ScanBuffer.

Lemma scan_buffer_holds_every_sample_witness :
  voltages (fst (test_loops_end (fun _ => test_read 0 59 0 60 0))) !! (10, 3)
  = Some (Volt_hw130 3 31 3003).
Proof.
  assert (Hloops :
    @stream_loops test_driver u3_params test_node
      (fun _ => test_read 0 59 0 60 0) empty_world
    = Next (fst (test_loops_end (fun _ => test_read 0 59 0 60 0)),
            snd (test_loops_end (fun _ => test_read 0 59 0 60 0)))).
  { vm_compute. reflexivity. }
  destruct (@scan_buffer_holds_every_sample test_driver u3_params test_node
              (fun _ => test_read 0 59 0 60 0) empty_world _ _
              u3_well_configured Hloops) as [Hin _].
  etrans; [apply (Hin 0 2 3 10 3); simpl; lia|].
  vm_compute. reflexivity.
Defined.

(** ** The lines of a cycle *)

Section Lines.
Context `{U3Driver} `{StreamParams}.

Local Abbreviation World := (World float32).
Local Abbreviation LabjackNode := (LabjackNode u3CalibrationInfo).
Local Abbreviation locals := (locals double).

Implicit Types (node : LabjackNode) (recBuff : list Z) (l : locals)
  (w : World) (m j tp a : Z) (n : nat) (on : bool) (ms : list Msg)
  (LJUSB_Stream : Z -> Z * list Z).

Lemma recovery_trace_app ms1 : forall on ms2,
  recovery_trace on (ms1 ++ ms2)
  = recovery_trace on ms1 ≫= fun on' => recovery_trace on' ms2.
Proof.
  induction ms1 as [|e ms1 IH]; intros on ms2; simpl; [done|].
  destruct (is_overflow_line e); [destruct on; [done|apply IH]|].
  destruct (is_recovery_line e); apply IH.
Qed.

(** What one packet adds to the console. *)
Lemma packet_status_lines recBuff m tp a w :
  match packet_status recBuff m tp a w with
  | Next (a', w') =>
      exists ms, console w' = console w ++ ms /\ Forall status_line ms
        /\ recovery_trace (pending a) ms = Some (pending a')
  | Return w' =>
      exists e, console w' = console w ++ [e] /\ msg_sink e = LogError
  | Undefined => False
  end.
Proof.
  destruct (checks_pass recBuff m) eqn:Hc.
  - rewrite (packet_status_checks_pass _ _ _ _ _ Hc). unfold pending.
    destruct (status_byte recBuff m =? 59); [destruct (a =? 0) eqn:Ha|].
    + exists [overflow_msg tp]. split; [done|].
      split; [by repeat constructor|done].
    + exists []. rewrite app_nil_r. rewrite Ha. by repeat split.
    + destruct (status_byte recBuff m =? 60).
      * exists [recovery_msg tp
                  (byte_at recBuff (m * recBuffSize + 6)
                   + byte_at recBuff (m * recBuffSize + 7) * 256)].
        split; [done|]. split; [by repeat constructor|done].
      * destruct (negb (status_byte recBuff m =? 0)).
        -- by eexists.
        -- exists []. rewrite app_nil_r. by repeat split.
  - destruct (packet_status_checks_fail recBuff m tp a w Hc) as [fmt ->].
    by eexists.
Qed.

End Lines.

Section CycleLines.
Context `{U3Driver} `{StreamParams}.

Local Abbreviation World := (World float32).
Local Abbreviation LabjackNode := (LabjackNode u3CalibrationInfo).
Local Abbreviation locals := (locals double).
Local Abbreviation flow := (flow float32).

Implicit Types (node : LabjackNode) (recBuff : list Z) (l : locals)
  (w : World) (m j tp a : Z) (n : nat) (on : bool) (ms : list Msg)
  (LJUSB_Stream : Z -> Z * list Z).

(** One stretch after another. *)
Lemma loop_lines_step {A} (flag_of : A -> Z) on w (x : A) (w1 : World)
    (r : flow (A * World)) :
  loop_lines flag_of on w (Next (x, w1)) ->
  loop_lines flag_of (pending (flag_of x)) w1 r ->
  loop_lines flag_of on w r.
Proof.
  intros (Hu1 & Hp1 & ms1 & Hc1 & Hs1 & Ht1).
  destruct r as [[y w2]|w2|]; [| |done].
  - intros (Hu2 & Hp2 & ms2 & Hc2 & Hs2 & Ht2).
    split; [congruence|]. split; [congruence|].
    exists (ms1 ++ ms2). split; [by rewrite Hc2, Hc1, app_assoc|].
    split; [by apply Forall_app|].
    by rewrite recovery_trace_app, Ht1.
  - intros (Hu2 & Hp2 & ms2 & e & Hc2 & Hs2 & Ht2 & He).
    split; [congruence|]. split; [congruence|].
    exists (ms1 ++ ms2), e. split; [by rewrite Hc2, Hc1, !app_assoc|].
    split; [by apply Forall_app|].
    split; [by rewrite recovery_trace_app, Ht1|done].
Qed.

Lemma loop_lines_error {A} (flag_of : A -> Z) on fmt args w :
  loop_lines flag_of on w (Return (RCLCPP_ERROR fmt args w)).
Proof.
  split; [done|]. split; [done|].
  exists [], (mkMsg LogError fmt args). by repeat split.
Qed.

Lemma packet_body_lines node recBuff m l w :
  loop_lines autoRecoveryOn (pending (autoRecoveryOn l)) w
    (packet_body node recBuff m (l, w)).
Proof.
  unfold packet_body.
  pose proof (packet_status_lines recBuff m (totalPackets l + 1)
                (autoRecoveryOn l) w) as Hst.
  destruct (packet_status _ _ _ _ _) as [[a' w1]|w1|] eqn:Hs; [| |done].
  - rewrite (for_k_frame node _ m _ _ _ 12 l).
    destruct (for_k node recBuff m _ 12 l) as [lk|]; simpl; [|done].
    pose proof (packet_status_Next _ _ _ _ _ _ _ Hs) as (_ & _ & He & _).
    destruct He as (Hu & Hp & _). auto.
  - pose proof (packet_status_Return _ _ _ _ _ _ Hs) as (_ & Hu & Hp & _).
    destruct Hst as (e & Hc & He).
    split; [done|]. split; [done|]. exists [], e. by repeat split.
Qed.

Lemma for_m_lines node recBuff n : forall m l w,
  loop_lines autoRecoveryOn (pending (autoRecoveryOn l)) w
    (for_m node recBuff n m (l, w)).
Proof.
  induction n as [|n IH]; intros m l w; cbn [for_m].
  - split; [done|]. split; [done|]. exists []. rewrite app_nil_r.
    by repeat split.
  - pose proof (packet_body_lines node recBuff m l w) as Hb.
    destruct (packet_body node recBuff m (l, w)) as [[l1 w1]|w1|];
      [|done..].
    eapply loop_lines_step; [exact Hb|apply IH].
Qed.

Lemma read_body_lines node (rd : Z * list Z) l w :
  loop_lines autoRecoveryOn (pending (autoRecoveryOn l)) w
    (read_body node rd (l, w)).
Proof.
  destruct rd as [recChars recBuff]. unfold read_body.
  destruct (recChars <? _); [|apply for_m_lines].
  destruct (recChars =? 0); apply loop_lines_error.
Qed.

Lemma for_j_lines node LJUSB_Stream n : forall j l w,
  loop_lines autoRecoveryOn (pending (autoRecoveryOn l)) w
    (for_j node LJUSB_Stream n j (l, w)).
Proof.
  induction n as [|n IH]; intros j l w; cbn [for_j].
  - split; [done|]. split; [done|]. exists []. rewrite app_nil_r.
    by repeat split.
  - pose proof (read_body_lines node (LJUSB_Stream j) l w) as Hb.
    destruct (read_body node (LJUSB_Stream j) (l, w)) as [[l1 w1]|w1|];
      [|done..].
    eapply loop_lines_step; [exact Hb|apply IH].
Qed.

(** X12: the lines a defined cycle adds to the console are overflow and
    auto-recovery reports, never two overflow reports without a recovery
    report between them, followed either by one error line of the logger,
    with nothing published, or by the two debug lines, with one message
    published; nothing is written to the device. *)
Theorem cycle_console_shape node LJUSB_Stream w w' :
  onReadAndPubTimer node LJUSB_Stream w = Some w' ->
  usb_written w' = usb_written w
  /\ exists ms tail,
       console w' = console w ++ ms ++ tail
       /\ Forall status_line ms
       /\ is_Some (recovery_trace false ms)
       /\ ((exists e, tail = [e] /\ msg_sink e = LogError
                      /\ published w' = published w)
           \/ (exists sn tp data,
                 tail = [mkMsg LogDebug "Number of scans: %d\n" [sn];
                         mkMsg LogDebug "Total packets read: %d\n" [tp]]
                 /\ published w' = published w ++ [data])).
Proof.
  unfold onReadAndPubTimer, stream_loops.
  pose proof (for_j_lines node LJUSB_Stream (Z.to_nat numReadsPerDisplay) 0
                init_locals w) as Hl.
  destruct (for_j _ _ _ _ _) as [[l w1]|w1|]; [| |discriminate].
  - destruct Hl as (Hu & Hp & ms & Hc & Hs & Ht).
    unfold emit_scan.
    destruct (read_scan _ _ _ _) as [data|]; [|discriminate].
    intros [= <-]. cbn [usb_written console published publish RCLCPP_DEBUG
                        emit].
    split; [exact Hu|]. eexists ms, _.
    split; [rewrite Hc, <- !app_assoc; reflexivity|].
    split; [exact Hs|]. split; [by eexists|].
    right. eexists _, _, data. split; [reflexivity|by rewrite Hp].
  - destruct Hl as (Hu & Hp & ms & e & Hc & Hs & Ht & He).
    intros [= <-]. split; [exact Hu|]. exists ms, [e].
    split; [exact Hc|]. split; [exact Hs|]. split; [exact Ht|].
    left. by exists e.
Qed.

End CycleLines.

Lemma cycle_console_shape_witness :
  exists w',
    @onReadAndPubTimer test_driver u3_params test_node
      (fun _ => test_read 59 59 60 59 0) empty_world = Some w'
    /\ usb_written w' = usb_written empty_world.
Proof.
  destruct (@onReadAndPubTimer test_driver u3_params test_node
              (fun _ => test_read 59 59 60 59 0) empty_world)
    as [w'|] eqn:E.
  - exists w'. split; [reflexivity|].
    apply (@cycle_console_shape test_driver u3_params test_node
             (fun _ => test_read 59 59 60 59 0) empty_world w' E).
  - vm_compute in E. discriminate E.
Defined.

Section EdgeCycles.
Context `{U3Driver} `{StreamParams}.

Local Abbreviation World := (World float32).
Local Abbreviation LabjackNode := (LabjackNode u3CalibrationInfo).

Implicit Types (node : LabjackNode) (w : World)
  (LJUSB_Stream : Z -> Z * list Z).

(** X13: a cycle without a fatal condition ends its console lines with
    the number of scans, which is the first dimension of [voltages], and
    the number of packets read, [numReadsPerDisplay * readSizeMultiplier]
    (25 and 5 for the constants of the source). *)
Theorem cycle_debug_lines node LJUSB_Stream w :
  well_configured ->
  ~ cycle_fatal LJUSB_Stream ->
  exists w' ms,
    onReadAndPubTimer node LJUSB_Stream w = Some w'
    /\ console w'
       = console w ++ ms
         ++ [mkMsg LogDebug "Number of scans: %d\n" [voltages_rows];
             mkMsg LogDebug "Total packets read: %d\n"
               [numReadsPerDisplay * readSizeMultiplier]].
Proof.
  intros Hcfg Hnf. unfold onReadAndPubTimer.
  destruct (stream_loops node LJUSB_Stream w) as [[l w1]|w'|] eqn:Hloops.
  - pose proof (read_last_row Hcfg _ _ _ _ _ Hloops) as Hread.
    destruct (stream_loops_Next Hcfg _ _ _ _ _ Hloops)
      as (Hs & _ & Ht & (_ & _ & ms & Hc) & _).
    unfold emit_scan. rewrite Hread, Hs, Ht. eexists _, ms.
    split; [reflexivity|].
    cbn [console publish RCLCPP_DEBUG emit]. rewrite Hc.
    by rewrite <- !app_assoc.
  - exfalso. apply Hnf. destruct Hcfg as (Hn & _ & Hm & Hr & _).
    unfold stream_loops in Hloops.
    apply for_j_Return_bad in Hloops as (i & Hi & Hbad); [|simpl; lia].
    rewrite Z.add_0_l in Hbad. exists i. split; [lia|exact Hbad].
  - by apply (stream_loops_defined Hcfg) in Hloops.
Qed.

(** X14: when the first read of a cycle comes back short, the callback
    returns at once with one error line, "read failed" for zero bytes and
    otherwise the byte counts expected and received; the bytes of the
    buffer play no part. *)
Theorem short_read_reports_counts node LJUSB_Stream w :
  0 < numReadsPerDisplay ->
  fst (LJUSB_Stream 0) < responseSize * readSizeMultiplier ->
  onReadAndPubTimer node LJUSB_Stream w
  = Some (if fst (LJUSB_Stream 0) =? 0
          then RCLCPP_ERROR "Error : read failed (StreamData).\n" [] w
          else RCLCPP_ERROR
                 "Error : did not read all of the buffer, expected %d bytes but received %d(StreamData).\n"
                 [responseSize * readSizeMultiplier; fst (LJUSB_Stream 0)] w).
Proof.
  intros Hr Hshort. unfold onReadAndPubTimer, stream_loops.
  destruct (Z.to_nat numReadsPerDisplay) as [|n] eqn:En; [lia|].
  cbn [for_j]. destruct (LJUSB_Stream 0) as [recChars recBuff].
  unfold read_body. cbn [fst] in *.
  apply Z.ltb_lt in Hshort. rewrite Hshort.
  by destruct (recChars =? 0).
Qed.

(** X15: when the first packet of the first read passes the checks and
    carries an error status, the callback returns at once and the error
    line carries that status byte. *)
Theorem first_packet_error_code node LJUSB_Stream w :
  0 < numReadsPerDisplay -> 0 < readSizeMultiplier ->
  responseSize * readSizeMultiplier <= fst (LJUSB_Stream 0) ->
  checks_pass (snd (LJUSB_Stream 0)) 0 = true ->
  status_fatal (snd (LJUSB_Stream 0)) 0 = true ->
  onReadAndPubTimer node LJUSB_Stream w
  = Some (say (errorcode_msg (status_byte (snd (LJUSB_Stream 0)) 0)) w).
Proof.
  intros Hr Hm Hfull Hck Hst. unfold onReadAndPubTimer, stream_loops.
  destruct (Z.to_nat numReadsPerDisplay) as [|n] eqn:En; [lia|].
  cbn [for_j]. destruct (LJUSB_Stream 0) as [recChars recBuff].
  unfold read_body. cbn [fst snd] in *.
  apply Z.ltb_ge in Hfull. rewrite Hfull.
  destruct (Z.to_nat readSizeMultiplier) as [|k] eqn:Ek; [lia|].
  cbn [for_m]. unfold packet_body.
  rewrite (packet_status_checks_pass _ _ _ _ _ Hck).
  unfold status_fatal in Hst.
  destruct (status_byte recBuff 0 =? 59); [discriminate|].
  destruct (status_byte recBuff 0 =? 60); [discriminate|].
  destruct (status_byte recBuff 0 =? 0); [discriminate|].
  reflexivity.
Qed.

End EdgeCycles.

Lemma test_tick_good :
  ~ @cycle_fatal test_driver u3_params (fun _ => test_read 0 59 0 60 0).
Proof.
  intros (j & Hj & [Hshort|(m & Hm & Hbad)]).
  - vm_compute in Hshort. discriminate Hshort.
  - change (@numReadsPerDisplay u3_params) with 1 in Hj.
    change (@readSizeMultiplier u3_params) with 5 in Hm.
    cbn [snd] in Hbad.
    assert (Hcases : m = 0 \/ m = 1 \/ m = 2 \/ m = 3 \/ m = 4) by lia.
    destruct Hcases as [->|[->|[->|[->| ->]]]];
      vm_compute in Hbad; destruct Hbad; discriminate.
Defined.

Lemma cycle_debug_lines_witness :
  exists w' ms,
    @onReadAndPubTimer test_driver u3_params test_node
      (fun _ => test_read 0 59 0 60 0) empty_world = Some w'
    /\ console w'
       = ms ++ [mkMsg LogDebug "Number of scans: %d\n" [25];
                mkMsg LogDebug "Total packets read: %d\n" [5]].
Proof.
  exact (@cycle_debug_lines test_driver u3_params test_node
           (fun _ => test_read 0 59 0 60 0) empty_world
           u3_well_configured test_tick_good).
Defined.

Lemma short_read_reports_counts_witness :
  @onReadAndPubTimer test_driver u3_params test_node
    (fun _ => (64, fst (test_read 0 0 0 0 0) :: [])) empty_world
  = Some (mkWorld []
            [mkMsg LogError
               "Error : did not read all of the buffer, expected %d bytes but received %d(StreamData).\n"
               [320; 64]] []).
Proof.
  etrans; [apply (@short_read_reports_counts test_driver u3_params)|].
  - unfold responseSize. simpl. lia.
  - unfold responseSize. simpl. lia.
  - reflexivity.
Defined.

Lemma first_packet_error_code_witness :
  @onReadAndPubTimer test_driver u3_params test_node
    (fun _ => test_read 48 0 0 0 0) empty_world
  = Some (mkWorld [] [errorcode_msg 48] []).
Proof.
  etrans; [apply (@first_packet_error_code test_driver u3_params)|].
  - unfold responseSize. simpl. lia.
  - unfold responseSize. simpl. lia.
  - unfold responseSize. simpl. lia.
  - vm_compute. reflexivity.
  - vm_compute. reflexivity.
  - vm_compute. reflexivity.
Defined.
